(** * ascl-bot: tenant orchestration (host_manager.py, session_manager.py,
    security_manager.py, auth_proxy.py)

    A shallow embedding of the credential pool, the host manager, the
    Telegram session manager, the secure clean-up of tenant data and the
    authentication proxy that drives the two managers, with the properties
    the specification states about them.

    Conventions of the embedding.
    - Python [int] is [Z]; clock readings ([time.time()],
      [datetime.now().timestamp()]) are passed in as [Z] arguments, one per
      read, and float rounding is not modelled.
    - Python objects that are shared by reference ([APICredential]) live in
      a store indexed by [loc]; dictionaries are [gmap]s.
    - Code runs in a state/exception monad: a raised exception keeps the
      mutations made so far, as in Python.
    - What the outside world answers (file system, processes, the Telegram
      provider) is an argument of the function that asks; what the code
      does to the outside world is appended to a trace of events. *)

From Stdlib Require Import ZArith Lia.
From Stdlib.Strings Require Import Byte.
From stdpp Require Import gmap strings list fin_maps pretty.

(** ** Exceptions, results and the monad *)

Inductive ExnClass :=
  | ProcessLookupError
  | PhoneNumberInvalidError
  | SessionPasswordNeededError
  | PhoneCodeInvalidError
  | OtherException.

Record Exn := mkExn { exn_class : ExnClass; exn_msg : string }.

Inductive Res (A : Type) :=
  | Val (a : A)
  | Raise (e : Exn).
Arguments Val {A} a.
Arguments Raise {A} e.

Definition M (St A : Type) : Type := St → Res A * St.

Definition ret {St A} (a : A) : M St A := λ s, (Val a, s).

Definition bind {St A B} (c : M St A) (k : A → M St B) : M St B :=
  λ s, match c s with
       | (Val a, s') => k a s'
       | (Raise e, s') => (Raise e, s')
       end.

Definition raise {St A} (e : Exn) : M St A := λ s, (Raise e, s).

(** [try: body except Exception as e: handler e]. *)
Definition try_except {St A} (body : M St A) (handler : Exn → M St A) : M St A :=
  λ s, match body s with
       | (Val a, s') => (Val a, s')
       | (Raise e, s') => handler e s'
       end.

Definition get {St} : M St St := λ s, (Val s, s).
Definition modify {St} (f : St → St) : M St unit := λ s, (Val tt, f s).

(** An external call whose outcome the environment decides: [None] when it
    returns, [Some e] when it raises [e]. *)
Definition ext {St} (outcome : option Exn) : M St unit :=
  match outcome with
  | None => ret tt
  | Some e => raise e
  end.

Definition returned (outcome : option Exn) : bool :=
  match outcome with
  | None => true
  | Some _ => false
  end.

Declare Scope py_scope.
Delimit Scope py_scope with py.
Notation "x <- c ;; k" := (bind c (λ x, k))
  (at level 100, c at next level, right associativity) : py_scope.
Notation "c ;;; k" := (bind c (λ _, k))
  (at level 100, right associativity) : py_scope.

Inductive Level := INFO | WARNING | ERROR.

(** Python's [min(l, key=key)] on a non-empty list [x :: l]: the first
    element whose key is minimal (an element replaces the current best only
    when its key is strictly smaller). *)
Fixpoint min_from {A} (key : A → Z) (best : A) (l : list A) : A :=
  match l with
  | [] => best
  | x :: l' => min_from key (if (key x <? key best)%Z then x else best) l'
  end.

Definition py_min {A} (key : A → Z) (l : list A) : option A :=
  match l with
  | [] => None
  | x :: l' => Some (min_from key x l')
  end.

(** ** host_manager.py *)

Module host_manager.

Definition loc := nat.

Record APICredential := mkAPICredential {
  api_id : Z;
  api_hash : string;
  app_name : string;
  in_use : Z;
  max_users : Z;
  created_at : Z;
  last_used : Z
}.

Record UserInstance := mkUserInstance {
  user_id : Z;
  phone : string;
  api_credential : loc;          (* a reference, not a copy *)
  process_id : option Z;
  status : string;               (* "inactive", "starting", "active", "error" *)
  instance_created_at : Z;
  last_activity : Z;
  session_path : string;
  config_path : string
}.

(** What the host manager does to the outside world: one event per call
    made, recorded when the call is made, whether it then returns or
    raises. [Log] keeps the literal text of the f-string and its numeric
    arguments. *)
Inductive Event :=
  | Log (lvl : Level) (text : string) (args : list Z)
  | SaveCredentials              (* api_credentials.json rewritten from the pool *)
  | SaveInstances                (* user_instances.json rewritten from the registry *)
  | Mkdirs (uid : Z)
  | WriteConfig (uid : Z) (phone : string) (api_id : Z) (api_hash : string) (key : string)
  | CopyBotFiles (uid : Z)
  | Spawn (uid : Z)
  | Kill (pid : Z)
  | Rmtree (uid : Z).

Record Host := mkHost {
  heap : gmap loc APICredential;          (* the APICredential objects *)
  credentials : list loc;                 (* api_pool.credentials *)
  user_instances : gmap Z UserInstance;   (* HostManager.user_instances *)
  user_dirs : gset Z;                     (* u such that user_instances/user_{u} exists *)
  trace : list Event
}.

Definition set_heap (f : gmap loc APICredential → gmap loc APICredential) (w : Host) : Host :=
  mkHost (f (heap w)) (credentials w) (user_instances w) (user_dirs w) (trace w).
Definition set_user_instances (f : gmap Z UserInstance → gmap Z UserInstance) (w : Host) : Host :=
  mkHost (heap w) (credentials w) (f (user_instances w)) (user_dirs w) (trace w).
Definition set_user_dirs (f : gset Z → gset Z) (w : Host) : Host :=
  mkHost (heap w) (credentials w) (user_instances w) (f (user_dirs w)) (trace w).
Definition emit (e : Event) : M Host unit :=
  modify (λ w, mkHost (heap w) (credentials w) (user_instances w) (user_dirs w) (trace w ++ [e])).
Definition log (lvl : Level) (text : string) (args : list Z) : M Host unit :=
  emit (Log lvl text args).

(** Reading through a reference. A Python reference always designates an
    object; the model raises on a reference outside the store only to be
    total. *)
Definition deref (l : loc) : M Host APICredential :=
  λ w, match heap w !! l with
       | Some c => (Val c, w)
       | None => (Raise (mkExn OtherException "dangling reference"), w)
       end.

(** *** APICredentialPool *)

(** The objects of [self.credentials], in list order, with their identity. *)
Definition pool_objects (w : Host) : list (loc * APICredential) :=
  omap (λ l, (λ c, (l, c)) <$> heap w !! l) (credentials w).

Definition is_available (c : APICredential) : bool := (in_use c <? max_users c)%Z.

Definition get_available_credential (w : Host) : option loc :=
  let available := filter (λ p, is_available (snd p) = true) (pool_objects w) in
  match available with
  | [] => None
  | _ => fst <$> py_min (λ x, in_use (snd x)) available
  end.

Definition save_credentials : M Host unit := emit SaveCredentials.

Definition allocate_credential (now : Z) (credential : loc) : M Host bool :=
  (c <- deref credential ;;
   if (max_users c <=? in_use c)%Z then ret false
   else
     modify (set_heap <[credential :=
       mkAPICredential (api_id c) (api_hash c) (app_name c) (in_use c + 1)
                       (max_users c) (created_at c) now]>) ;;;
     save_credentials ;;;
     ret true)%py.

Definition release_credential (credential : loc) : M Host bool :=
  (c <- deref credential ;;
   if (0 <? in_use c)%Z then
     modify (set_heap <[credential :=
       mkAPICredential (api_id c) (api_hash c) (app_name c) (in_use c - 1)
                       (max_users c) (created_at c) (last_used c)]>) ;;;
     save_credentials ;;;
     ret true
   else ret false)%py.

(** *** UserIsolator *)

Definition user_path (user_id : Z) : string :=
  "user_instances/user_" +:+ pretty user_id.

(** Outcome of the file-system calls made while a tenant's environment and
    configuration file are written. *)
Record ConfigIO := mkConfigIO {
  io_mkdir_user : option Exn;      (* user_path.mkdir(exist_ok=True) *)
  io_mkdir_subdirs : option Exn;   (* sessions, logs, data *)
  io_write_config : option Exn     (* open(config_path, 'w') and f.write *)
}.

Definition io_ok : ConfigIO := mkConfigIO None None None.

Definition create_user_environment (io : ConfigIO) (user_id : Z) : M Host string :=
  (ext (io_mkdir_user io) ;;;
   modify (set_user_dirs (λ d, {[user_id]} ∪ d)) ;;;
   ext (io_mkdir_subdirs io) ;;;
   emit (Mkdirs user_id) ;;;
   log INFO "Created user environment: {user_path}" [user_id] ;;;
   ret (user_path user_id))%py.

Definition create_user_config (io : ConfigIO) (user_id : Z) (phone : string)
    (api_cred : loc) (openai_key : string) : M Host string :=
  (user_path <- create_user_environment io user_id ;;
   let config_path := user_path +:+ "/.env" in
   c <- deref api_cred ;;
   ext (io_write_config io) ;;;
   emit (WriteConfig user_id phone (api_id c) (api_hash c) openai_key) ;;;
   log INFO "Created user config: {config_path}" [user_id] ;;;
   ret config_path)%py.

(** *** HostManager *)

Definition save_user_instances : M Host unit := emit SaveInstances.

Definition create_user_instance (io : ConfigIO) (now_alloc now_created : Z)
    (user_id : Z) (phone : string) (openai_key : string) : M Host bool :=
  try_except
    (w <- get ;;
     match user_instances w !! user_id with
     | Some _ =>
         log WARNING "User {user_id} already has an instance" [user_id] ;;;
         ret false
     | None =>
         match get_available_credential w with
         | None =>
             log ERROR "No available API credentials" [] ;;;
             ret false
         | Some api_cred =>
             allocated <- allocate_credential now_alloc api_cred ;;
             if negb allocated then
               log ERROR "Failed to allocate API credential" [] ;;;
               ret false
             else
               config_path <- create_user_config io user_id phone api_cred openai_key ;;
               let instance :=
                 mkUserInstance user_id phone api_cred None "inactive" now_created 0
                   (user_path user_id +:+ "/sessions") config_path in
               modify (set_user_instances <[user_id := instance]>) ;;;
               save_user_instances ;;;
               log INFO "Created user instance for {user_id}" [user_id] ;;;
               ret true
         end
     end)%py
    (λ e, log ERROR "Error creating user instance for {user_id}: {e}" [user_id] ;;;
          ret false)%py.

(** Outcome of copying the bot files and spawning the worker. *)
Record SpawnIO := mkSpawnIO {
  io_copy : option Exn;            (* _copy_bot_files *)
  io_spawn : Exn + Z               (* create_subprocess_exec: raises, or process.pid *)
}.

Definition start_user_bot (io : SpawnIO) (now : Z) (user_id : Z) : M Host bool :=
  try_except
    (w <- get ;;
     match user_instances w !! user_id with
     | None =>
         log ERROR "No instance found for user {user_id}" [user_id] ;;;
         ret false
     | Some instance =>
         if String.eqb (status instance) "active" then
           log INFO "Bot already active for user {user_id}" [user_id] ;;;
           ret true
         else
           emit (CopyBotFiles user_id) ;;;
           ext (io_copy io) ;;;
           emit (Spawn user_id) ;;;
           match io_spawn io with
           | inl e => raise e
           | inr pid =>
               modify (set_user_instances <[user_id :=
                 mkUserInstance (host_manager.user_id instance) (phone instance)
                   (api_credential instance) (Some pid) "active"
                   (instance_created_at instance) now
                   (session_path instance) (config_path instance)]>) ;;;
               save_user_instances ;;;
               log INFO "Started bot for user {user_id} (PID: {process.pid})" [user_id; pid] ;;;
               ret true
           end
     end)%py
    (λ e, log ERROR "Error starting bot for user {user_id}: {e}" [user_id] ;;;
          ret false)%py.

(** Truthiness of [instance.process_id]: neither [None] nor [0]. *)
Definition truthy_pid (p : option Z) : option Z :=
  match p with
  | Some pid => if (pid =? 0)%Z then None else Some pid
  | None => None
  end.

Definition stop_user_bot (kill_outcome : option Exn) (user_id : Z) : M Host bool :=
  try_except
    (w <- get ;;
     match user_instances w !! user_id with
     | None => ret true
     | Some instance =>
         if negb (String.eqb (status instance) "active") then ret true
         else
           match truthy_pid (process_id instance) with
           | Some pid =>
               try_except
                 (emit (Kill pid) ;;;
                  ext kill_outcome ;;;
                  log INFO "Stopped bot for user {user_id}" [user_id])
                 (λ e, match exn_class e with
                       | ProcessLookupError =>
                           log WARNING "Process {instance.process_id} not found" [pid]
                       | _ => raise e
                       end)
           | None => ret tt
           end ;;;
           modify (set_user_instances <[user_id :=
             mkUserInstance (host_manager.user_id instance) (phone instance)
               (api_credential instance) None "inactive"
               (instance_created_at instance) (last_activity instance)
               (session_path instance) (config_path instance)]>) ;;;
           save_user_instances ;;;
           ret true
     end)%py
    (λ e, log ERROR "Error stopping bot for user {user_id}: {e}" [user_id] ;;;
          ret false)%py.

Definition remove_user_instance (kill_outcome rmtree_outcome : option Exn)
    (user_id : Z) : M Host bool :=
  try_except
    (stop_user_bot kill_outcome user_id ;;;
     w <- get ;;
     match user_instances w !! user_id with
     | Some instance =>
         release_credential (api_credential instance) ;;;
         modify (set_user_instances (delete user_id)) ;;;
         save_user_instances
     | None => ret tt
     end ;;;
     w' <- get ;;
     (if bool_decide (user_id ∈ user_dirs w') then
        emit (Rmtree user_id) ;;;
        ext rmtree_outcome ;;;
        modify (set_user_dirs (λ d, d ∖ {[user_id]}))
      else ret tt) ;;;
     log INFO "Removed user instance for {user_id}" [user_id] ;;;
     ret true)%py
    (λ e, log ERROR "Error removing user instance for {user_id}: {e}" [user_id] ;;;
          ret false)%py.

(** [load_user_instances], given the decoded content of
    user_instances.json when the file exists: every record carries its own
    copy of the credential, and the constructor call on the decoded
    [api_credential] dictionary builds a new object from it. *)
Record InstanceData := mkInstanceData {
  data_user_id : Z;
  data_phone : string;
  data_api_credential : APICredential;
  data_created_at : Z;
  data_session_path : string;
  data_config_path : string
}.

Definition load_instance (d : InstanceData) (w : Host) : Host :=
  let api_cred := fresh (dom (heap w)) in
  let instance :=
    mkUserInstance (data_user_id d) (data_phone d) api_cred None "inactive"
      (data_created_at d) 0 (data_session_path d) (data_config_path d) in
  set_user_instances <[data_user_id d := instance]>
    (set_heap <[api_cred := data_api_credential d]> w).

Definition load_user_instances (file : option (list InstanceData)) : M Host unit :=
  match file with
  | None => ret tt
  | Some data =>
      (modify (λ w, foldl (λ w d, load_instance d w) w data) ;;;
       w <- get ;;
       log INFO "Loaded {len(self.user_instances)} user instances"
         [Z.of_nat (size (user_instances w))])%py
  end.

(** Sequences of calls on the credential pool. *)
Inductive PoolOp :=
  | GetAvailableCredential
  | AllocateCredential (now : Z) (credential : loc)
  | ReleaseCredential (credential : loc)
  | SaveCredentialsOp.

Definition run_pool_op (op : PoolOp) (w : Host) : Host :=
  match op with
  | GetAvailableCredential => let _ := get_available_credential w in w
  | AllocateCredential now l => snd (allocate_credential now l w)
  | ReleaseCredential l => snd (release_credential l w)
  | SaveCredentialsOp => snd (save_credentials w)
  end.

Definition run_pool_ops (ops : list PoolOp) (w : Host) : Host :=
  foldl (λ w op, run_pool_op op w) w ops.

(** The invariant of one credential object. *)
Definition in_bounds (c : APICredential) : Prop :=
  (0 ≤ in_use c ≤ max_users c)%Z.

(** Everything but the trace is the same. *)
Definition same_state (w w' : Host) : Prop :=
  heap w' = heap w ∧ credentials w' = credentials w ∧
  user_instances w' = user_instances w ∧ user_dirs w' = user_dirs w.

Definition with_in_use (n : Z) (c : APICredential) : APICredential :=
  mkAPICredential (api_id c) (api_hash c) (app_name c) n
    (max_users c) (created_at c) (last_used c).

(** A host with one tenant, 7, created on credential object 0 and never
    started, whose directory exists. *)
Definition one_tenant : Host :=
  mkHost {[ 0 := mkAPICredential 12345 "hash" "ASCL_App_1" 1 100 0 50 ]} [0]
    {[ 7%Z := mkUserInstance 7 "+1000" 0 None "inactive" 50 0
                "user_instances/user_7/sessions" "user_instances/user_7/.env" ]}
    {[ 7%Z ]} [].

(** An empty registry and a pool of one credential with room for one
    user. *)
Definition pool_of_one : Host :=
  mkHost {[ 0 := mkAPICredential 12345 "hash" "ASCL_App_1" 0 1 0 0 ]} [0] ∅ ∅ [].

(** [load_credentials], given what is on disk: [None] when
    api_credentials.json does not exist, otherwise what reading and
    decoding it gives (the decoded credentials, defaults filled in, or the
    exception raised). When the file is missing the default file is
    written ([write_default] is how that write goes; the trace has no
    event for it), and [self.credentials] stays the empty list of
    [__init__]. *)
Definition new_credential (c : APICredential) (w : Host) : Host :=
  let l := fresh (dom (heap w)) in
  mkHost (<[l := c]> (heap w)) (credentials w ++ [l]) (user_instances w)
    (user_dirs w) (trace w).

Definition set_credentials (ls : list loc) (w : Host) : Host :=
  mkHost (heap w) ls (user_instances w) (user_dirs w) (trace w).

Definition load_credentials (file : option (Exn + list APICredential))
    (write_default : option Exn) : M Host unit :=
  try_except
    (match file with
     | Some (inl e) => raise e
     | Some (inr data) =>
         modify (λ w, foldl (λ w c, new_credential c w) (set_credentials [] w) data) ;;;
         w <- get ;;
         log INFO "Loaded {len(self.credentials)} API credential sets"
           [Z.of_nat (length (credentials w))]
     | None =>
         (* create_default_credentials *)
         ext write_default ;;;
         log INFO "Created default API credentials file - please update with real credentials" []
     end)%py
    (λ e, log ERROR "Error loading API credentials: {e}" [] ;;;
          modify (set_credentials []))%py.

(** [APICredentialPool.__init__] and [HostManager.__init__]. The
    directory that [UserIsolator.__init__] makes is not part of the
    state. *)
Definition pool_init (file : option (Exn + list APICredential))
    (write_default : option Exn) : M Host unit :=
  (modify (set_credentials []) ;;;
   load_credentials file write_default)%py.

Definition host_manager_init (credentials_file : option (Exn + list APICredential))
    (write_default : option Exn) (mkdir_base : option Exn)
    (instances_file : option (list InstanceData)) : M Host unit :=
  (pool_init credentials_file write_default ;;;
   ext mkdir_base ;;;
   modify (set_user_instances (λ _, ∅)) ;;;
   load_user_instances instances_file)%py.

(** [get_user_status]: [None] stands for the dictionary
    [{"exists": False}]. *)
Record UserStatus := mkUserStatus {
  reported_status : string;
  reported_phone : string;
  reported_created_at : Z;
  reported_last_activity : Z;
  reported_process_id : option Z
}.

Definition get_user_status (user_id : Z) (w : Host) : option UserStatus :=
  match user_instances w !! user_id with
  | None => None
  | Some instance =>
      Some (mkUserStatus (status instance) (phone instance)
              (instance_created_at instance) (last_activity instance)
              (process_id instance))
  end.

Record SystemStatus := mkSystemStatus {
  total_users : nat;
  active_instances : nat;
  api_credentials : nat;
  api_usage : Z;
  system_uptime : Z
}.

Definition get_system_status (now : Z) (w : Host) : SystemStatus :=
  mkSystemStatus
    (size (user_instances w))
    (size (filter (λ p : Z * UserInstance, status p.2 = "active") (user_instances w)))
    (length (credentials w))
    (foldr Z.add 0%Z ((λ p : loc * APICredential, in_use p.2) <$> pool_objects w))
    now.

(** Sequences of calls on the host manager. *)
Inductive HostOp :=
  | CreateUserInstance (io : ConfigIO) (now_alloc now_created : Z) (user_id : Z)
      (phone : string) (openai_key : string)
  | StartUserBot (io : SpawnIO) (now : Z) (user_id : Z)
  | StopUserBot (kill_outcome : option Exn) (user_id : Z)
  | RemoveUserInstance (kill_outcome rmtree_outcome : option Exn) (user_id : Z).

Definition run_host_op (op : HostOp) (w : Host) : Host :=
  match op with
  | CreateUserInstance io t1 t2 u ph key => (create_user_instance io t1 t2 u ph key w).2
  | StartUserBot io now u => (start_user_bot io now u w).2
  | StopUserBot k u => (stop_user_bot k u w).2
  | RemoveUserInstance k r u => (remove_user_instance k r u w).2
  end.

Definition run_host_ops (ops : list HostOp) (w : Host) : Host :=
  foldl (λ w op, run_host_op op w) w ops.

(** The number of registered tenants whose record refers to the
    credential object [l]. *)
Definition tenants_on (l : loc) (reg : gmap Z UserInstance) : nat :=
  size (filter (λ p : Z * UserInstance, api_credential p.2 = l) reg).

(** A record is filed under its own id, and it is either inactive without
    a process or active with one. *)
Definition record_ok (uid : Z) (inst : UserInstance) : Prop :=
  user_id inst = uid ∧
  ((status inst = "inactive" ∧ process_id inst = None) ∨
   (status inst = "active" ∧ is_Some (process_id inst))).

Definition registry_ok (w : Host) : Prop :=
  ∀ uid inst, user_instances w !! uid = Some inst → record_ok uid inst.

(** No credential object is counted for fewer tenants than refer to it,
    nor beyond its capacity. *)
Definition within_capacity (w : Host) : Prop :=
  ∀ l c, heap w !! l = Some c →
    (Z.of_nat (tenants_on l (user_instances w)) ≤ in_use c ≤ max_users c)%Z.

(** The changes a call on the manager can make to the credential objects
    and to the registry. *)
Inductive Effect (w w' : Host) : Prop :=
  | nothing :
      heap w' = heap w →
      user_instances w' = user_instances w →
      credentials w' = credentials w →
      Effect w w'
  | allocated l c now :
      heap w !! l = Some c →
      (in_use c < max_users c)%Z →
      heap w' = <[l := mkAPICredential (api_id c) (api_hash c) (app_name c)
                          (in_use c + 1) (max_users c) (created_at c) now]> (heap w) →
      user_instances w' = user_instances w →
      credentials w' = credentials w →
      Effect w w'
  | registered uid l c now inst :
      user_instances w !! uid = None →
      l ∈ credentials w →
      heap w !! l = Some c →
      (in_use c < max_users c)%Z →
      heap w' = <[l := mkAPICredential (api_id c) (api_hash c) (app_name c)
                          (in_use c + 1) (max_users c) (created_at c) now]> (heap w) →
      api_credential inst = l →
      record_ok uid inst →
      user_instances w' = <[uid := inst]> (user_instances w) →
      credentials w' = credentials w →
      Effect w w'
  | updated uid inst inst' :
      user_instances w !! uid = Some inst →
      api_credential inst' = api_credential inst →
      user_id inst' = user_id inst →
      ((status inst' = "inactive" ∧ process_id inst' = None) ∨
       (status inst' = "active" ∧ is_Some (process_id inst'))) →
      heap w' = heap w →
      user_instances w' = <[uid := inst']> (user_instances w) →
      credentials w' = credentials w →
      Effect w w'
  | unregistered uid inst :
      user_instances w !! uid = Some inst →
      (heap w' = heap w ∧
       ∀ c, heap w !! api_credential inst = Some c → (in_use c ≤ 0)%Z) ∨
      (∃ c, heap w !! api_credential inst = Some c ∧ (0 < in_use c)%Z ∧
            heap w' = <[api_credential inst := with_in_use (in_use c - 1) c]> (heap w)) →
      user_instances w' = delete uid (user_instances w) →
      credentials w' = credentials w →
      Effect w w'.

(** The pool has no duplicate, every reference of the pool designates an
    object, and every tenant's credential is one of the pool's. *)
Definition pool_backed (w : Host) : Prop :=
  NoDup (credentials w) ∧
  (∀ l, l ∈ credentials w → is_Some (heap w !! l)) ∧
  (∀ uid inst, user_instances w !! uid = Some inst → api_credential inst ∈ credentials w).

(** The record [start_user_bot] and [stop_user_bot] leave. *)
Definition started_record (pid now : Z) (instance : UserInstance) : UserInstance :=
  mkUserInstance (user_id instance) (phone instance) (api_credential instance)
    (Some pid) "active" (instance_created_at instance) now
    (session_path instance) (config_path instance).

Definition stopped_record (instance : UserInstance) : UserInstance :=
  mkUserInstance (user_id instance) (phone instance) (api_credential instance)
    None "inactive" (instance_created_at instance) (last_activity instance)
    (session_path instance) (config_path instance).

(** Whether the signal is sent and raises something other than
    [ProcessLookupError]. *)
Definition kill_fails (instance : UserInstance) (kill_outcome : option Exn) : bool :=
  match truthy_pid (process_id instance), kill_outcome with
  | Some _, Some e =>
      match exn_class e with
      | ProcessLookupError => false
      | _ => true
      end
  | _, _ => false
  end.

End host_manager.

(** ** session_manager.py *)

Module session_manager.

Record AuthSession := mkAuthSession {
  user_id : Z;
  phone : string;
  api_id : Z;
  api_hash : string;
  session_file : string;
  status : string;               (* "pending", "code_sent", "authenticated", "error", ... *)
  code_hash : option string;
  created_at : Z;
  expires_at : Z
}.

(** A [TelegramClient] object, known by the arguments of its constructor. *)
Record TelegramClient := mkTelegramClient {
  client_session : string;
  client_api_id : Z;
  client_api_hash : string
}.

(** The dictionaries the three operations return. *)
Record Result := mkResult {
  res_success : bool;
  res_status : string;
  res_message : string;
  res_phone : option string
}.

(** Calls made to the outside world, in order. *)
Inductive Event :=
  | Log (lvl : Level) (text : string) (args : list Z)
  | MkdirSessions (uid : Z)
  | Connect (uid : Z)
  | IsUserAuthorized (uid : Z)
  | SendCodeRequest (uid : Z) (phone : string)
  | SignInCode (uid : Z) (phone code : string) (hash : option string)
  | SignInPassword (uid : Z) (password : string)
  | Disconnect (uid : Z).

Record Manager := mkManager {
  active_sessions : gmap Z AuthSession;
  authenticated_clients : gmap Z TelegramClient;
  trace : list Event
}.

Definition set_active_sessions (f : gmap Z AuthSession → gmap Z AuthSession)
    (m : Manager) : Manager :=
  mkManager (f (active_sessions m)) (authenticated_clients m) (trace m).
Definition set_authenticated_clients (f : gmap Z TelegramClient → gmap Z TelegramClient)
    (m : Manager) : Manager :=
  mkManager (active_sessions m) (f (authenticated_clients m)) (trace m).
Definition emit (e : Event) : M Manager unit :=
  modify (λ m, mkManager (active_sessions m) (authenticated_clients m) (trace m ++ [e])).
Definition log (lvl : Level) (text : string) (args : list Z) : M Manager unit :=
  emit (Log lvl text args).

Definition set_status (st : string) (s : AuthSession) : AuthSession :=
  mkAuthSession (user_id s) (phone s) (api_id s) (api_hash s) (session_file s)
    st (code_hash s) (created_at s) (expires_at s).

(** What the file system, the provider and the clock answer during
    [start_authentication]. *)
Record StartIO := mkStartIO {
  io_mkdir : option Exn;             (* session_dir.mkdir(parents=True, exist_ok=True) *)
  io_connect : option Exn;           (* TelegramClient(...) and client.connect() *)
  io_is_authorized : Exn + bool;     (* client.is_user_authorized() *)
  io_send_code : Exn + string;       (* client.send_code_request(phone): phone_code_hash *)
  now_created : Z;                   (* first time.time() *)
  now_expires : Z                    (* second time.time() *)
}.

Definition ext_val {St A} (outcome : Exn + A) : M St A :=
  match outcome with
  | inl e => raise e
  | inr a => ret a
  end.

Definition start_authentication (io : StartIO) (user_id : Z) (phone : string)
    (api_id : Z) (api_hash : string) : M Manager Result :=
  try_except
    (emit (MkdirSessions user_id) ;;;
     ext (io_mkdir io) ;;;
     let session_file :=
       "user_instances/user_" +:+ pretty user_id +:+ "/sessions/telegram_session" in
     let client := mkTelegramClient session_file api_id api_hash in
     emit (Connect user_id) ;;;
     ext (io_connect io) ;;;
     emit (IsUserAuthorized user_id) ;;;
     authorized <- ext_val (io_is_authorized io) ;;
     if authorized : bool then
       log INFO "User {user_id} already authenticated" [user_id] ;;;
       modify (set_authenticated_clients <[user_id := client]>) ;;;
       ret (mkResult true "already_authenticated" "User is already authenticated" None)
     else
       emit (SendCodeRequest user_id phone) ;;;
       phone_code_hash <- ext_val (io_send_code io) ;;
       let auth_session :=
         mkAuthSession user_id phone api_id api_hash session_file "code_sent"
           (Some phone_code_hash) (now_created io) (now_expires io + 300) in
       modify (set_active_sessions <[user_id := auth_session]>) ;;;
       modify (set_authenticated_clients <[user_id := client]>) ;;;
       log INFO "Code sent to {phone} for user {user_id}" [user_id] ;;;
       ret (mkResult true "code_sent" ("Verification code sent to " +:+ phone) (Some phone)))%py
    (λ e, match exn_class e with
          | PhoneNumberInvalidError =>
              log ERROR "Invalid phone number: {phone}" [] ;;;
              ret (mkResult false "error" "Invalid phone number format" None)
          | _ =>
              log ERROR "Error starting authentication for {user_id}: {e}" [user_id] ;;;
              ret (mkResult false "error" ("Authentication error: " +:+ exn_msg e) None)
          end)%py.

Definition verify_code (now : Z) (sign_in : option Exn) (user_id : Z) (code : string)
    : M Manager Result :=
  try_except
    (m <- get ;;
     match active_sessions m !! user_id with
     | None => ret (mkResult false "error" "No active authentication session" None)
     | Some auth_session =>
         if (expires_at auth_session <? now)%Z then
           modify (set_active_sessions (delete user_id)) ;;;
           ret (mkResult false "error" "Authentication session expired" None)
         else
           match authenticated_clients m !! user_id with
           | None => ret (mkResult false "error" "Client not found" None)
           | Some client =>
               try_except
                 (emit (SignInCode user_id (phone auth_session) code (code_hash auth_session)) ;;;
                  ext sign_in ;;;
                  modify (set_active_sessions
                            <[user_id := set_status "authenticated" auth_session]>) ;;;
                  log INFO "User {user_id} authenticated successfully" [user_id] ;;;
                  ret (mkResult true "authenticated" "Authentication successful" None))
                 (λ e, match exn_class e with
                       | SessionPasswordNeededError =>
                           modify (set_active_sessions
                                     <[user_id := set_status "password_required" auth_session]>) ;;;
                           ret (mkResult false "password_required"
                                  "Two-factor authentication password required" None)
                       | PhoneCodeInvalidError =>
                           ret (mkResult false "error" "Invalid verification code" None)
                       | _ => raise e
                       end)
           end
     end)%py
    (λ e, log ERROR "Error verifying code for user {user_id}: {e}" [user_id] ;;;
          ret (mkResult false "error" ("Verification error: " +:+ exn_msg e) None))%py.

Definition verify_password (sign_in : option Exn) (user_id : Z) (password : string)
    : M Manager Result :=
  try_except
    (m <- get ;;
     match active_sessions m !! user_id with
     | None => ret (mkResult false "error" "No password verification required" None)
     | Some auth_session =>
         if negb (String.eqb (status auth_session) "password_required") then
           ret (mkResult false "error" "No password verification required" None)
         else
           match authenticated_clients m !! user_id with
           | None => ret (mkResult false "error" "Client not found" None)
           | Some client =>
               emit (SignInPassword user_id password) ;;;
               ext sign_in ;;;
               modify (set_active_sessions
                         <[user_id := set_status "authenticated" auth_session]>) ;;;
               log INFO "User {user_id} authenticated with 2FA" [user_id] ;;;
               ret (mkResult true "authenticated" "Two-factor authentication successful" None)
           end
     end)%py
    (λ e, log ERROR "Error verifying password for user {user_id}: {e}" [user_id] ;;;
          ret (mkResult false "error" ("Password verification error: " +:+ exn_msg e) None))%py.

Definition disconnect_user (disconnect : option Exn) (user_id : Z) : M Manager bool :=
  try_except
    (m <- get ;;
     match authenticated_clients m !! user_id with
     | Some client =>
         emit (Disconnect user_id) ;;;
         ext disconnect ;;;
         modify (set_authenticated_clients (delete user_id))
     | None => ret tt
     end ;;;
     modify (set_active_sessions (delete user_id)) ;;;
     log INFO "Disconnected user {user_id}" [user_id] ;;;
     ret true)%py
    (λ e, log ERROR "Error disconnecting user {user_id}: {e}" [user_id] ;;;
          ret false)%py.

(** The users [cleanup_expired_sessions] collects. Python walks the
    dictionary in insertion order; the order of [map_to_list] stands for it
    (the sessions and clients left at the end do not depend on it). *)
Definition expired_users (now : Z) (m : Manager) : list Z :=
  fst <$> filter (λ p, (expires_at (snd p) <? now)%Z
                       && negb (String.eqb (status (snd p)) "authenticated") = true)
            (map_to_list (active_sessions m)).

Fixpoint disconnect_all (disconnect : Z → option Exn) (users : list Z) : M Manager unit :=
  match users with
  | [] => ret tt
  | user_id :: rest =>
      (disconnect_user (disconnect user_id) user_id ;;;
       log INFO "Cleaned up expired session for user {user_id}" [user_id] ;;;
       disconnect_all disconnect rest)%py
  end.

Definition cleanup_expired_sessions (now : Z) (disconnect : Z → option Exn) : M Manager unit :=
  (m <- get ;; disconnect_all disconnect (expired_users now m))%py.

(** Sequences of calls on the session manager. *)
Inductive AuthOp :=
  | StartAuthentication (io : StartIO) (user_id : Z) (phone : string)
      (api_id : Z) (api_hash : string)
  | VerifyCode (now : Z) (sign_in : option Exn) (user_id : Z) (code : string)
  | VerifyPassword (sign_in : option Exn) (user_id : Z) (password : string)
  | DisconnectUser (disconnect : option Exn) (user_id : Z)
  | CleanupExpiredSessions (now : Z) (disconnect : Z → option Exn).

Definition run_op (op : AuthOp) (m : Manager) : Manager :=
  match op with
  | StartAuthentication io u ph id h => snd (start_authentication io u ph id h m)
  | VerifyCode now r u code => snd (verify_code now r u code m)
  | VerifyPassword r u pw => snd (verify_password r u pw m)
  | DisconnectUser r u => snd (disconnect_user r u m)
  | CleanupExpiredSessions now r => snd (cleanup_expired_sessions now r m)
  end.

Definition run_ops (ops : list AuthOp) (m : Manager) : Manager :=
  foldl (λ m op, run_op op m) m ops.

Definition empty_manager : Manager := mkManager ∅ ∅ [].

Definition session_status (m : Manager) (user_id : Z) : option string :=
  status <$> active_sessions m !! user_id.

(** The ways a call [op] can have left the session [s'] under [uid]. *)
Inductive Origin (m : Manager) (uid : Z) (s' : AuthSession) (op : AuthOp) : Prop :=
  | kept :
      active_sessions m !! uid = Some s' →
      Origin m uid s' op
  | started io ph id h :
      op = StartAuthentication io uid ph id h →
      status s' = "code_sent" →
      Origin m uid s' op
  | code_accepted s now code :
      op = VerifyCode now None uid code →
      active_sessions m !! uid = Some s →
      s' = set_status "authenticated" s →
      Origin m uid s' op
  | password_demanded s now e code :
      op = VerifyCode now (Some e) uid code →
      exn_class e = SessionPasswordNeededError →
      active_sessions m !! uid = Some s →
      (now ≤ expires_at s)%Z →
      is_Some (authenticated_clients m !! uid) →
      s' = set_status "password_required" s →
      Origin m uid s' op
  | password_accepted s pw :
      op = VerifyPassword None uid pw →
      active_sessions m !! uid = Some s →
      status s = "password_required" →
      s' = set_status "authenticated" s →
      Origin m uid s' op.

(** The statuses the code gives to a stored session. *)
Definition live_status (st : string) : Prop :=
  st = "code_sent" ∨ st = "password_required" ∨ st = "authenticated".

(** A session for tenant 7 waiting for its code, created at time 100. *)
Definition code_sent_7 : Manager :=
  (start_authentication (mkStartIO None None (inr false) (inr "hash") 100 100)
     7 "+1000" 12345 "apihash" empty_manager).2.

(** The same tenant after a code the provider accepted. *)
Definition authenticated_7 : Manager :=
  (verify_code 150 None 7 "12345" code_sent_7).2.

(** The same tenant after the provider asked for the second factor. *)
Definition password_required_7 : Manager :=
  (verify_code 150 (Some (mkExn SessionPasswordNeededError "2FA")) 7 "12345" code_sent_7).2.

Definition get_authenticated_client (user_id : Z) (m : Manager) : option TelegramClient :=
  match active_sessions m !! user_id with
  | Some auth_session =>
      if String.eqb (status auth_session) "authenticated"
      then authenticated_clients m !! user_id
      else None
  | None => None
  end.

(** [get_session_status]: [None] stands for the dictionary
    [{"exists": False, "status": "no_session"}]. *)
Record SessionStatus := mkSessionStatus {
  reported_status : string;
  reported_phone : string;
  reported_created_at : Z;
  reported_expires_at : Z;
  time_remaining : Z
}.

Definition get_session_status (now : Z) (user_id : Z) (m : Manager) : option SessionStatus :=
  match active_sessions m !! user_id with
  | None => None
  | Some auth_session =>
      Some (mkSessionStatus (status auth_session) (phone auth_session)
              (created_at auth_session) (expires_at auth_session)
              (Z.max 0 (expires_at auth_session - now)))
  end.

(** Every stored session is filed under its own id, has a client, and has
    one of the three statuses the code assigns. *)
Definition sessions_ok (m : Manager) : Prop :=
  ∀ uid s, active_sessions m !! uid = Some s →
    user_id s = uid ∧ is_Some (authenticated_clients m !! uid) ∧ live_status (status s).

(** The session [start_authentication] stores when a code was sent. *)
Definition sent_session (io : StartIO) (uid : Z) (phone : string) (api_id : Z)
    (api_hash hash : string) : AuthSession :=
  mkAuthSession uid phone api_id api_hash
    ("user_instances/user_" +:+ pretty uid +:+ "/sessions/telegram_session")
    "code_sent" (Some hash) (now_created io) (now_expires io + 300).

Definition new_client (uid : Z) (api_id : Z) (api_hash : string) : TelegramClient :=
  mkTelegramClient ("user_instances/user_" +:+ pretty uid +:+ "/sessions/telegram_session")
    api_id api_hash.

End session_manager.

(** ** security_manager.py: cleanup_user_data *)

Module security_manager.

Inductive Node :=
  | RegularFile (content : list Byte.byte)
  | Directory
  | OtherNode.                   (* neither a directory nor a regular file *)

Inductive Event :=
  | Log (lvl : Level) (text : string) (uid : Z) (path : string)
  | Overwrite (path : string) (data : list Byte.byte)   (* open(path, 'wb'); f.write(data) *)
  | Rmtree (uid : Z).

Record Disk := mkDisk {
  (* uid ↦ what rglob("*") lists under user_instances/user_{uid}, when that path exists *)
  fs : gmap Z (list (string * Node));
  user_processes : gset Z;       (* keys of SecurityManager.user_processes *)
  entropy : nat → Byte.byte;          (* the bytes secrets.token_bytes will hand out *)
  drawn : nat;                   (* how many of them were handed out *)
  trace : list Event
}.

Definition set_fs (f : gmap Z (list (string * Node)) → gmap Z (list (string * Node)))
    (d : Disk) : Disk :=
  mkDisk (f (fs d)) (user_processes d) (entropy d) (drawn d) (trace d).
Definition emit (e : Event) : M Disk unit :=
  modify (λ d, mkDisk (fs d) (user_processes d) (entropy d) (drawn d) (trace d ++ [e])).

(** [secrets.token_bytes(n)]. *)
Definition token_bytes (n : nat) : M Disk (list Byte.byte) :=
  λ d, (Val (entropy d <$> seq (drawn d) n),
        mkDisk (fs d) (user_processes d) (entropy d) (drawn d + n) (trace d)).

(** How the overwrite of one file goes. *)
Inductive FileIO :=
  | WriteOk
  | StatRaises (e : Exn)         (* file_path.stat() *)
  | OpenRaises (e : Exn)         (* open(file_path, 'wb') *)
  | WriteRaises (e : Exn).       (* f.write, after the file was truncated *)

(** The content of the [i]-th listed entry of the tenant's tree. *)
Definition set_content (uid : Z) (i : nat) (path : string) (data : list Byte.byte) : M Disk unit :=
  modify (set_fs (λ t, match t !! uid with
                       | Some entries => <[uid := <[i := (path, RegularFile data)]> entries]> t
                       | None => t
                       end)).

Definition overwrite_file (io : FileIO) (uid : Z) (i : nat) (path : string)
    (content : list Byte.byte) : M Disk unit :=
  match io with
  | StatRaises e => raise e
  | OpenRaises e => raise e
  | WriteRaises e =>
      (let file_size := length content in
       set_content uid i path [] ;;;
       data <- token_bytes file_size ;;
       raise e)%py
  | WriteOk =>
      (let file_size := length content in
       set_content uid i path [] ;;;
       data <- token_bytes file_size ;;
       set_content uid i path data ;;;
       emit (Overwrite path data))%py
  end.

(** What the file system answers during [cleanup_user_data], outside the
    overwrite of a file. The existence test, the walk and the test
    [is_file] are not inside the inner [try]: when one of them raises, the
    outer handler is reached. [shutil.rmtree] raises at its first error,
    with part of the tree already removed; [io_rmtree] then says which
    entries are left (any choice is allowed here, although a directory can
    only go once it is empty). *)
Record CleanupIO := mkCleanupIO {
  io_exists : option Exn;             (* user_path.exists() raises *)
  io_walk : option (nat * Exn);       (* rglob("*") raises, after that many entries *)
  io_is_file : string → option Exn;   (* file_path.is_file() raises *)
  io_file : string → FileIO;          (* stat, open and write of that file *)
  io_rmtree : option (Exn * (string → bool))   (* rmtree raises; the entries it leaves *)
}.

(** The body of the loop [for file_path in user_path.rglob("*")], from
    entry [i] on. *)
Fixpoint secure_overwrite (io : CleanupIO) (uid : Z) (i : nat)
    (entries : list (string * Node)) : M Disk unit :=
  match entries with
  | [] => ret tt
  | (path, node) :: rest =>
      (ext (io_is_file io path) ;;;
       match node with
       | RegularFile content =>
           try_except (overwrite_file (io_file io path) uid i path content)
             (λ e, emit (Log WARNING "Could not securely overwrite {file_path}: {e}" uid path))
       | _ => ret tt
       end ;;;
       secure_overwrite io uid (S i) rest)%py
  end.

(** The loop itself: the generator yields the entries one by one and may
    raise between two of them. *)
Definition walk_and_overwrite (io : CleanupIO) (uid : Z)
    (entries : list (string * Node)) : M Disk unit :=
  match io_walk io with
  | None => secure_overwrite io uid 0 entries
  | Some (n, e) => (secure_overwrite io uid 0 (take n entries) ;;; raise e)%py
  end.

(** [shutil.rmtree(user_path)]. *)
Definition rmtree (io : CleanupIO) (uid : Z) : M Disk unit :=
  (emit (Rmtree uid) ;;;
   match io_rmtree io with
   | None => modify (set_fs (delete uid))
   | Some (e, kept) =>
       modify (set_fs (λ t, match t !! uid with
                            | Some entries =>
                                <[uid := filter (λ p, Is_true (kept p.1)) entries]> t
                            | None => t
                            end)) ;;;
       raise e
   end)%py.

Definition cleanup_user_data (io : CleanupIO) (user_id : Z) (secure_delete : bool)
    : M Disk bool :=
  try_except
    (ext (io_exists io) ;;;
     d <- get ;;
     match fs d !! user_id with
     | None => ret true
     | Some entries =>
         (if secure_delete then walk_and_overwrite io user_id entries else ret tt) ;;;
         rmtree io user_id ;;;
         modify (λ d, mkDisk (fs d) (user_processes d ∖ {[user_id]}) (entropy d)
                        (drawn d) (trace d)) ;;;
         emit (Log INFO "Cleaned up user data for {user_id}" user_id "") ;;;
         ret true
     end)%py
    (λ e, emit (Log ERROR "Error cleaning up user data for {user_id}: {e}" user_id "") ;;;
          ret false)%py.

Definition rmtree_returns (io : CleanupIO) : bool :=
  match io_rmtree io with
  | None => true
  | Some _ => false
  end.

(** Whether nothing raises outside the overwrite of a file. *)
Definition walk_completes (io : CleanupIO) (entries : list (string * Node)) : Prop :=
  io_walk io = None ∧ ∀ path node, (path, node) ∈ entries → io_is_file io path = None.


(** Tenant 7's tree: a directory, a session file of three bytes and a
    configuration file of two. *)
Definition tenant_7_tree : Disk :=
  mkDisk
    {[ 7%Z := [("user_instances/user_7/sessions", Directory);
               ("user_instances/user_7/sessions/telegram_session.session",
                RegularFile [x01; x02; x03]);
               ("user_instances/user_7/.env", RegularFile [x0a; x0b])] ]}
    {[ 7%Z ]}
    (λ n, if Nat.even n then xaa else x55) 0 [].

(** A file system on which only the overwrite of a file can fail. *)
Definition only_files_fail (files : string → FileIO) : CleanupIO :=
  mkCleanupIO None None (λ _, None) files None.

Definition all_writable : CleanupIO := only_files_fail (λ _, WriteOk).


(** [is_file] raises on the configuration file. *)
Definition env_not_reachable : CleanupIO :=
  mkCleanupIO None None
    (λ path, if String.eqb path "user_instances/user_7/.env"
             then Some (mkExn OtherException "Permission denied")
             else None)
    (λ _, WriteOk) None.

(** The removal raises on the configuration file, after the sessions
    directory went. *)
Definition removal_stops_at_env : CleanupIO :=
  mkCleanupIO None None (λ _, None) (λ _, WriteOk)
    (Some (mkExn OtherException "Permission denied",
           λ path, String.eqb path "user_instances/user_7/.env")).

(** [sanitize_user_input]. A Python [str] is the list of its code points;
    [s.replace(char, '')] with a one-character [char] drops every
    occurrence of it, and [s[:1000]] keeps the first 1000 characters. *)
Definition dangerous_chars : list N :=
  (* '`', '$', '|', '&', ';', '>', '<', '(', ')', '{', '}' *)
  [96; 36; 124; 38; 59; 62; 60; 40; 41; 123; 125]%N.

Definition replace_with_empty (char : N) (s : list N) : list N :=
  filter (λ x, x ≠ char) s.

Definition sanitize_user_input (user_input : list N) : list N :=
  let sanitized :=
    foldl (λ sanitized char, replace_with_empty char sanitized) user_input dangerous_chars in
  take 1000 sanitized.

End security_manager.

(** ** auth_proxy.py *)

Module auth_proxy.

(** An entry of [pending_auth]. *)
Record Pending := mkPending {
  pending_phone : string;
  pending_api_id : Z;
  pending_api_hash : string;
  step : string                   (* "code", then "password" *)
}.

(** The texts sent to the chat with [update.message.reply_text] or
    [query.edit_message_text], named after the place that builds them. *)
Inductive Reply :=
  | AuthenticationFailed (message : string)  (* start_phone_auth, with result['message'] *)
  | AuthenticationError                      (* start_phone_auth, except branch *)
  | VerificationCodeSent (phone : string)    (* _request_verification_code *)
  | NoPendingVerification                    (* handle_verification_code, guard *)
  | CodeTryAgain (message : string)          (* handle_verification_code, with result['message'] *)
  | VerificationError                        (* handle_verification_code, except branch *)
  | TwoFactorRequested                       (* _request_2fa_password *)
  | NoPending2FA                             (* handle_2fa_password, guard *)
  | PasswordTryAgain (message : string)      (* handle_2fa_password, with result['message'] *)
  | TwoFactorError                           (* handle_2fa_password, except branch *)
  | SetupComplete (user_id : Z) (phone : string)   (* _send_success_message *)
  | FailedToStart                            (* _complete_authentication *)
  | FailedToCreate                           (* _complete_authentication *)
  | SetupCompletionError                     (* _complete_authentication, except branch *)
  | ActionMessage (message : string)         (* handle_bot_action *)
  | ActionError.                             (* handle_bot_action, except branch *)

Inductive Event :=
  | Log (lvl : Level) (text : string) (args : list Z)
  | ReplyText (r : Reply).

(** The proxy with the two global managers it drives. Each manager keeps
    its own view of the outside world: the directory that
    [start_authentication] makes for the session file is not entered in
    the host manager's [user_dirs], which changes through the host
    manager's own calls only. *)
Record System := mkSystem {
  sessions : session_manager.Manager;       (* session_manager *)
  host : host_manager.Host;                 (* host_manager *)
  pending_auth : gmap Z Pending;
  trace : list Event                        (* the proxy's log lines and replies *)
}.

Definition set_pending_auth (f : gmap Z Pending → gmap Z Pending) (s : System) : System :=
  mkSystem (sessions s) (host s) (f (pending_auth s)) (trace s).
Definition emit (e : Event) : M System unit :=
  modify (λ s, mkSystem (sessions s) (host s) (pending_auth s) (trace s ++ [e])).
Definition log (lvl : Level) (text : string) (args : list Z) : M System unit :=
  emit (Log lvl text args).

(** A call on one of the managers. *)
Definition on_sessions {A} (c : M session_manager.Manager A) : M System A :=
  λ s, match c (sessions s) with
       | (r, m) => (r, mkSystem m (host s) (pending_auth s) (trace s))
       end.
Definition on_host {A} (c : M host_manager.Host A) : M System A :=
  λ s, match c (host s) with
       | (r, w) => (r, mkSystem (sessions s) w (pending_auth s) (trace s))
       end.

(** What the chat answers: [chat n] is the outcome of the send that is
    recorded at position [n] of the trace. *)
Definition ChatIO := nat → option Exn.

Definition reply_text (chat : ChatIO) (r : Reply) : M System unit :=
  (s <- get ;;
   emit (ReplyText r) ;;;
   ext (chat (length (trace s))))%py.

(** What the environment answers during [_complete_authentication]. *)
Record CompleteIO := mkCompleteIO {
  io_status_now : Z;                        (* time.time() in get_session_status *)
  io_config : host_manager.ConfigIO;
  io_now_alloc : Z;
  io_now_created : Z;
  io_start : host_manager.SpawnIO;
  io_now_started : Z
}.

Definition _complete_authentication (io : CompleteIO) (chat : ChatIO) (user_id : Z)
    : M System unit :=
  try_except
    (s <- get ;;
     phone <- match pending_auth s !! user_id with
              | Some pending =>
                  modify (set_pending_auth (delete user_id)) ;;;
                  ret (pending_phone pending)
              | None =>
                  ret (match session_manager.get_session_status
                               (io_status_now io) user_id (sessions s) with
                       | Some session_status => session_manager.reported_phone session_status
                       | None => "unknown"
                       end)
              end ;;
     success <- on_host (host_manager.create_user_instance (io_config io)
                           (io_now_alloc io) (io_now_created io) user_id phone
                           "SERVICE_PROVIDED") ;;
     if success : bool then
       bot_started <- on_host (host_manager.start_user_bot (io_start io)
                                 (io_now_started io) user_id) ;;
       if bot_started : bool then reply_text chat (SetupComplete user_id phone)
       else reply_text chat FailedToStart
     else reply_text chat FailedToCreate)%py
    (λ e, log ERROR "Error completing authentication for user {user_id}: {e}" [user_id] ;;;
          reply_text chat SetupCompletionError)%py.

(** The three handlers return [True], [False], or nothing ([None]) when
    the end of the function is reached. *)
Definition start_phone_auth (io : session_manager.StartIO) (cio : CompleteIO)
    (chat : ChatIO) (user_id : Z) (phone : string) (api_id : Z) (api_hash : string)
    : M System (option bool) :=
  try_except
    (result <- on_sessions
                 (session_manager.start_authentication io user_id phone api_id api_hash) ;;
     if session_manager.res_success result then
       if String.eqb (session_manager.res_status result) "already_authenticated" then
         _complete_authentication cio chat user_id ;;;
         ret (Some true)
       else if String.eqb (session_manager.res_status result) "code_sent" then
         modify (set_pending_auth <[user_id := mkPending phone api_id api_hash "code"]>) ;;;
         reply_text chat (VerificationCodeSent phone) ;;;
         ret (Some true)
       else ret None
     else
       reply_text chat (AuthenticationFailed (session_manager.res_message result)) ;;;
       ret (Some false))%py
    (λ e, log ERROR "Error starting phone auth for user {user_id}: {e}" [user_id] ;;;
          reply_text chat AuthenticationError ;;;
          ret (Some false))%py.

Definition handle_verification_code (now : Z) (sign_in : option Exn) (cio : CompleteIO)
    (chat : ChatIO) (user_id : Z) (code : string) : M System (option bool) :=
  try_except
    (s <- get ;;
     match pending_auth s !! user_id with
     | None =>
         reply_text chat NoPendingVerification ;;;
         ret (Some false)
     | Some pending =>
         if negb (String.eqb (step pending) "code") then
           reply_text chat NoPendingVerification ;;;
           ret (Some false)
         else
           result <- on_sessions (session_manager.verify_code now sign_in user_id code) ;;
           if session_manager.res_success result then
             if String.eqb (session_manager.res_status result) "authenticated" then
               _complete_authentication cio chat user_id ;;;
               ret (Some true)
             else ret None
           else if String.eqb (session_manager.res_status result) "password_required" then
             modify (set_pending_auth
                       <[user_id := mkPending (pending_phone pending) (pending_api_id pending)
                                      (pending_api_hash pending) "password"]>) ;;;
             reply_text chat TwoFactorRequested ;;;
             ret (Some true)
           else
             reply_text chat (CodeTryAgain (session_manager.res_message result)) ;;;
             ret (Some false)
     end)%py
    (λ e, log ERROR "Error handling verification code for user {user_id}: {e}" [user_id] ;;;
          reply_text chat VerificationError ;;;
          ret (Some false))%py.

Definition handle_2fa_password (sign_in : option Exn) (cio : CompleteIO)
    (chat : ChatIO) (user_id : Z) (password : string) : M System (option bool) :=
  try_except
    (s <- get ;;
     match pending_auth s !! user_id with
     | None =>
         reply_text chat NoPending2FA ;;;
         ret (Some false)
     | Some pending =>
         if negb (String.eqb (step pending) "password") then
           reply_text chat NoPending2FA ;;;
           ret (Some false)
         else
           result <- on_sessions (session_manager.verify_password sign_in user_id password) ;;
           if session_manager.res_success result then
             _complete_authentication cio chat user_id ;;;
             ret (Some true)
           else
             reply_text chat (PasswordTryAgain (session_manager.res_message result)) ;;;
             ret (Some false)
     end)%py
    (λ e, log ERROR "Error handling 2FA password for user {user_id}: {e}" [user_id] ;;;
          reply_text chat TwoFactorError ;;;
          ret (Some false))%py.

(** What the environment answers during [handle_bot_action]. *)
Record ActionIO := mkActionIO {
  io_kill : option Exn;
  io_restart : host_manager.SpawnIO;
  io_now_restarted : Z;
  io_rmtree : option Exn
}.

Definition handle_bot_action (io : ActionIO) (chat : ChatIO) (action : string)
    (user_id : Z) : M System unit :=
  try_except
    (message <-
       (if String.eqb action "restart" then
          on_host (host_manager.stop_user_bot (io_kill io) user_id) ;;;
          success <- on_host (host_manager.start_user_bot (io_restart io)
                                (io_now_restarted io) user_id) ;;
          ret (if success : bool then "✅ Bot restarted successfully"
               else "❌ Failed to restart bot")
        else if String.eqb action "stop" then
          success <- on_host (host_manager.stop_user_bot (io_kill io) user_id) ;;
          ret (if success : bool then "⏹️ Bot stopped successfully"
               else "❌ Failed to stop bot")
        else if String.eqb action "delete" then
          success <- on_host (host_manager.remove_user_instance (io_kill io) (io_rmtree io)
                                user_id) ;;
          ret (if success : bool then "🗑️ Bot deleted successfully"
               else "❌ Failed to delete bot")
        else ret "❌ Unknown action") ;;
     reply_text chat (ActionMessage message))%py
    (λ e, log ERROR "Error handling action {action} for user {user_id}: {e}" [user_id] ;;;
          reply_text chat ActionError)%py.

Definition get_pending_auth_step (user_id : Z) (s : System) : option string :=
  step <$> pending_auth s !! user_id.

Definition clear_pending_auth (user_id : Z) : M System unit :=
  modify (set_pending_auth (delete user_id)).

(** Sequences of calls on the proxy. *)
Inductive ProxyOp :=
  | StartPhoneAuth (io : session_manager.StartIO) (cio : CompleteIO) (user_id : Z)
      (phone : string) (api_id : Z) (api_hash : string)
  | HandleVerificationCode (now : Z) (sign_in : option Exn) (cio : CompleteIO)
      (user_id : Z) (code : string)
  | Handle2FAPassword (sign_in : option Exn) (cio : CompleteIO) (user_id : Z)
      (password : string)
  | HandleBotAction (io : ActionIO) (action : string) (user_id : Z)
  | ClearPendingAuth (user_id : Z).

Definition run_proxy_op (chat : ChatIO) (op : ProxyOp) (s : System) : System :=
  match op with
  | StartPhoneAuth io cio u ph id h => (start_phone_auth io cio chat u ph id h s).2
  | HandleVerificationCode now r cio u code =>
      (handle_verification_code now r cio chat u code s).2
  | Handle2FAPassword r cio u pw => (handle_2fa_password r cio chat u pw s).2
  | HandleBotAction io action u => (handle_bot_action io chat action u s).2
  | ClearPendingAuth u => (clear_pending_auth u s).2
  end.

Definition run_proxy_ops (chat : ChatIO) (ops : list ProxyOp) (s : System) : System :=
  foldl (λ s op, run_proxy_op chat op s) s ops.

(** The proxy and the session manager agree on where a tenant stands: a
    pending entry is at step "code" with no session or one in status
    "code_sent", or at step "password" with a session in status
    "password_required". *)
Definition steps_agree (s : System) : Prop :=
  ∀ u p, pending_auth s !! u = Some p →
    (step p = "code" ∧
     ∀ a, session_manager.active_sessions (sessions s) !! u = Some a →
          session_manager.status a = "code_sent") ∨
    (step p = "password" ∧
     ∃ a, session_manager.active_sessions (sessions s) !! u = Some a ∧
          session_manager.status a = "password_required").

Definition empty_system (w : host_manager.Host) : System :=
  mkSystem session_manager.empty_manager w ∅ [].

(** The net changes a call on the proxy can make to the pending entries
    and to the sessions. *)
Inductive Change (s s' : System) : Prop :=
  | change_none :
      pending_auth s' = pending_auth s →
      session_manager.active_sessions (sessions s')
      = session_manager.active_sessions (sessions s) →
      Change s s'
  | change_cleared u :
      pending_auth s' = delete u (pending_auth s) →
      (session_manager.active_sessions (sessions s')
       = session_manager.active_sessions (sessions s) ∨
       ∃ a, session_manager.active_sessions (sessions s')
            = <[u := a]> (session_manager.active_sessions (sessions s))) →
      Change s s'
  | change_step u p a :
      pending_auth s' = <[u := p]> (pending_auth s) →
      session_manager.active_sessions (sessions s')
      = <[u := a]> (session_manager.active_sessions (sessions s)) →
      (step p = "code" ∧ session_manager.status a = "code_sent") ∨
      (step p = "password" ∧ session_manager.status a = "password_required") →
      Change s s'
  | change_expired u p :
      pending_auth s !! u = Some p →
      step p = "code" →
      pending_auth s' = pending_auth s →
      session_manager.active_sessions (sessions s')
      = delete u (session_manager.active_sessions (sessions s)) →
      Change s s'.


(** Two states of the system that differ in the proxy's trace only. *)
Definition same_core (s1 s2 : System) : Prop :=
  sessions s2 = sessions s1 ∧ host s2 = host s1 ∧ pending_auth s2 = pending_auth s1.

(** What a call on the proxy amounts to: calls on the session manager,
    calls on the host manager, and one of the net changes of [Change]. *)
Definition summary (s s' : System) : Prop :=
  (∃ aops, sessions s' = session_manager.run_ops aops (sessions s)) ∧
  (∃ hops, host s' = host_manager.run_host_ops hops (host s)) ∧
  Change s s'.


(** A chat that takes every message, an environment in which everything
    goes through, and tenant 7 on its way through the two steps, on a pool
    of one credential. *)
Definition quiet_chat : ChatIO := λ _, None.

Definition all_goes_well : CompleteIO :=
  mkCompleteIO 200 host_manager.io_ok 200 200 (host_manager.mkSpawnIO None (inr 4242%Z)) 200.

Definition awaiting_code_7 : System :=
  (start_phone_auth (session_manager.mkStartIO None None (inr false) (inr "hash") 100 100)
     all_goes_well quiet_chat 7 "+1000" 12345 "apihash"
     (empty_system host_manager.pool_of_one)).2.

Definition awaiting_password_7 : System :=
  (handle_verification_code 150 (Some (mkExn SessionPasswordNeededError "2FA"))
     all_goes_well quiet_chat 7 "12345" awaiting_code_7).2.


(** Tenant 7 with its bot running, after the password went through. *)
Definition active_7 : System :=
  (handle_2fa_password None all_goes_well quiet_chat 7 "secret" awaiting_password_7).2.

End auth_proxy.

(** * Properties *)

(** ** Python's min *)

Section py_min_facts.
  Context {A : Type} (key : A → Z).

  (** [min_from] picks an element of the list, splits the list around it,
      and everything before it has a strictly larger key. *)
Lemma min_from_split (l : list A) (best : A) :
    ∃ before after,
      best :: l = before ++ min_from key best l :: after ∧
      (∀ x, x ∈ before → (key (min_from key best l) < key x)%Z) ∧
      (∀ x, x ∈ after → (key (min_from key best l) ≤ key x)%Z).
  Proof.
    revert best. induction l as [|x l IH]; intros best; simpl.
    - exists [], []. split; [done|]. split; intros y Hy; inversion Hy.
    - destruct (Z.ltb_spec (key x) (key best)) as [Hlt|Hge].
      + destruct (IH x) as (before & after & Heq & Hb & Ha).
        exists (best :: before), after. split; [by rewrite Heq|].
        split; [|done].
        intros y Hy. apply elem_of_cons in Hy as [->|Hy]; [|by apply Hb].
        assert (Hx : x ∈ before ++ min_from key x l :: after)
          by (rewrite <- Heq; left).
        apply elem_of_app in Hx as [Hx|Hx].
        * specialize (Hb _ Hx). lia.
        * apply elem_of_cons in Hx as [Hx|Hx].
          -- rewrite <- Hx. lia.
          -- specialize (Ha _ Hx). lia.
      + destruct (IH best) as (before & after & Heq & Hb & Ha).
        destruct before as [|b before]; simpl in Heq.
        * injection Heq as Hm Hl. exists [], (x :: after).
          split; [simpl; rewrite <- Hm, Hl; reflexivity|].
          split; [intros y Hy; inversion Hy|].
          intros y Hy. apply elem_of_cons in Hy as [->|Hy]; [|by apply Ha].
          rewrite <- Hm. lia.
        * injection Heq as Hbb Hl. subst b.
          exists (best :: x :: before), after.
          split; [simpl; do 2 f_equal; exact Hl|]. split; [|done].
          intros y Hy.
          assert (Hbest : (key (min_from key best l) < key best)%Z)
            by (apply Hb; left).
          apply elem_of_cons in Hy as [->|Hy]; [done|].
          apply elem_of_cons in Hy as [->|Hy]; [lia|].
          apply Hb. by right.
  Qed.
End py_min_facts.

(** A split of [filter P l] comes from a split of [l]. *)
Lemma filter_split {A} (P : A → Prop) `{!∀ x, Decision (P x)} (l : list A) :
  ∀ before m after,
    filter P l = before ++ m :: after →
    ∃ l1 l2, l = l1 ++ m :: l2 ∧ P m ∧ filter P l1 = before ∧ filter P l2 = after.
Proof.
  induction l as [|x l IH]; intros before m after Heq.
  - destruct before; discriminate.
  - rewrite filter_cons in Heq. destruct (decide (P x)) as [HP|HP].
    + destruct before as [|b before]; simpl in Heq.
      * injection Heq as -> Hl. exists [], l. by rewrite filter_nil.
      * injection Heq as -> Hl.
        destruct (IH _ _ _ Hl) as (l1 & l2 & -> & Hm & H1 & H2).
        exists (b :: l1), l2. rewrite filter_cons, decide_True by done.
        by rewrite H1.
    + destruct (IH _ _ _ Heq) as (l1 & l2 & -> & Hm & H1 & H2).
      exists (x :: l1), l2. by rewrite filter_cons, decide_False.
Qed.

(** ** The credential pool *)

Section credential_pool.
  Import host_manager.

Lemma is_available_lt (c : APICredential) :
    is_available c = true ↔ (in_use c < max_users c)%Z.
  Proof. unfold is_available. apply Z.ltb_lt. Qed.

(** C5. [get_available_credential] returns a credential of the pool with
    [in_use < max_users] whose [in_use] is the least among those, and the
    first such in the order of the pool's list; it returns nothing exactly
    when no credential of the pool has [in_use < max_users]. *)
Theorem C5_get_available_least_used_first (w : Host) :
  match get_available_credential w with
  | Some l =>
      ∃ c before after,
        pool_objects w = before ++ (l, c) :: after ∧
        (in_use c < max_users c)%Z ∧
        (∀ p, p ∈ before → (in_use p.2 < max_users p.2)%Z → (in_use c < in_use p.2)%Z) ∧
        (∀ p, p ∈ after → (in_use p.2 < max_users p.2)%Z → (in_use c ≤ in_use p.2)%Z)
  | None => ∀ p, p ∈ pool_objects w → ¬ (in_use p.2 < max_users p.2)%Z
  end.
Proof.
  unfold get_available_credential.
  set (P := λ p : loc * APICredential, is_available p.2 = true).
  destruct (filter P (pool_objects w)) as [|x l] eqn:Hf.
  - intros p Hp Hlt.
    assert (Hin : p ∈ filter P (pool_objects w)).
    { apply list_elem_of_filter. split; [|done]. by apply is_available_lt. }
    rewrite Hf in Hin. inversion Hin.
  - simpl.
    destruct (min_from_split (λ x : loc * APICredential, in_use x.2) l x)
      as (before & after & Heq & Hb & Ha).
    set (m := min_from (λ x : loc * APICredential, in_use x.2) x l) in *.
    rewrite Heq in Hf.
    destruct (filter_split P _ _ _ _ Hf) as (l1 & l2 & Hpool & Hm & H1 & H2).
    destruct m as [lm cm] eqn:Em. simpl.
    exists cm, l1, l2. split; [done|].
    split; [by apply is_available_lt|].
    split; intros p Hp Hlt.
    + apply (Hb p). rewrite <- H1. apply list_elem_of_filter.
      split; [|done]. by apply is_available_lt.
    + apply (Ha p). rewrite <- H2. apply list_elem_of_filter.
      split; [|done]. by apply is_available_lt.
Qed.

Example get_available_example :
    get_available_credential
      (mkHost {[ 0 := mkAPICredential 1 "a" "A" 2 5 0 0;
                 1 := mkAPICredential 2 "b" "B" 1 5 0 0;
                 2 := mkAPICredential 3 "c" "C" 1 5 0 0;
                 3 := mkAPICredential 4 "d" "D" 0 0 0 0 ]} [0; 1; 2; 3] ∅ ∅ [])
    = Some 1.
  Proof. reflexivity. Qed.

  (** What one call on the pool does to one credential object. *)
Local Ltac untouched c :=
    exists c; split; [done|]; split; [done|]; intros Hsame; by destruct Hsame.

Lemma run_pool_op_object (op : PoolOp) (w : Host) (l : loc) (c : APICredential) :
    heap w !! l = Some c →
    in_bounds c →
    ∃ c', heap (run_pool_op op w) !! l = Some c' ∧ in_bounds c' ∧
          (in_use c' ≠ in_use c →
           (∃ now, op = AllocateCredential now l) ∨ op = ReleaseCredential l).
  Proof.
    intros Hl Hc. unfold in_bounds in *.
    destruct op as [|now l'|l'|]; simpl.
    - untouched c.
    - unfold allocate_credential, bind, deref.
      destruct (heap w !! l') as [c0|] eqn:Hl'; simpl; [|untouched c].
      destruct (Z.leb_spec (max_users c0) (in_use c0)); simpl;
        [untouched c|].
      destruct (decide (l' = l)) as [->|Hne].
      + rewrite lookup_insert_eq. eexists. split; [done|].
        assert (c0 = c) as -> by congruence. simpl. split; [lia|]. eauto.
      + rewrite lookup_insert_ne by done. untouched c.
    - unfold release_credential, bind, deref.
      destruct (heap w !! l') as [c0|] eqn:Hl'; simpl; [|untouched c].
      destruct (Z.ltb_spec 0 (in_use c0)); simpl; [|untouched c].
      destruct (decide (l' = l)) as [->|Hne].
      + rewrite lookup_insert_eq. eexists. split; [done|].
        assert (c0 = c) as -> by congruence. simpl. split; [lia|]. eauto.
      + rewrite lookup_insert_ne by done. untouched c.
    - untouched c.
  Qed.

(** C1. From a state in which a credential satisfies
    [0 ≤ in_use ≤ max_users], any sequence of calls on the pool
    ([allocate_credential] and [release_credential] on any credentials, and
    the pool's other methods) leaves it satisfying the invariant; and a call
    that changes a credential's [in_use] is an [allocate_credential] or a
    [release_credential] on that credential. *)
Theorem C1_in_use_within_bounds :
  (∀ (ops : list PoolOp) (w : Host) (l : loc) (c : APICredential),
     heap w !! l = Some c →
     (0 ≤ in_use c ≤ max_users c)%Z →
     ∃ c', heap (run_pool_ops ops w) !! l = Some c' ∧
           (0 ≤ in_use c' ≤ max_users c')%Z) ∧
  (∀ (op : PoolOp) (w : Host) (l : loc) (c c' : APICredential),
     heap w !! l = Some c →
     heap (run_pool_op op w) !! l = Some c' →
     in_use c' ≠ in_use c →
     (∃ now, op = AllocateCredential now l) ∨ op = ReleaseCredential l).
Proof.
  split.
  - induction ops as [|op ops IH]; intros w l c Hl Hc.
    + exists c. by split.
    + destruct (run_pool_op_object op w l c Hl Hc) as (c1 & Hl1 & Hc1 & _).
      simpl. by apply (IH _ l c1).
  - intros op w l c c' Hl Hl' Hne.
    destruct (decide (0 ≤ in_use c ≤ max_users c)%Z) as [Hc|Hc].
    + destruct (run_pool_op_object op w l c Hl Hc) as (c1 & Hl1 & _ & Hop).
      apply Hop. congruence.
    + destruct op as [|now l0|l0|]; simpl in Hl'; try congruence.
      * unfold allocate_credential, bind, deref in Hl'.
        destruct (heap w !! l0) as [c0|] eqn:Hl0; simpl in Hl'; [|congruence].
        destruct (max_users c0 <=? in_use c0)%Z; simpl in Hl'; [congruence|].
        destruct (decide (l0 = l)) as [->|Hn]; [eauto|].
        rewrite lookup_insert_ne in Hl' by done. congruence.
      * unfold release_credential, bind, deref in Hl'.
        destruct (heap w !! l0) as [c0|] eqn:Hl0; simpl in Hl'; [|congruence].
        destruct (0 <? in_use c0)%Z; simpl in Hl'; [|congruence].
        destruct (decide (l0 = l)) as [->|Hn]; [eauto|].
        rewrite lookup_insert_ne in Hl' by done. congruence.
Qed.

(** A run of the theorem on a pool with one credential of capacity 2. *)
Lemma C1_in_use_within_bounds_witness :
  ∃ c', heap (run_pool_ops
                [AllocateCredential 10 0; AllocateCredential 11 0;
                 AllocateCredential 12 0; ReleaseCredential 0;
                 GetAvailableCredential; ReleaseCredential 0; ReleaseCredential 0]
                (mkHost {[ 0 := mkAPICredential 12345 "hash" "ASCL_App_1" 0 2 0 0 ]}
                   [0] ∅ ∅ [])) !! 0 = Some c' ∧
        (0 ≤ in_use c' ≤ max_users c')%Z.
Proof.
  apply (proj1 C1_in_use_within_bounds _ _ 0
           (mkAPICredential 12345 "hash" "ASCL_App_1" 0 2 0 0)).
  - reflexivity.
  - simpl. lia.
Defined.

End credential_pool.

(** ** The host manager *)

Section host_manager_properties.
  Import host_manager.

Local Ltac exec :=
    unfold create_user_instance, start_user_bot, stop_user_bot, remove_user_instance,
      allocate_credential, release_credential, create_user_config,
      create_user_environment, save_user_instances, save_credentials, deref,
      log, emit, try_except, bind, ret, raise, get, modify, ext; simpl.

(** C10. For a tenant id with no entry in the registry, [stop_user_bot]
    returns [True] and changes nothing at all, and [start_user_bot] returns
    [False] having only logged an error: no file is copied and no process
    is spawned. *)
Theorem C10_absent_tenant_stop_start (w : Host) (uid : Z)
    (kill_outcome : option Exn) (io : SpawnIO) (now : Z) :
  user_instances w !! uid = None →
  stop_user_bot kill_outcome uid w = (Val true, w) ∧
  ∃ w', start_user_bot io now uid w = (Val false, w') ∧
        same_state w w' ∧
        trace w' = trace w ++ [Log ERROR "No instance found for user {user_id}" [uid]].
Proof.
  intros Habsent. split.
  - exec. by rewrite Habsent.
  - exec. rewrite Habsent. simpl. eexists. split; [done|]. by repeat split.
Qed.

Lemma C10_absent_tenant_stop_start_witness :
  stop_user_bot None 8 one_tenant = (Val true, one_tenant) ∧
  ∃ w', start_user_bot (mkSpawnIO None (inr 4242%Z)) 60 8 one_tenant = (Val false, w') ∧
        same_state one_tenant w' ∧
        trace w' = trace one_tenant ++ [Log ERROR "No instance found for user {user_id}" [8%Z]].
Proof. apply C10_absent_tenant_stop_start. reflexivity. Defined.

(** C4. [create_user_instance] for a tenant id that already has an
    instance returns [False], having only logged the warning that the user
    already has an instance: the registry (so the existing tenant's
    record), every credential object (so every [in_use] counter), the pool
    and the directories are as before. *)
Theorem C4_create_twice_fails_unchanged (w : Host) (uid : Z) (existing : UserInstance)
    (io : ConfigIO) (now_alloc now_created : Z) (phone key : string) :
  user_instances w !! uid = Some existing →
  ∃ w', create_user_instance io now_alloc now_created uid phone key w = (Val false, w') ∧
        same_state w w' ∧
        user_instances w' !! uid = Some existing ∧
        trace w' = trace w ++ [Log WARNING "User {user_id} already has an instance" [uid]].
Proof.
  intros Hexists. exec. rewrite Hexists. simpl.
  eexists. split; [done|]. by repeat split.
Qed.

Lemma C4_create_twice_fails_unchanged_witness :
  ∃ w', create_user_instance io_ok 70 71 7 "+2000" "SERVICE_PROVIDED" one_tenant
          = (Val false, w') ∧
        same_state one_tenant w' ∧
        user_instances w' !! 7%Z =
          Some (mkUserInstance 7 "+1000" 0 None "inactive" 50 0
                  "user_instances/user_7/sessions" "user_instances/user_7/.env") ∧
        trace w' = trace one_tenant ++
                   [Log WARNING "User {user_id} already has an instance" [7%Z]].
Proof. apply C4_create_twice_fails_unchanged. reflexivity. Defined.

  (** *** Creation *)

Lemma get_available_single (w : Host) (l : loc) (c : APICredential) :
    credentials w = [l] →
    heap w !! l = Some c →
    get_available_credential w = if is_available c then Some l else None.
  Proof.
    intros Hpool Hl. unfold get_available_credential, pool_objects.
    rewrite Hpool. simpl. rewrite Hl. simpl.
    rewrite filter_cons. simpl. destruct (is_available c) eqn:Hc.
    - by rewrite decide_True.
    - by rewrite decide_False.
  Qed.

  (** With a free credential and a file system that works, creation
      allocates the credential and records the tenant. *)
Lemma create_user_instance_success (w : Host) (uid : Z) (l : loc) (c : APICredential)
      (now_alloc now_created : Z) (phone key : string) :
    user_instances w !! uid = None →
    get_available_credential w = Some l →
    heap w !! l = Some c →
    (in_use c < max_users c)%Z →
    ∃ w', create_user_instance io_ok now_alloc now_created uid phone key w = (Val true, w') ∧
          heap w' = <[l := mkAPICredential (api_id c) (api_hash c) (app_name c)
                            (in_use c + 1) (max_users c) (created_at c) now_alloc]> (heap w) ∧
          credentials w' = credentials w ∧
          user_instances w' =
            <[uid := mkUserInstance uid phone l None "inactive" now_created 0
                       (user_path uid +:+ "/sessions") (user_path uid +:+ "/.env")]>
              (user_instances w) ∧
          user_dirs w' = {[uid]} ∪ user_dirs w.
  Proof.
    intros Hnew Hget Hl Hfree. exec. rewrite Hnew, Hget. simpl. rewrite Hl. simpl.
    destruct (Z.leb_spec (max_users c) (in_use c)) as [?|_]; [lia|]. simpl.
    rewrite lookup_insert_eq. simpl. eexists. split; [done|]. by repeat split.
  Qed.

  (** With no free credential, creation fails and nothing is mutated. *)
Lemma create_user_instance_exhausted (w : Host) (uid : Z) (io : ConfigIO)
      (now_alloc now_created : Z) (phone key : string) :
    user_instances w !! uid = None →
    get_available_credential w = None →
    ∃ w', create_user_instance io now_alloc now_created uid phone key w = (Val false, w') ∧
          same_state w w' ∧
          trace w' = trace w ++ [Log ERROR "No available API credentials" []].
  Proof.
    intros Hnew Hget. exec. rewrite Hnew, Hget. simpl.
    eexists. split; [done|]. by repeat split.
  Qed.

  (** *** Stopping and removal *)

  (** Whatever happens to the signal, [stop_user_bot] returns, touches
      neither the credentials nor the directories nor any other tenant, and
      leaves the tenant's record, if any, on the same credential. *)
Lemma stop_user_bot_effect (w : Host) (uid : Z) (kill_outcome : option Exn) :
    ∃ r w1, stop_user_bot kill_outcome uid w = (Val r, w1) ∧
      heap w1 = heap w ∧ credentials w1 = credentials w ∧ user_dirs w1 = user_dirs w ∧
      (∃ events, trace w1 = trace w ++ events) ∧
      delete uid (user_instances w1) = delete uid (user_instances w) ∧
      (∀ inst, user_instances w !! uid = Some inst →
         ∃ inst', user_instances w1 !! uid = Some inst' ∧
                  api_credential inst' = api_credential inst).
  Proof.
    assert (Hnop : ∀ r : bool, ∃ (r' : bool) w1, (Val r, w) = (Val r', w1) ∧
      heap w1 = heap w ∧ credentials w1 = credentials w ∧ user_dirs w1 = user_dirs w ∧
      (∃ events, trace w1 = trace w ++ events) ∧
      delete uid (user_instances w1) = delete uid (user_instances w) ∧
      (∀ inst, user_instances w !! uid = Some inst →
         ∃ inst', user_instances w1 !! uid = Some inst' ∧
                  api_credential inst' = api_credential inst)).
    { intros r. exists r, w. split_and!; try done.
      - exists []. by rewrite app_nil_r.
      - intros inst ->. eauto. }
    exec.
    destruct (user_instances w !! uid) as [inst|] eqn:Hinst; simpl; [|apply Hnop].
    destruct (String.eqb (status inst) "active"); simpl; [|apply Hnop].
    destruct (truthy_pid (process_id inst)) as [pid|]; simpl;
      [destruct kill_outcome as [e|]; simpl; [destruct (exn_class e); simpl|]|];
      eexists _, _; (split; [done|]); simpl; split_and!; try done;
      try (rewrite <- ?app_assoc; by eexists);
      try (by rewrite delete_insert_eq);
      try (intros ? [= <-]; rewrite ?lookup_insert_eq; by eauto).
  Qed.

  (** What [remove_user_instance] does to a registered tenant, after the
      stop. *)
Lemma remove_user_instance_effect (w : Host) (uid : Z) (inst : UserInstance)
      (c : APICredential) (kill_outcome rmtree_outcome : option Exn) :
    user_instances w !! uid = Some inst →
    heap w !! api_credential inst = Some c →
    let w1 := (stop_user_bot kill_outcome uid w).2 in
    let released := (0 <? in_use c)%Z in
    let had_dir := bool_decide (uid ∈ user_dirs w) in
    let removed := negb had_dir || returned rmtree_outcome in
    ∃ w',
      remove_user_instance kill_outcome rmtree_outcome uid w = (Val removed, w') ∧
      trace w' =
        trace w1
        ++ (if released then [SaveCredentials] else [])
        ++ [SaveInstances]
        ++ (if had_dir then [Rmtree uid] else [])
        ++ [if removed then Log INFO "Removed user instance for {user_id}" [uid]
            else Log ERROR "Error removing user instance for {user_id}: {e}" [uid]] ∧
      heap w' = (if released
                 then <[api_credential inst := with_in_use (in_use c - 1) c]> (heap w)
                 else heap w) ∧
      credentials w' = credentials w ∧
      user_instances w' = delete uid (user_instances w) ∧
      user_dirs w' = (if had_dir && returned rmtree_outcome
                      then user_dirs w ∖ {[uid]} else user_dirs w).
  Proof.
    intros Hinst Hc.
    destruct (stop_user_bot_effect w uid kill_outcome)
      as (r & w1 & Hstop & Hheap & Hcreds & Hdirs & _ & Hothers & Hsame).
    destruct (Hsame _ Hinst) as (inst' & Hinst' & Hcred).
    rewrite Hstop. simpl.
    unfold remove_user_instance, try_except, bind. rewrite Hstop. simpl.
    rewrite Hinst'. unfold release_credential, bind, deref.
    rewrite Hcred, Hheap, Hc. simpl.
    destruct (0 <? in_use c)%Z; simpl; rewrite Hdirs;
      destruct (bool_decide (uid ∈ user_dirs w)); simpl;
      try (destruct rmtree_outcome as [e|]; simpl);
      eexists; (split; [done|]); simpl;
      rewrite <- ?app_assoc, ?Hheap, ?Hdirs, ?Hothers; by repeat split.
  Qed.





(** C6. A pool with exactly one credential, [max_users = 1] and
    [in_use = 0], and an empty registry; the file system works. Creating
    tenant [a] succeeds and leaves [in_use = 1]; creating tenant [b] then
    fails on "No available API credentials" and mutates nothing; removing
    [a] succeeds and leaves [in_use = 0]; creating [b] then succeeds and
    leaves [in_use = 1]. *)
Theorem C6_create_exhaust_delete_create (w0 : Host) (l : loc) (c : APICredential)
    (a b : Z) (phone_a phone_b key : string) (t1 t2 t3 t4 t5 t6 : Z)
    (io_b : ConfigIO) (kill_outcome : option Exn) :
  user_instances w0 = ∅ →
  credentials w0 = [l] →
  heap w0 !! l = Some c →
  in_use c = 0%Z →
  max_users c = 1%Z →
  a ≠ b →
  ∃ w1 w2 w3 w4,
    create_user_instance io_ok t1 t2 a phone_a key w0 = (Val true, w1) ∧
    in_use <$> heap w1 !! l = Some 1%Z ∧
    create_user_instance io_b t3 t4 b phone_b key w1 = (Val false, w2) ∧
    same_state w1 w2 ∧
    trace w2 = trace w1 ++ [Log ERROR "No available API credentials" []] ∧
    remove_user_instance kill_outcome None a w2 = (Val true, w3) ∧
    in_use <$> heap w3 !! l = Some 0%Z ∧
    user_instances w3 !! a = None ∧
    create_user_instance io_ok t5 t6 b phone_b key w3 = (Val true, w4) ∧
    in_use <$> heap w4 !! l = Some 1%Z ∧
    is_Some (user_instances w4 !! b).
Proof.
  intros Hreg Hpool Hl Huse Hmax Hab.
  (* create a *)
  destruct (create_user_instance_success w0 a l c t1 t2 phone_a key)
    as (w1 & Hrun1 & Hheap1 & Hpool1 & Hreg1 & _); try done.
  { by rewrite Hreg. }
  { rewrite (get_available_single w0 l c) by done.
    unfold is_available. by rewrite Huse, Hmax. }
  { lia. }
  rewrite Huse, Hmax in Hheap1. rewrite Hreg in Hreg1.
  set (c1 := mkAPICredential (api_id c) (api_hash c) (app_name c) (0 + 1) 1
               (created_at c) t1) in *.
  assert (Hl1 : heap w1 !! l = Some c1) by (by rewrite Hheap1, lookup_insert_eq).
  (* create b: exhausted *)
  destruct (create_user_instance_exhausted w1 b io_b t3 t4 phone_b key)
    as (w2 & Hrun2 & Hsame2 & Htrace2).
  { by rewrite Hreg1, lookup_insert_ne, lookup_empty. }
  { rewrite (get_available_single w1 l c1); [done|by rewrite Hpool1|done]. }
  destruct Hsame2 as (Hheap2 & Hpool2 & Hreg2 & Hdirs2).
  (* remove a *)
  set (ia := mkUserInstance a phone_a l None "inactive" t2 0
               (user_path a +:+ "/sessions") (user_path a +:+ "/.env")) in *.
  destruct (remove_user_instance_effect w2 a ia c1 kill_outcome None)
    as (w3 & Hrun3 & _ & Hheap3 & Hpool3 & Hreg3 & _).
  { by rewrite Hreg2, Hreg1, lookup_insert_eq. }
  { simpl. by rewrite Hheap2. }
  simpl in Hrun3, Hheap3. rewrite orb_true_r in Hrun3.
  assert (Hl3 : heap w3 !! l = Some (with_in_use (0 + 1 - 1) c1))
    by (by rewrite Hheap3, lookup_insert_eq).
  (* create b again *)
  destruct (create_user_instance_success w3 b l (with_in_use (0 + 1 - 1) c1)
              t5 t6 phone_b key)
    as (w4 & Hrun4 & Hheap4 & _ & Hreg4 & _); try done.
  { by rewrite Hreg3, Hreg2, Hreg1, lookup_delete_ne, lookup_insert_ne, lookup_empty. }
  { rewrite (get_available_single w3 l (with_in_use (0 + 1 - 1) c1)); [done| |done].
    by rewrite Hpool3, Hpool2, Hpool1. }
  exists w1, w2, w3, w4. split_and!; try done.
  - by rewrite Hl1.
  - by rewrite Hl3.
  - by rewrite Hreg3, lookup_delete_eq.
  - by rewrite Hheap4, lookup_insert_eq.
  - rewrite Hreg4, lookup_insert_eq. eauto.
Qed.

(** Whatever the environment answers, the manager's other calls reach
    [in_use] only through the pool: starting a bot leaves every credential
    object as it is, and a creation changes at most the credential it
    allocated, by one. *)
Lemma start_user_bot_heap (io : SpawnIO) (now uid : Z) (w : Host) :
  heap (start_user_bot io now uid w).2 = heap w ∧
  credentials (start_user_bot io now uid w).2 = credentials w.
Proof.
  exec. destruct (user_instances w !! uid) as [inst|]; simpl; [|done].
  destruct (String.eqb (status inst) "active"); simpl; [done|].
  destruct (io_copy io) as [e|]; simpl; [done|].
  by destruct (io_spawn io) as [e|pid]; simpl.
Qed.

Lemma create_user_instance_heap (io : ConfigIO) (t1 t2 uid : Z) (phone key : string)
    (w : Host) :
  heap (create_user_instance io t1 t2 uid phone key w).2 = heap w ∨
  ∃ l, get_available_credential w = Some l ∧
       heap (create_user_instance io t1 t2 uid phone key w).2
         = heap (allocate_credential t1 l w).2.
Proof.
  destruct (user_instances w !! uid) as [inst|] eqn:Hreg.
  { left. exec. by rewrite Hreg. }
  destruct (get_available_credential w) as [l|] eqn:Hget.
  2: { left. exec. by rewrite Hreg, Hget. }
  right. exists l. split; [done|].
  exec. rewrite Hreg, Hget. simpl.
  destruct (heap w !! l) as [c|] eqn:Hl; simpl; [|done].
  destruct (max_users c <=? in_use c)%Z; simpl; [done|].
  destruct io as [[e1|] [e2|] [e3|]]; simpl; rewrite ?lookup_insert_eq; by simpl.
Qed.

Lemma C6_create_exhaust_delete_create_witness :
  ∃ w1 w2 w3 w4,
    create_user_instance io_ok 10 11 1 "+1000" "SERVICE_PROVIDED" pool_of_one
      = (Val true, w1) ∧
    in_use <$> heap w1 !! 0 = Some 1%Z ∧
    create_user_instance io_ok 20 21 2 "+2000" "SERVICE_PROVIDED" w1 = (Val false, w2) ∧
    same_state w1 w2 ∧
    trace w2 = trace w1 ++ [Log ERROR "No available API credentials" []] ∧
    remove_user_instance None None 1 w2 = (Val true, w3) ∧
    in_use <$> heap w3 !! 0 = Some 0%Z ∧
    user_instances w3 !! 1%Z = None ∧
    create_user_instance io_ok 30 31 2 "+2000" "SERVICE_PROVIDED" w3 = (Val true, w4) ∧
    in_use <$> heap w4 !! 0 = Some 1%Z ∧
    is_Some (user_instances w4 !! 2%Z).
Proof.
  apply (C6_create_exhaust_delete_create pool_of_one 0
           (mkAPICredential 12345 "hash" "ASCL_App_1" 0 1 0 0));
    [reflexivity | reflexivity | reflexivity | reflexivity | reflexivity | lia].
Defined.

  (** The same scenario, run: the four results and the counter after each
      call. *)
Example scenario_run :
    let '(r1, w1) := create_user_instance io_ok 10 11 1 "+1000" "SERVICE_PROVIDED" pool_of_one in
    let '(r2, w2) := create_user_instance io_ok 20 21 2 "+2000" "SERVICE_PROVIDED" w1 in
    let '(r3, w3) := remove_user_instance None None 1 w2 in
    let '(r4, w4) := create_user_instance io_ok 30 31 2 "+2000" "SERVICE_PROVIDED" w3 in
    (r1, r2, r3, r4) = (Val true, Val false, Val true, Val true) ∧
    in_use <$> (heap <$> [w1; w2; w3; w4]) ≫= (λ h, option_list (h !! 0))
      = [1; 1; 0; 1]%Z.
  Proof. by vm_compute. Qed.

  (** After a restart the registry is rebuilt by [load_user_instances], and
      each tenant then refers to a credential object of its own, not to the
      pool's: removing such a tenant returns [True] and the pool's counter
      stays where it was. *)
Example reloaded_tenant_release :
    let restarted :=
      mkHost {[ 0 := mkAPICredential 12345 "hash" "ASCL_App_1" 1 1 0 10 ]} [0] ∅ {[ 1%Z ]} [] in
    let data :=
      [mkInstanceData 1 "+1000" (mkAPICredential 12345 "hash" "ASCL_App_1" 1 1 0 10) 11
         "user_instances/user_1/sessions" "user_instances/user_1/.env"] in
    let w := (load_user_instances (Some data) restarted).2 in
    let '(r, w') := remove_user_instance None None 1 w in
    r = Val true ∧
    api_credential <$> user_instances w !! 1%Z = Some 1 ∧
    in_use <$> heap w' !! 0 = Some 1%Z ∧
    in_use <$> heap w' !! 1 = Some 0%Z.
  Proof. by vm_compute. Qed.

End host_manager_properties.

(** ** The session manager *)

Section session_manager_properties.
  Import session_manager.

Local Ltac exec :=
    unfold start_authentication, verify_code, verify_password, disconnect_user,
      ext_val, log, emit, try_except, bind, ret, raise, get, modify, ext; simpl.

(** C8. On a session in status "code_sent" that has not expired, a
    [verify_code] whose code the provider rejects returns a failure; the
    session (status, deadline and every other field), the other sessions and
    the clients are as before, and the only call made to the provider is
    that sign-in attempt: no code is requested again. *)
Theorem C8_wrong_code_leaves_session (m : Manager) (uid : Z) (s : AuthSession)
    (now : Z) (e : Exn) (code : string) :
  active_sessions m !! uid = Some s →
  status s = "code_sent" →
  (now ≤ expires_at s)%Z →
  exn_class e = PhoneCodeInvalidError →
  ∃ r m',
    verify_code now (Some e) uid code m = (Val r, m') ∧
    res_success r = false ∧
    active_sessions m' = active_sessions m ∧
    session_status m' uid = Some "code_sent" ∧
    expires_at <$> active_sessions m' !! uid = Some (expires_at s) ∧
    authenticated_clients m' = authenticated_clients m ∧
    trace m' = trace m ++
      match authenticated_clients m !! uid with
      | Some _ => [SignInCode uid (phone s) code (code_hash s)]
      | None => []
      end.
Proof.
  intros Hs Hstatus Hlive Hwrong. exec. rewrite Hs. simpl.
  destruct (Z.ltb_spec (expires_at s) now) as [?|_]; [lia|]. simpl.
  unfold session_status.
  destruct (authenticated_clients m !! uid) as [client|]; simpl.
  - rewrite Hwrong. simpl. eexists _, _. split; [done|]. simpl.
    rewrite Hs. simpl. by rewrite Hstatus.
  - eexists _, _. split; [done|]. simpl. rewrite Hs, app_nil_r. simpl.
    by rewrite Hstatus.
Qed.

Lemma C8_wrong_code_leaves_session_witness :
  ∃ r m',
    verify_code 150 (Some (mkExn PhoneCodeInvalidError "invalid")) 7 "000000" code_sent_7
      = (Val r, m') ∧
    res_success r = false ∧
    active_sessions m' = active_sessions code_sent_7 ∧
    session_status m' 7 = Some "code_sent" ∧
    expires_at <$> active_sessions m' !! 7%Z = Some 400%Z ∧
    authenticated_clients m' = authenticated_clients code_sent_7 ∧
    trace m' = trace code_sent_7 ++
      match authenticated_clients code_sent_7 !! 7%Z with
      | Some _ => [SignInCode 7 "+1000" "000000" (Some "hash")]
      | None => []
      end.
Proof.
  apply (C8_wrong_code_leaves_session code_sent_7 7
           (mkAuthSession 7 "+1000" 12345 "apihash"
              "user_instances/user_7/sessions/telegram_session" "code_sent"
              (Some "hash") 100 400)
           150 (mkExn PhoneCodeInvalidError "invalid") "000000");
    [reflexivity | reflexivity | simpl; lia | reflexivity].
Defined.

(** C3 (as amended). Once [expires_at] has passed, [verify_code] returns a
    failure with status "error" and the message that the session expired,
    without calling the provider, and deletes the session; from then on
    [verify_code] and [verify_password] for that tenant fail for want of a
    session, until [start_authentication] is called again. *)
Theorem C3_expired_session_rejected_by_verify_code (m : Manager) (uid : Z)
    (s : AuthSession) (now : Z) (sign_in : option Exn) (code : string) :
  active_sessions m !! uid = Some s →
  (expires_at s < now)%Z →
  ∃ m',
    verify_code now sign_in uid code m =
      (Val (mkResult false "error" "Authentication session expired" None), m') ∧
    active_sessions m' = delete uid (active_sessions m) ∧
    authenticated_clients m' = authenticated_clients m ∧
    trace m' = trace m ∧
    (∀ now' sign_in' code',
       verify_code now' sign_in' uid code' m' =
         (Val (mkResult false "error" "No active authentication session" None), m')) ∧
    (∀ sign_in' password,
       verify_password sign_in' uid password m' =
         (Val (mkResult false "error" "No password verification required" None), m')).
Proof.
  intros Hs Hpast. exec. rewrite Hs. simpl.
  destruct (Z.ltb_spec (expires_at s) now) as [_|?]; [|lia]. simpl.
  eexists. split; [done|]. simpl. split_and!; try done.
  - intros. by rewrite lookup_delete_eq.
  - intros. by rewrite lookup_delete_eq.
Qed.

Lemma C3_expired_session_rejected_by_verify_code_witness :
  ∃ m',
    verify_code 401 None 7 "12345" code_sent_7 =
      (Val (mkResult false "error" "Authentication session expired" None), m') ∧
    active_sessions m' = delete 7%Z (active_sessions code_sent_7) ∧
    authenticated_clients m' = authenticated_clients code_sent_7 ∧
    trace m' = trace code_sent_7 ∧
    (∀ now' sign_in' code',
       verify_code now' sign_in' 7 code' m' =
         (Val (mkResult false "error" "No active authentication session" None), m')) ∧
    (∀ sign_in' password,
       verify_password sign_in' 7 password m' =
         (Val (mkResult false "error" "No password verification required" None), m')).
Proof.
  apply (C3_expired_session_rejected_by_verify_code code_sent_7 7
           (mkAuthSession 7 "+1000" 12345 "apihash"
              "user_instances/user_7/sessions/telegram_session" "code_sent"
              (Some "hash") 100 400));
    [reflexivity | simpl; lia].
Defined.

(** C3 as stated does not hold. The session of [password_required_7]
    expires at 400. [verify_password] never reads the clock: whatever the
    time, a password the provider accepts is accepted and the session
    becomes "authenticated", not rejected and discarded. And when
    [verify_code] rejects an expired session, the status it reports is
    "error" and no session is left to carry a status. *)
Lemma C3_counterexample :
  expires_at <$> active_sessions password_required_7 !! 7%Z = Some 400%Z ∧
  (∃ m', verify_password None 7 "secret" password_required_7 =
           (Val (mkResult true "authenticated" "Two-factor authentication successful" None),
            m') ∧
         session_status m' 7 = Some "authenticated") ∧
  (∃ m', verify_code 1000 None 7 "12345" code_sent_7 =
           (Val (mkResult false "error" "Authentication session expired" None), m') ∧
         session_status m' 7 = None).
Proof. split_and!; [done | eexists; by vm_compute | eexists; by vm_compute]. Qed.

Local Ltac outcome o := destruct o as [[[] ?]|]; simpl.
Local Ltac outcome_val o := destruct o as [[[] ?]|?]; simpl.
Local Ltac at_key u uid :=
    destruct (decide (u = uid)) as [->|?];
    [rewrite ?lookup_insert_eq, ?lookup_delete_eq
    |rewrite ?lookup_insert_ne, ?lookup_delete_ne by done].

Lemma start_origin io u ph id h (m : Manager) (uid : Z) (s' : AuthSession) :
    active_sessions (start_authentication io u ph id h m).2 !! uid = Some s' →
    Origin m uid s' (StartAuthentication io u ph id h).
  Proof.
    exec. destruct io as [mk cn au sc t1 t2]; simpl.
    outcome mk; try (intros; by apply kept).
    outcome cn; try (intros; by apply kept).
    outcome_val au; try (intros; by apply kept).
    destruct b; simpl; try (intros; by apply kept).
    outcome_val sc; try (intros; by apply kept).
    at_key u uid; [intros [= <-]; by eapply started|intros; by apply kept].
  Qed.

Lemma verify_code_origin now r u code (m : Manager) (uid : Z) (s' : AuthSession) :
    active_sessions (verify_code now r u code m).2 !! uid = Some s' →
    Origin m uid s' (VerifyCode now r u code).
  Proof.
    exec.
    destruct (active_sessions m !! u) as [s|] eqn:Hs; simpl;
      [|intros; by apply kept].
    destruct (Z.ltb_spec (expires_at s) now); simpl.
    { at_key u uid; [intros [=]|intros; by apply kept]. }
    destruct (authenticated_clients m !! u) as [client|] eqn:Hclient; simpl;
      [|intros; by apply kept].
    outcome r; try (intros; by apply kept).
    - at_key u uid; [intros [= <-]|intros; by apply kept].
      by eapply password_demanded; [done|done|done|done|rewrite Hclient; eauto|done].
    - at_key u uid; [intros [= <-]|intros; by apply kept].
      by eapply code_accepted.
  Qed.

Lemma verify_password_origin r u pw (m : Manager) (uid : Z) (s' : AuthSession) :
    active_sessions (verify_password r u pw m).2 !! uid = Some s' →
    Origin m uid s' (VerifyPassword r u pw).
  Proof.
    exec.
    destruct (active_sessions m !! u) as [s|] eqn:Hs; simpl;
      [|intros; by apply kept].
    destruct (String.eqb_spec (status s) "password_required") as [Hst|?]; simpl;
      [|intros; by apply kept].
    destruct (authenticated_clients m !! u) as [client|] eqn:Hclient; simpl;
      [|intros; by apply kept].
    outcome r; try (intros; by apply kept).
    at_key u uid; [intros [= <-]|intros; by apply kept].
    by eapply password_accepted.
  Qed.

Lemma disconnect_user_sessions r u (m : Manager) (uid : Z) (s' : AuthSession) :
    active_sessions (disconnect_user r u m).2 !! uid = Some s' →
    active_sessions m !! uid = Some s'.
  Proof.
    exec.
    destruct (authenticated_clients m !! u) as [client|]; simpl.
    - outcome r; try done.
      at_key u uid; [intros [=]|done].
    - at_key u uid; [intros [=]|done].
  Qed.

Lemma disconnect_all_sessions r (users : list Z) (m : Manager) (uid : Z) (s' : AuthSession) :
    active_sessions (disconnect_all r users m).2 !! uid = Some s' →
    active_sessions m !! uid = Some s'.
  Proof.
    revert m. induction users as [|u users IH]; intros m; simpl; [done|].
    unfold bind at 1.
    pose proof (disconnect_user_sessions (r u) u m uid s') as Hone.
    destruct (disconnect_user (r u) u m) as [[b|e] m1] eqn:Hd; simpl in *.
    - unfold bind, log, emit, modify. simpl. intros H. apply Hone.
      apply IH in H. exact H.
    - exact Hone.
  Qed.

  (** Every session found after a call is accounted for. *)
Lemma run_op_origin (op : AuthOp) (m : Manager) (uid : Z) (s' : AuthSession) :
    active_sessions (run_op op m) !! uid = Some s' →
    Origin m uid s' op.
  Proof.
    destruct op; simpl; intros H.
    - by apply start_origin.
    - by apply verify_code_origin.
    - by apply verify_password_origin.
    - apply kept. by eapply disconnect_user_sessions.
    - apply kept. unfold cleanup_expired_sessions, bind, get in H.
      by eapply disconnect_all_sessions.
  Qed.

  (** No stored session is ever "pending" (or "error", or "expired"). *)
Lemma run_ops_statuses (ops : list AuthOp) (m : Manager) :
    (∀ uid s, active_sessions m !! uid = Some s → live_status (status s)) →
    ∀ uid s, active_sessions (run_ops ops m) !! uid = Some s → live_status (status s).
  Proof.
    revert m. induction ops as [|op ops IH]; intros m Hm; [done|].
    simpl. apply IH. intros uid s' Hs'.
    destruct (run_op_origin _ _ _ _ Hs')
      as [Hk|? ? ? ? _ Hst|? ? ? _ _ ->|? ? ? ? _ _ _ _ _ ->|? ? _ _ _ ->];
      [by eapply Hm|..]; unfold live_status; simpl; eauto.
  Qed.

End session_manager_properties.

(** ** Secure clean-up *)

Section security_manager_properties.
  Import security_manager.

Local Ltac exec :=
    unfold cleanup_user_data, walk_and_overwrite, rmtree, overwrite_file, set_content,
      token_bytes, emit, set_fs, try_except, bind, ret, raise, get, modify, ext; simpl.






  (** The same run, computed: both files are overwritten, with three and
      two bytes, before the directory goes. *)
Example secure_cleanup_run :
    (cleanup_user_data all_writable 7 true tenant_7_tree).1 = Val true ∧
    trace (cleanup_user_data all_writable 7 true tenant_7_tree).2 =
      [Overwrite "user_instances/user_7/sessions/telegram_session.session" [xaa; x55; xaa];
       Overwrite "user_instances/user_7/.env" [x55; xaa];
       Rmtree 7;
       Log INFO "Cleaned up user data for {user_id}" 7 ""].
  Proof. by vm_compute. Qed.

  (** When [is_file] raises on the configuration file, the call fails
      with the session file overwritten, the configuration file untouched
      and no removal attempted. *)
Example cleanup_stops_at_is_file :
    (cleanup_user_data env_not_reachable 7 true tenant_7_tree).1 = Val false ∧
    trace (cleanup_user_data env_not_reachable 7 true tenant_7_tree).2 =
      [Overwrite "user_instances/user_7/sessions/telegram_session.session" [xaa; x55; xaa];
       Log ERROR "Error cleaning up user data for {user_id}: {e}" 7 ""] ∧
    fs (cleanup_user_data env_not_reachable 7 true tenant_7_tree).2 !! 7%Z =
      Some [("user_instances/user_7/sessions", Directory);
            ("user_instances/user_7/sessions/telegram_session.session",
             RegularFile [xaa; x55; xaa]);
            ("user_instances/user_7/.env", RegularFile [x0a; x0b])].
  Proof. by vm_compute. Qed.


End security_manager_properties.

(** * Further properties *)

(** ** The host manager: what its calls can change *)

Section host_manager_effects.
Import host_manager.

Local Ltac exec :=
  unfold create_user_instance, start_user_bot, stop_user_bot, remove_user_instance,
    allocate_credential, release_credential, create_user_config,
    create_user_environment, save_user_instances, save_credentials, deref,
    log, emit, try_except, bind, ret, raise, get, modify, ext; simpl.

Lemma elem_of_pool_objects (w : Host) (l : loc) (c : APICredential) :
  (l, c) ∈ pool_objects w → heap w !! l = Some c ∧ l ∈ credentials w.
Proof.
  unfold pool_objects. rewrite list_elem_of_omap.
  intros (l' & Hin & Hl'). destruct (heap w !! l') as [c'|] eqn:Hc; simpl in Hl'; [|done].
  by injection Hl' as -> ->.
Qed.

(** The credential handed out is an object of the store with room left. *)
Lemma get_available_credential_Some (w : Host) (l : loc) :
  get_available_credential w = Some l →
  ∃ c, heap w !! l = Some c ∧ (in_use c < max_users c)%Z ∧ l ∈ credentials w.
Proof.
  unfold get_available_credential.
  set (P := λ p : loc * APICredential, is_available p.2 = true).
  destruct (filter P (pool_objects w)) as [|x rest] eqn:Hf; [done|].
  simpl. intros [= Hl].
  destruct (min_from_split (λ x : loc * APICredential, in_use x.2) rest x)
    as (before & after & Heq & _ & _).
  rewrite Heq in Hf.
  destruct (filter_split P _ _ _ _ Hf) as (l1 & l2 & Hpool & Hm & _ & _).
  destruct (min_from (λ x : loc * APICredential, in_use x.2) x rest) as [lm cm].
  simpl in Hl. subst lm. exists cm.
  destruct (elem_of_pool_objects w l cm) as [Hheap Hin].
  { rewrite Hpool. apply elem_of_app. right. left. }
  split_and!; [done| |done]. by apply is_available_lt.
Qed.

Lemma stop_user_bot_changes (kill_outcome : option Exn) (uid : Z) (w : Host) :
  Effect w (stop_user_bot kill_outcome uid w).2.
Proof.
  exec.
  destruct (user_instances w !! uid) as [inst|] eqn:Hinst; simpl; [|by apply nothing].
  destruct (String.eqb (status inst) "active"); simpl; [|by apply nothing].
  destruct (truthy_pid (process_id inst)) as [pid|]; simpl;
    [destruct kill_outcome as [[[] ?]|]; simpl|];
    try (by apply nothing);
    (eapply (updated _ _ uid inst); [done| | | | |reflexivity|]; simpl; by eauto).
Qed.

Lemma start_user_bot_changes (io : SpawnIO) (now uid : Z) (w : Host) :
  Effect w (start_user_bot io now uid w).2.
Proof.
  exec.
  destruct (user_instances w !! uid) as [inst|] eqn:Hinst; simpl; [|by apply nothing].
  destruct (String.eqb (status inst) "active"); simpl; [by apply nothing|].
  destruct (io_copy io) as [e|]; simpl; [by apply nothing|].
  destruct (io_spawn io) as [e|pid]; simpl; [by apply nothing|].
  eapply (updated _ _ uid inst); [done| | | | |reflexivity|]; simpl; by eauto.
Qed.

Lemma create_user_instance_changes (io : ConfigIO) (t1 t2 uid : Z) (phone key : string)
    (w : Host) :
  Effect w (create_user_instance io t1 t2 uid phone key w).2.
Proof.
  destruct (user_instances w !! uid) as [inst|] eqn:Hreg.
  { exec. rewrite Hreg. by apply nothing. }
  destruct (get_available_credential w) as [l|] eqn:Hget.
  2: { exec. rewrite Hreg, Hget. by apply nothing. }
  destruct (get_available_credential_Some w l Hget) as (c & Hl & Hfree & Hpool).
  exec. rewrite Hreg, Hget. simpl. rewrite Hl. simpl.
  destruct (Z.leb_spec (max_users c) (in_use c)) as [?|_]; [lia|]. simpl.
  destruct io as [[e1|] [e2|] [e3|]]; simpl; rewrite ?lookup_insert_eq; simpl;
    try (by eapply (allocated _ _ l c t1)).
  eapply (registered _ _ uid l c t1);
    [done|done|done|done|reflexivity| | |reflexivity|done]; simpl; [done|].
  split; [done|]. by left.
Qed.

Lemma remove_user_instance_changes (kill_outcome rmtree_outcome : option Exn) (uid : Z)
    (w : Host) :
  ∃ w1, Effect w w1 ∧ Effect w1 (remove_user_instance kill_outcome rmtree_outcome uid w).2.
Proof.
  exists (stop_user_bot kill_outcome uid w).2.
  split; [apply stop_user_bot_changes|].
  destruct (stop_user_bot_effect w uid kill_outcome) as (r & w1 & Hstop & _).
  unfold remove_user_instance, try_except, bind. rewrite Hstop. simpl.
  destruct (user_instances w1 !! uid) as [inst|] eqn:Hinst; simpl.
  - unfold release_credential, bind, deref.
    destruct (heap w1 !! api_credential inst) as [c|] eqn:Hc; simpl.
    + destruct (Z.ltb_spec 0 (in_use c)); simpl;
        destruct (bool_decide (uid ∈ user_dirs w1)); simpl;
        try (destruct rmtree_outcome as [e|]; simpl);
        eapply (unregistered _ _ uid inst); simpl; try done;
        try (right; by exists c);
        left; (split; [done|]); intros c' Hc'; rewrite Hc in Hc';
        injection Hc' as <-; lia.
    + by apply nothing.
  - destruct (bool_decide (uid ∈ user_dirs w1)); simpl;
      try (destruct rmtree_outcome as [e|]; simpl); by apply nothing.
Qed.

Lemma tenants_on_insert_fresh (reg : gmap Z UserInstance) (uid : Z)
    (inst : UserInstance) (l : loc) :
  reg !! uid = None →
  tenants_on l (<[uid := inst]> reg) =
    if decide (api_credential inst = l) then S (tenants_on l reg) else tenants_on l reg.
Proof.
  intros Hfresh. unfold tenants_on. rewrite map_filter_insert. simpl.
  destruct (decide (api_credential inst = l)).
  - rewrite map_size_insert_None; [done|].
    apply map_lookup_filter_None_2. by left.
  - by rewrite delete_id.
Qed.

Lemma tenants_on_update (reg : gmap Z UserInstance) (uid : Z)
    (inst inst' : UserInstance) (l : loc) :
  reg !! uid = Some inst →
  api_credential inst' = api_credential inst →
  tenants_on l (<[uid := inst']> reg) = tenants_on l reg.
Proof.
  intros Hold Hcred. unfold tenants_on. rewrite map_filter_insert. simpl.
  destruct (decide (api_credential inst' = l)) as [Hl|Hl].
  - apply map_size_insert_Some. exists inst.
    apply map_lookup_filter_Some_2; [done|]. simpl. congruence.
  - f_equal. apply map_filter_delete_not. intros y Hy. simpl.
    rewrite Hold in Hy. injection Hy as <-. congruence.
Qed.

Lemma tenants_on_delete (reg : gmap Z UserInstance) (uid : Z)
    (inst : UserInstance) (l : loc) :
  reg !! uid = Some inst →
  if decide (api_credential inst = l)
  then S (tenants_on l (delete uid reg)) = tenants_on l reg
  else tenants_on l (delete uid reg) = tenants_on l reg.
Proof.
  intros Hold. unfold tenants_on. rewrite map_filter_delete, map_size_delete.
  set (P := λ p : Z * UserInstance, api_credential p.2 = l).
  destruct (decide (api_credential inst = l)) as [Hl|Hl].
  - assert (Hin : filter P reg !! uid = Some inst)
      by (by apply map_lookup_filter_Some_2).
    rewrite Hin. simpl.
    assert (size (filter P reg) ≠ 0) by (apply (map_size_ne_0_lookup_2 _ uid); eauto).
    lia.
  - assert (Hout : filter P reg !! uid = None).
    { apply map_lookup_filter_None_2. right. intros y Hy. simpl.
      rewrite Hold in Hy. injection Hy as <-. done. }
    by rewrite Hout.
Qed.

Lemma effect_within_capacity (w w' : Host) :
  Effect w w' → within_capacity w → within_capacity w'.
Proof.
  unfold within_capacity.
  intros [Hh Hr _|l c now Hl Hfree Hh Hr _|uid l c now inst Hnew _ Hl Hfree Hh Hcred _ Hr _
         |uid inst inst' Hold Hcred _ _ Hh Hr _|uid inst Hold Hh Hr _] Hinv l0 c0.
  - rewrite Hh, Hr. apply Hinv.
  - rewrite Hh, Hr. pose proof (Hinv l c Hl) as Hc.
    destruct (decide (l = l0)) as [<-|Hne].
    + rewrite lookup_insert_eq. intros [= <-]. simpl. lia.
    + rewrite lookup_insert_ne by done. apply Hinv.
  - rewrite Hh, Hr. pose proof (Hinv l c Hl) as Hc.
    rewrite (tenants_on_insert_fresh _ _ _ _ Hnew).
    destruct (decide (l = l0)) as [<-|Hne].
    + rewrite lookup_insert_eq, decide_True by done. intros [= <-]. simpl. lia.
    + rewrite lookup_insert_ne, decide_False by congruence. apply Hinv.
  - rewrite Hh, Hr, (tenants_on_update _ _ inst) by done. apply Hinv.
  - rewrite Hr. pose proof (tenants_on_delete _ _ _ l0 Hold) as Hdel.
    destruct Hh as [[Hh Hzero]|(c & Hc & Hpos & Hh)]; rewrite Hh.
    + intros Hc0. pose proof (Hinv _ _ Hc0).
      destruct (decide (api_credential inst = l0)); lia.
    + pose proof (Hinv _ _ Hc) as Hcc.
      destruct (decide (api_credential inst = l0)) as [<-|Hne].
      * rewrite lookup_insert_eq. intros [= <-]. simpl. lia.
      * rewrite lookup_insert_ne by done. intros Hc0. rewrite Hdel. by apply Hinv.
Qed.

Lemma effect_registry_ok (w w' : Host) :
  Effect w w' → registry_ok w → registry_ok w'.
Proof.
  unfold registry_ok.
  intros [Hh Hr _|l c now Hl Hfree Hh Hr _|uid l c now inst Hnew _ Hl Hfree Hh Hcred Hok Hr _
         |uid inst inst' Hold Hcred Hid Hst Hh Hr _|uid inst Hold Hh Hr _] Hinv uid0 inst0;
    rewrite Hr.
  - apply Hinv.
  - apply Hinv.
  - destruct (decide (uid = uid0)) as [<-|Hne].
    + rewrite lookup_insert_eq. by intros [= <-].
    + rewrite lookup_insert_ne by done. apply Hinv.
  - destruct (decide (uid = uid0)) as [<-|Hne].
    + rewrite lookup_insert_eq. intros [= <-]. split; [|done].
      rewrite Hid. by apply (Hinv uid inst).
    + rewrite lookup_insert_ne by done. apply Hinv.
  - destruct (decide (uid = uid0)) as [<-|Hne].
    + by rewrite lookup_delete_eq.
    + rewrite lookup_delete_ne by done. apply Hinv.
Qed.

Lemma run_host_op_invariant (I : Host → Prop) :
  (∀ w w', Effect w w' → I w → I w') →
  ∀ op w, I w → I (run_host_op op w).
Proof.
  intros Hstep [io t1 t2 u ph key|io now u|k u|k r u] w Hw; simpl.
  - eapply Hstep; [apply create_user_instance_changes|done].
  - eapply Hstep; [apply start_user_bot_changes|done].
  - eapply Hstep; [apply stop_user_bot_changes|done].
  - destruct (remove_user_instance_changes k r u w) as (w1 & H1 & H2).
    eapply Hstep; [exact H2|]. eapply Hstep; [exact H1|done].
Qed.

Lemma run_host_ops_invariant (I : Host → Prop) :
  (∀ w w', Effect w w' → I w → I w') →
  ∀ ops w, I w → I (run_host_ops ops w).
Proof.
  intros Hstep ops. induction ops as [|op ops IH]; intros w Hw; [done|].
  simpl. apply IH. by apply run_host_op_invariant.
Qed.

(** X1. No credential is ever over-subscribed: along any sequence of
    creations, starts, stops and removals, whatever the file system and the
    processes answer, each credential object keeps [in_use] at least the
    number of registered tenants that refer to it and at most
    [max_users]. *)
Theorem host_ops_keep_within_capacity (ops : list HostOp) (w : Host) :
  within_capacity w →
  within_capacity (run_host_ops ops w).
Proof. apply run_host_ops_invariant, effect_within_capacity. Qed.

Lemma host_ops_keep_within_capacity_witness :
  within_capacity
    (run_host_ops
       [CreateUserInstance io_ok 10 11 1 "+1000" "SERVICE_PROVIDED";
        CreateUserInstance io_ok 20 21 2 "+2000" "SERVICE_PROVIDED";
        StartUserBot (mkSpawnIO None (inr 4242%Z)) 30 1;
        RemoveUserInstance None None 1;
        CreateUserInstance (mkConfigIO None None (Some (mkExn OtherException "disk full")))
          40 41 2 "+2000" "SERVICE_PROVIDED"]
       pool_of_one).
Proof.
  apply host_ops_keep_within_capacity.
  intros l c Hl. simpl in Hl. apply lookup_singleton_Some in Hl as [<- <-].
  vm_compute. split; discriminate.
Defined.

(** X2. The registry stays well formed: along any sequence of creations,
    starts, stops and removals, every record is filed under its own
    [user_id] and is either "inactive" with no process id or "active" with
    one. *)
Theorem host_ops_keep_registry_ok (ops : list HostOp) (w : Host) :
  registry_ok w →
  registry_ok (run_host_ops ops w).
Proof. apply run_host_ops_invariant, effect_registry_ok. Qed.

Lemma host_ops_keep_registry_ok_witness :
  registry_ok
    (run_host_ops
       [CreateUserInstance io_ok 10 11 1 "+1000" "SERVICE_PROVIDED";
        StartUserBot (mkSpawnIO None (inr 4242%Z)) 30 1;
        StopUserBot (Some (mkExn ProcessLookupError "no such process")) 1]
       pool_of_one).
Proof.
  apply host_ops_keep_registry_ok.
  intros uid inst Hreg. simpl in Hreg. by rewrite lookup_empty in Hreg.
Defined.

Lemma effect_pool_backed (w w' : Host) :
  Effect w w' → pool_backed w → pool_backed w'.
Proof.
  unfold pool_backed.
  intros [Hh Hr Hc|l c now Hl Hfree Hh Hr Hc|uid l c now inst Hnew Hin Hl Hfree Hh Hcred _ Hr Hc
         |uid inst inst' Hold Hcred _ _ Hh Hr Hc|uid inst Hold Hh Hr Hc] (Hnodup & Hvalid & Hreg);
    rewrite Hc, Hr; (split; [done|]).
  - rewrite Hh. by split.
  - rewrite Hh. split; [|done]. intros l0 Hl0.
    destruct (decide (l = l0)) as [<-|?];
      [rewrite lookup_insert_eq; eauto|rewrite lookup_insert_ne by done; auto].
  - rewrite Hh. split.
    + intros l0 Hl0.
      destruct (decide (l = l0)) as [<-|?];
        [rewrite lookup_insert_eq; eauto|rewrite lookup_insert_ne by done; auto].
    + intros uid0 inst0. destruct (decide (uid = uid0)) as [<-|?].
      * rewrite lookup_insert_eq. intros [= <-]. by rewrite Hcred.
      * rewrite lookup_insert_ne by done. apply Hreg.
  - rewrite Hh. split; [done|].
    intros uid0 inst0. destruct (decide (uid = uid0)) as [<-|?].
    + rewrite lookup_insert_eq. intros [= <-]. rewrite Hcred. by apply (Hreg uid).
    + rewrite lookup_insert_ne by done. apply Hreg.
  - split.
    + intros l0 Hl0. destruct Hh as [[-> _]|(c & Hcc & _ & ->)]; [auto|].
      destruct (decide (api_credential inst = l0)) as [<-|?];
        [rewrite lookup_insert_eq; eauto|rewrite lookup_insert_ne by done; auto].
    + intros uid0 inst0. destruct (decide (uid = uid0)) as [<-|?].
      * by rewrite lookup_delete_eq.
      * rewrite lookup_delete_ne by done. apply Hreg.
Qed.

Lemma sum_no_bump (f : loc → nat) (a : loc) (ls : list loc) :
  a ∉ ls →
  sum_list ((λ l, if decide (a = l) then S (f l) else f l) <$> ls) = sum_list (f <$> ls).
Proof.
  induction ls as [|l ls IH]; intros Hout; [done|].
  apply not_elem_of_cons in Hout as [Hne Hout]. csimpl.
  by rewrite decide_False, IH.
Qed.

Lemma sum_bump (f : loc → nat) (a : loc) (ls : list loc) :
  NoDup ls → a ∈ ls →
  sum_list ((λ l, if decide (a = l) then S (f l) else f l) <$> ls) = S (sum_list (f <$> ls)).
Proof.
  induction 1 as [|l ls Hl Hnodup IH]; intros Hin.
  { by apply elem_of_nil in Hin. }
  csimpl. destruct (decide (a = l)) as [->|Hne].
  - by rewrite sum_no_bump.
  - apply elem_of_cons in Hin as [?|Hin]; [done|]. rewrite IH by done. lia.
Qed.

(** When every tenant is on a credential of a duplicate-free list, the
    tenants are counted once each by the counts per credential. *)
Lemma size_by_credential (ls : list loc) (reg : gmap Z UserInstance) :
  NoDup ls →
  (∀ uid inst, reg !! uid = Some inst → api_credential inst ∈ ls) →
  size reg = sum_list ((λ l, tenants_on l reg) <$> ls).
Proof.
  intros Hnodup. induction reg as [|uid inst reg Hfresh IH] using map_ind; intros Hreg.
  - rewrite map_size_empty. clear. induction ls as [|l ls IH]; [done|].
    csimpl. rewrite <- IH. unfold tenants_on. by rewrite map_filter_empty, map_size_empty.
  - rewrite map_size_insert_None by done.
    rewrite IH.
    2: { intros uid0 inst0 H0. apply (Hreg uid0).
         rewrite lookup_insert_ne; [done|]. intros <-. congruence. }
    rewrite <- (sum_bump _ (api_credential inst)); [|done|].
    2: { apply (Hreg uid). by rewrite lookup_insert_eq. }
    f_equal. apply list_fmap_ext. intros _ l _.
    by rewrite tenants_on_insert_fresh.
Qed.

Lemma usage_covers_tenants (w : Host) (ls : list loc) :
  within_capacity w →
  (∀ l, l ∈ ls → is_Some (heap w !! l)) →
  (Z.of_nat (sum_list ((λ l, tenants_on l (user_instances w)) <$> ls))
   ≤ foldr Z.add 0 ((λ p : loc * APICredential, in_use p.2)
                      <$> omap (λ l, (λ c, (l, c)) <$> heap w !! l) ls))%Z.
Proof.
  intros Hcap. induction ls as [|l ls IH]; intros Hvalid; [done|].
  destruct (Hvalid l) as [c Hc]; [left|].
  assert (Hrest : ∀ l0, l0 ∈ ls → is_Some (heap w !! l0)) by (intros; apply Hvalid; by right).
  specialize (IH Hrest). pose proof (Hcap l c Hc) as Hl.
  cbn [fmap list_fmap omap list_omap sum_list foldr]. rewrite Hc.
  cbn [fmap option_fmap option_map list_fmap foldr snd].
  unfold id. rewrite Nat2Z.inj_add. apply Z.add_le_mono; [lia|exact IH].
Qed.

(** X24. The system status never under-reports usage: from a state whose
    pool is duplicate-free and whose tenants are all on pool credentials
    within capacity, after any sequence of creations, starts, stops and
    removals [get_system_status] reports an [api_usage] at least as large
    as [total_users] (it is larger when an allocation was kept by a failed
    creation), no more active instances than users, and the same number of
    credentials. *)
Theorem system_status_covers_users (ops : list HostOp) (w : Host) (now : Z) :
  pool_backed w →
  within_capacity w →
  (Z.of_nat (total_users (get_system_status now (run_host_ops ops w)))
   ≤ api_usage (get_system_status now (run_host_ops ops w)))%Z ∧
  active_instances (get_system_status now (run_host_ops ops w))
  ≤ total_users (get_system_status now (run_host_ops ops w)) ∧
  api_credentials (get_system_status now (run_host_ops ops w)) = length (credentials w).
Proof.
  intros Hpool Hcap.
  assert (Hboth : pool_backed (run_host_ops ops w) ∧ within_capacity (run_host_ops ops w)
                  ∧ credentials (run_host_ops ops w) = credentials w).
  { apply (run_host_ops_invariant
             (λ w', pool_backed w' ∧ within_capacity w' ∧ credentials w' = credentials w));
      [|done].
    intros w1 w2 Heff (H1 & H2 & H3). split_and!.
    - by eapply effect_pool_backed.
    - by eapply effect_within_capacity.
    - rewrite <- H3. by destruct Heff. }
  destruct Hboth as ((Hnodup & Hvalid & Hreg) & Hcap' & Hcreds).
  unfold get_system_status. simpl. split_and!.
  - rewrite (size_by_credential (credentials (run_host_ops ops w))) by done.
    by apply usage_covers_tenants.
  - apply map_subseteq_size, map_filter_subseteq.
  - by rewrite Hcreds.
Qed.

Lemma system_status_covers_users_witness :
  (Z.of_nat (total_users
               (get_system_status 50
                  (run_host_ops
                     [CreateUserInstance
                        (mkConfigIO None None (Some (mkExn OtherException "disk full")))
                        10 11 1 "+1000" "SERVICE_PROVIDED"]
                     pool_of_one)))
   ≤ api_usage
       (get_system_status 50
          (run_host_ops
             [CreateUserInstance
                (mkConfigIO None None (Some (mkExn OtherException "disk full")))
                10 11 1 "+1000" "SERVICE_PROVIDED"]
             pool_of_one)))%Z ∧
  active_instances
    (get_system_status 50
       (run_host_ops
          [CreateUserInstance
             (mkConfigIO None None (Some (mkExn OtherException "disk full")))
             10 11 1 "+1000" "SERVICE_PROVIDED"]
          pool_of_one))
  ≤ total_users
      (get_system_status 50
         (run_host_ops
            [CreateUserInstance
               (mkConfigIO None None (Some (mkExn OtherException "disk full")))
               10 11 1 "+1000" "SERVICE_PROVIDED"]
            pool_of_one)) ∧
  api_credentials
    (get_system_status 50
       (run_host_ops
          [CreateUserInstance
             (mkConfigIO None None (Some (mkExn OtherException "disk full")))
             10 11 1 "+1000" "SERVICE_PROVIDED"]
          pool_of_one)) = length (credentials pool_of_one).
Proof.
  apply system_status_covers_users.
  - split_and!.
    + apply NoDup_singleton.
    + intros l Hl. apply list_elem_of_singleton in Hl as ->. by eexists.
    + intros uid inst Hreg. simpl in Hreg. by rewrite lookup_empty in Hreg.
  - intros l c Hl. simpl in Hl. apply lookup_singleton_Some in Hl as [<- <-].
    vm_compute. split; discriminate.
Defined.

End host_manager_effects.

(** ** The host manager: particular behaviours *)

Section host_manager_behaviour.
Import host_manager.

Local Ltac exec :=
  unfold create_user_instance, start_user_bot, stop_user_bot, remove_user_instance,
    allocate_credential, release_credential, create_user_config,
    create_user_environment, save_user_instances, save_credentials, deref,
    log, emit, try_except, bind, ret, raise, get, modify, ext; simpl.

(** X3. Allocating a credential with room left and releasing it again
    gives back the same [in_use]: every field of the object but [last_used]
    is as before, no other object is touched, and the pool file was written
    twice. *)
Theorem allocate_then_release_restores (w : Host) (l : loc) (c : APICredential) (now : Z) :
  heap w !! l = Some c →
  (0 ≤ in_use c < max_users c)%Z →
  ∃ w1 w2,
    allocate_credential now l w = (Val true, w1) ∧
    release_credential l w1 = (Val true, w2) ∧
    heap w2 = <[l := mkAPICredential (api_id c) (api_hash c) (app_name c) (in_use c)
                        (max_users c) (created_at c) now]> (heap w) ∧
    credentials w2 = credentials w ∧
    user_instances w2 = user_instances w ∧
    trace w2 = trace w ++ [SaveCredentials; SaveCredentials].
Proof.
  intros Hl Hroom. exec. rewrite Hl. simpl.
  destruct (Z.leb_spec (max_users c) (in_use c)) as [?|_]; [lia|]. simpl.
  eexists _, _. split; [done|]. simpl. rewrite lookup_insert_eq. simpl.
  destruct (Z.ltb_spec 0 (in_use c + 1)) as [_|?]; [|lia]. simpl.
  split; [done|]. simpl. rewrite insert_insert_eq, <- app_assoc.
  replace (in_use c + 1 - 1)%Z with (in_use c) by lia. done.
Qed.

Lemma allocate_then_release_restores_witness :
  ∃ w1 w2,
    allocate_credential 99 0 one_tenant = (Val true, w1) ∧
    release_credential 0 w1 = (Val true, w2) ∧
    heap w2 = <[0 := mkAPICredential 12345 "hash" "ASCL_App_1" 1 100 0 99]>
                (heap one_tenant) ∧
    credentials w2 = credentials one_tenant ∧
    user_instances w2 = user_instances one_tenant ∧
    trace w2 = trace one_tenant ++ [SaveCredentials; SaveCredentials].
Proof.
  apply (allocate_then_release_restores one_tenant 0
           (mkAPICredential 12345 "hash" "ASCL_App_1" 1 100 0 50) 99);
    [reflexivity | simpl; lia].
Defined.

(** X4. The pool refuses without touching anything: [allocate_credential]
    on a credential with [in_use >= max_users] and [release_credential] on a
    credential with [in_use <= 0] return [False] and leave the state as it
    was, the pool file included. *)
Theorem pool_refusals_change_nothing (w : Host) (l : loc) (c : APICredential) (now : Z) :
  heap w !! l = Some c →
  ((max_users c ≤ in_use c)%Z → allocate_credential now l w = (Val false, w)) ∧
  ((in_use c ≤ 0)%Z → release_credential l w = (Val false, w)).
Proof.
  intros Hl. split; intros Hc; exec; rewrite Hl; simpl.
  - by destruct (Z.leb_spec (max_users c) (in_use c)) as [_|?]; [|lia].
  - by destruct (Z.ltb_spec 0 (in_use c)) as [?|_]; [lia|].
Qed.

Lemma pool_refusals_change_nothing_witness :
  ((1 ≤ 1)%Z →
   allocate_credential 99 0 (create_user_instance io_ok 10 11 1 "+1000" "k" pool_of_one).2
   = (Val false, (create_user_instance io_ok 10 11 1 "+1000" "k" pool_of_one).2)) ∧
  ((1 ≤ 0)%Z →
   release_credential 0 (create_user_instance io_ok 10 11 1 "+1000" "k" pool_of_one).2
   = (Val false, (create_user_instance io_ok 10 11 1 "+1000" "k" pool_of_one).2)).
Proof.
  apply (pool_refusals_change_nothing _ 0
           (mkAPICredential 12345 "hash" "ASCL_App_1" 1 1 0 10) 99).
  reflexivity.
Defined.

(** X5. A creation that fails after the allocation keeps the credential:
    when making the directories or writing the configuration file raises,
    [create_user_instance] returns [False] and registers nothing, but the
    credential it had allocated stays counted, one higher than before. *)
Theorem create_failure_keeps_allocation (w : Host) (uid : Z) (l : loc)
    (c : APICredential) (io : ConfigIO) (t1 t2 : Z) (phone key : string) :
  user_instances w !! uid = None →
  get_available_credential w = Some l →
  heap w !! l = Some c →
  returned (io_mkdir_user io) && returned (io_mkdir_subdirs io)
    && returned (io_write_config io) = false →
  ∃ w',
    create_user_instance io t1 t2 uid phone key w = (Val false, w') ∧
    user_instances w' = user_instances w ∧
    heap w' = <[l := mkAPICredential (api_id c) (api_hash c) (app_name c) (in_use c + 1)
                        (max_users c) (created_at c) t1]> (heap w).
Proof.
  intros Hnew Hget Hl Hio.
  destruct (get_available_credential_Some w l Hget) as (c' & Hl' & Hfree & _).
  assert (c' = c) as -> by congruence.
  exec. rewrite Hnew, Hget. simpl. rewrite Hl. simpl.
  destruct (Z.leb_spec (max_users c) (in_use c)) as [?|_]; [lia|]. simpl.
  destruct io as [[e1|] [e2|] [e3|]]; simpl in *; try discriminate;
    rewrite ?lookup_insert_eq; simpl; by eexists.
Qed.

Lemma create_failure_keeps_allocation_witness :
  ∃ w',
    create_user_instance (mkConfigIO None None (Some (mkExn OtherException "disk full")))
      10 11 1 "+1000" "SERVICE_PROVIDED" pool_of_one = (Val false, w') ∧
    user_instances w' = user_instances pool_of_one ∧
    heap w' = <[0 := mkAPICredential 12345 "hash" "ASCL_App_1" (0 + 1) 1 0 10]>
                (heap pool_of_one).
Proof.
  apply (create_failure_keeps_allocation pool_of_one 1 0
           (mkAPICredential 12345 "hash" "ASCL_App_1" 0 1 0 0));
    reflexivity.
Defined.

(** X6. Starting is idempotent: for a tenant whose status is "active",
    [start_user_bot] returns [True] having only logged that the bot is
    already active; nothing is copied, no process is spawned and the record
    keeps its process id. *)
Theorem start_active_changes_nothing (w : Host) (uid : Z) (inst : UserInstance)
    (io : SpawnIO) (now : Z) :
  user_instances w !! uid = Some inst →
  status inst = "active" →
  ∃ w',
    start_user_bot io now uid w = (Val true, w') ∧
    same_state w w' ∧
    trace w' = trace w ++ [Log INFO "Bot already active for user {user_id}" [uid]].
Proof.
  intros Hinst Hactive. exec. rewrite Hinst. simpl. rewrite Hactive. simpl.
  eexists. split; [done|]. by repeat split.
Qed.

Lemma start_active_changes_nothing_witness :
  ∃ w',
    start_user_bot (mkSpawnIO None (inr 5555%Z)) 40 7
      (start_user_bot (mkSpawnIO None (inr 4242%Z)) 30 7 one_tenant).2 = (Val true, w') ∧
    same_state (start_user_bot (mkSpawnIO None (inr 4242%Z)) 30 7 one_tenant).2 w' ∧
    trace w' = trace (start_user_bot (mkSpawnIO None (inr 4242%Z)) 30 7 one_tenant).2
               ++ [Log INFO "Bot already active for user {user_id}" [7%Z]].
Proof.
  apply (start_active_changes_nothing _ 7
           (started_record 4242 30
              (mkUserInstance 7 "+1000" 0 None "inactive" 50 0
                 "user_instances/user_7/sessions" "user_instances/user_7/.env")));
    reflexivity.
Defined.

(** X7. Starting a registered tenant that is not active: when the files are
    copied and the process is spawned, the call returns [True] and the
    record becomes "active" with the new process id and [last_activity]
    set; when the copy or the spawn raises, it returns [False] and the
    record, like everything else but the trace, is as before. *)
Theorem start_inactive_spawns_or_fails (w : Host) (uid : Z) (inst : UserInstance)
    (io : SpawnIO) (now : Z) :
  user_instances w !! uid = Some inst →
  status inst ≠ "active" →
  ∃ w',
    match io_copy io, io_spawn io with
    | None, inr pid =>
        start_user_bot io now uid w = (Val true, w') ∧
        user_instances w' = <[uid := started_record pid now inst]> (user_instances w) ∧
        heap w' = heap w ∧ credentials w' = credentials w ∧ user_dirs w' = user_dirs w ∧
        trace w' = trace w ++
          [CopyBotFiles uid; Spawn uid; SaveInstances;
           Log INFO "Started bot for user {user_id} (PID: {process.pid})" [uid; pid]]
    | _, _ =>
        start_user_bot io now uid w = (Val false, w') ∧
        same_state w w'
    end.
Proof.
  intros Hinst Hstatus. exec. rewrite Hinst. simpl.
  apply String.eqb_neq in Hstatus. rewrite Hstatus. simpl.
  destruct (io_copy io) as [e|]; simpl.
  - eexists. split; [done|]. by repeat split.
  - destruct (io_spawn io) as [e|pid]; simpl.
    + eexists. split; [done|]. by repeat split.
    + eexists. split; [done|]. simpl. rewrite <- !app_assoc. by repeat split.
Qed.

Lemma start_inactive_spawns_or_fails_witness :
  ∃ w',
    start_user_bot (mkSpawnIO None (inr 4242%Z)) 30 7 one_tenant = (Val true, w') ∧
    user_instances w' =
      <[7%Z := started_record 4242 30
                 (mkUserInstance 7 "+1000" 0 None "inactive" 50 0
                    "user_instances/user_7/sessions" "user_instances/user_7/.env")]>
        (user_instances one_tenant) ∧
    heap w' = heap one_tenant ∧ credentials w' = credentials one_tenant ∧
    user_dirs w' = user_dirs one_tenant ∧
    trace w' = trace one_tenant ++
      [CopyBotFiles 7; Spawn 7; SaveInstances;
       Log INFO "Started bot for user {user_id} (PID: {process.pid})" [7%Z; 4242%Z]].
Proof.
  apply (start_inactive_spawns_or_fails one_tenant 7
           (mkUserInstance 7 "+1000" 0 None "inactive" 50 0
              "user_instances/user_7/sessions" "user_instances/user_7/.env")
           (mkSpawnIO None (inr 4242%Z)) 30);
    [reflexivity | discriminate].
Defined.

(** X8. Stopping an active tenant: unless the signal is sent and raises
    something other than [ProcessLookupError], [stop_user_bot] returns
    [True] and the record becomes "inactive" with no process id (a process
    that is already gone counts as stopped); in that one case it returns
    [False] and the record stays "active" with its process id. *)
Theorem stop_active_marks_inactive (w : Host) (uid : Z) (inst : UserInstance)
    (kill_outcome : option Exn) :
  user_instances w !! uid = Some inst →
  status inst = "active" →
  ∃ w',
    stop_user_bot kill_outcome uid w = (Val (negb (kill_fails inst kill_outcome)), w') ∧
    user_instances w' =
      (if kill_fails inst kill_outcome then user_instances w
       else <[uid := stopped_record inst]> (user_instances w)) ∧
    heap w' = heap w ∧ credentials w' = credentials w ∧ user_dirs w' = user_dirs w.
Proof.
  intros Hinst Hactive. exec. rewrite Hinst. simpl. rewrite Hactive. simpl.
  unfold kill_fails.
  destruct (truthy_pid (process_id inst)) as [pid|]; simpl;
    [destruct kill_outcome as [[[] ?]|]; simpl|];
    eexists; by split.
Qed.

Lemma stop_active_marks_inactive_witness :
  ∃ w',
    stop_user_bot (Some (mkExn ProcessLookupError "No such process")) 7
      (start_user_bot (mkSpawnIO None (inr 4242%Z)) 30 7 one_tenant).2 = (Val true, w') ∧
    user_instances w' =
      <[7%Z := stopped_record
                 (started_record 4242 30
                    (mkUserInstance 7 "+1000" 0 None "inactive" 50 0
                       "user_instances/user_7/sessions" "user_instances/user_7/.env"))]>
        (user_instances (start_user_bot (mkSpawnIO None (inr 4242%Z)) 30 7 one_tenant).2) ∧
    heap w' = heap (start_user_bot (mkSpawnIO None (inr 4242%Z)) 30 7 one_tenant).2 ∧
    credentials w' =
      credentials (start_user_bot (mkSpawnIO None (inr 4242%Z)) 30 7 one_tenant).2 ∧
    user_dirs w' = user_dirs (start_user_bot (mkSpawnIO None (inr 4242%Z)) 30 7 one_tenant).2.
Proof.
  apply (stop_active_marks_inactive
           (start_user_bot (mkSpawnIO None (inr 4242%Z)) 30 7 one_tenant).2 7
           (started_record 4242 30
              (mkUserInstance 7 "+1000" 0 None "inactive" 50 0
                 "user_instances/user_7/sessions" "user_instances/user_7/.env"))
           (Some (mkExn ProcessLookupError "No such process")));
    reflexivity.
Defined.

(** X9. A removal does not wait for the stop to succeed: when the signal
    to an active tenant's process raises something other than
    [ProcessLookupError], [stop_user_bot] fails inside
    [remove_user_instance], whose result is ignored; the credential is
    released, the record deleted and the directory removed all the same,
    and [True] is returned. The process id is lost with the record. *)
Theorem remove_ignores_failed_stop (w : Host) (uid : Z) (inst : UserInstance)
    (c : APICredential) (pid : Z) (e : Exn) :
  user_instances w !! uid = Some inst →
  status inst = "active" →
  truthy_pid (process_id inst) = Some pid →
  exn_class e ≠ ProcessLookupError →
  heap w !! api_credential inst = Some c →
  ∃ w',
    remove_user_instance (Some e) None uid w = (Val true, w') ∧
    user_instances w' = delete uid (user_instances w) ∧
    (uid ∉ user_dirs w') ∧
    trace w' =
      trace w
      ++ [Kill pid; Log ERROR "Error stopping bot for user {user_id}: {e}" [uid]]
      ++ (if (0 <? in_use c)%Z then [SaveCredentials] else [])
      ++ [SaveInstances]
      ++ (if bool_decide (uid ∈ user_dirs w) then [Rmtree uid] else [])
      ++ [Log INFO "Removed user instance for {user_id}" [uid]].
Proof.
  intros Hinst Hactive Hpid Hclass Hc.
  destruct (remove_user_instance_effect w uid inst c (Some e) None Hinst Hc)
    as (w' & Hrun & Htrace & _ & _ & Hreg & Hdirs).
  assert (Hstop : trace (stop_user_bot (Some e) uid w).2 =
                  trace w ++ [Kill pid;
                              Log ERROR "Error stopping bot for user {user_id}: {e}" [uid]]).
  { exec. rewrite Hinst. simpl. rewrite Hactive. simpl. rewrite Hpid. simpl.
    destruct e as [[] ?]; simpl in *; try done; by rewrite <- app_assoc. }
  simpl in Hrun. rewrite orb_true_r in Hrun.
  exists w'. split; [done|]. split; [done|]. split.
  - rewrite Hdirs. simpl. rewrite andb_true_r.
    destruct (bool_decide_reflect (uid ∈ user_dirs w)); [|done].
    apply not_elem_of_difference. right. by apply elem_of_singleton.
  - rewrite Htrace, Hstop, orb_true_r, <- !app_assoc. done.
Qed.

Lemma remove_ignores_failed_stop_witness :
  ∃ w',
    remove_user_instance (Some (mkExn OtherException "Operation not permitted")) None 7
      (start_user_bot (mkSpawnIO None (inr 4242%Z)) 30 7 one_tenant).2 = (Val true, w') ∧
    user_instances w' =
      delete 7%Z (user_instances (start_user_bot (mkSpawnIO None (inr 4242%Z)) 30 7
                                    one_tenant).2) ∧
    (7%Z ∉ user_dirs w') ∧
    trace w' =
      trace (start_user_bot (mkSpawnIO None (inr 4242%Z)) 30 7 one_tenant).2
      ++ [Kill 4242; Log ERROR "Error stopping bot for user {user_id}: {e}" [7%Z]]
      ++ [SaveCredentials]
      ++ [SaveInstances]
      ++ [Rmtree 7]
      ++ [Log INFO "Removed user instance for {user_id}" [7%Z]].
Proof.
  apply (remove_ignores_failed_stop
           (start_user_bot (mkSpawnIO None (inr 4242%Z)) 30 7 one_tenant).2 7
           (started_record 4242 30
              (mkUserInstance 7 "+1000" 0 None "inactive" 50 0
                 "user_instances/user_7/sessions" "user_instances/user_7/.env"))
           (mkAPICredential 12345 "hash" "ASCL_App_1" 1 100 0 50) 4242
           (mkExn OtherException "Operation not permitted"));
    [reflexivity | reflexivity | reflexivity | discriminate | reflexivity].
Defined.

(** X13. What [get_user_status] reports through a tenant's life: nothing
    before the creation; after a successful creation "inactive" with the
    phone given and no process; after a successful start "active" with the
    process id and the time of the start; after a stop "inactive" again
    without process id; and nothing after the removal, whether or not the
    directory could be removed. *)
Theorem status_through_lifecycle (w : Host) (uid : Z) (l : loc) (c : APICredential)
    (t1 t2 now pid : Z) (phone key : string) (rmtree_outcome : option Exn) :
  user_instances w !! uid = None →
  get_available_credential w = Some l →
  heap w !! l = Some c →
  let w1 := (create_user_instance io_ok t1 t2 uid phone key w).2 in
  let w2 := (start_user_bot (mkSpawnIO None (inr pid)) now uid w1).2 in
  let w3 := (stop_user_bot None uid w2).2 in
  let w4 := (remove_user_instance None rmtree_outcome uid w3).2 in
  get_user_status uid w = None ∧
  get_user_status uid w1 = Some (mkUserStatus "inactive" phone t2 0 None) ∧
  get_user_status uid w2 = Some (mkUserStatus "active" phone t2 now (Some pid)) ∧
  get_user_status uid w3 = Some (mkUserStatus "inactive" phone t2 now None) ∧
  get_user_status uid w4 = None.
Proof.
  intros Hnew Hget Hl.
  destruct (get_available_credential_Some w l Hget) as (c' & Hl' & Hfree & _).
  assert (c' = c) as -> by congruence.
  destruct (create_user_instance_success w uid l c t1 t2 phone key Hnew Hget Hl Hfree)
    as (w1 & Hrun1 & Hheap1 & _ & Hreg1 & _).
  rewrite Hrun1. simpl.
  set (inst1 := mkUserInstance uid phone l None "inactive" t2 0
                  (user_path uid +:+ "/sessions") (user_path uid +:+ "/.env")) in *.
  set (w2 := (start_user_bot (mkSpawnIO None (inr pid)) now uid w1).2).
  assert (H2 : user_instances w2 = <[uid := started_record pid now inst1]> (user_instances w1)
               ∧ heap w2 = heap w1).
  { subst w2 inst1. exec. rewrite Hreg1, lookup_insert_eq. simpl. by rewrite ?Hreg1. }
  destruct H2 as [Hreg2 Hheap2].
  set (w3 := (stop_user_bot None uid w2).2).
  assert (H3 : user_instances w3
               = <[uid := stopped_record (started_record pid now inst1)]> (user_instances w2)
               ∧ heap w3 = heap w2).
  { subst w3 inst1. exec. rewrite Hreg2, lookup_insert_eq. simpl.
    destruct (pid =? 0)%Z; simpl; by rewrite ?Hreg2. }
  destruct H3 as [Hreg3 Hheap3].
  destruct (remove_user_instance_effect w3 uid
              (stopped_record (started_record pid now inst1))
              (mkAPICredential (api_id c) (api_hash c) (app_name c)
                 (in_use c + 1) (max_users c) (created_at c) t1)
              None rmtree_outcome)
    as (w4 & Hrun4 & _ & _ & _ & Hreg4 & _).
  { by rewrite Hreg3, lookup_insert_eq. }
  { simpl. by rewrite Hheap3, Hheap2, Hheap1, lookup_insert_eq. }
  rewrite Hrun4. unfold get_user_status. simpl.
  rewrite Hnew, Hreg4, Hreg3, Hreg2, Hreg1, lookup_delete_eq, !lookup_insert_eq.
  by subst inst1.
Qed.

Lemma status_through_lifecycle_witness :
  let w1 := (create_user_instance io_ok 10 11 1 "+1000" "SERVICE_PROVIDED" pool_of_one).2 in
  let w2 := (start_user_bot (mkSpawnIO None (inr 4242%Z)) 30 1 w1).2 in
  let w3 := (stop_user_bot None 1 w2).2 in
  let w4 := (remove_user_instance None None 1 w3).2 in
  get_user_status 1 pool_of_one = None ∧
  get_user_status 1 w1 = Some (mkUserStatus "inactive" "+1000" 11 0 None) ∧
  get_user_status 1 w2 = Some (mkUserStatus "active" "+1000" 11 30 (Some 4242%Z)) ∧
  get_user_status 1 w3 = Some (mkUserStatus "inactive" "+1000" 11 30 None) ∧
  get_user_status 1 w4 = None.
Proof.
  apply (status_through_lifecycle pool_of_one 1 0
           (mkAPICredential 12345 "hash" "ASCL_App_1" 0 1 0 0));
    reflexivity.
Defined.

End host_manager_behaviour.

(** ** The host manager: start-up *)

Section host_manager_startup.
Import host_manager.

Lemma omap_agree {A B} (f g : A → option B) (l : list A) :
  (∀ x, x ∈ l → f x = g x) → omap f l = omap g l.
Proof.
  induction l as [|x l IH]; intros Hfg; [done|]. simpl.
  rewrite (Hfg x) by left.
  assert (Hrest : omap f l = omap g l).
  { apply IH. intros y Hy. apply Hfg. by right. }
  unfold omap in Hrest. by rewrite Hrest.
Qed.

(** The pool's objects depend on the store only through the pool's own
    references. *)
Lemma pool_objects_agree (w w' : Host) :
  credentials w' = credentials w →
  (∀ l, l ∈ credentials w → heap w' !! l = heap w !! l) →
  pool_objects w' = pool_objects w.
Proof.
  intros Hcreds Hheap. unfold pool_objects. rewrite Hcreds.
  apply omap_agree. intros l Hl. by rewrite Hheap.
Qed.

Lemma load_instance_keeps_apart (d : InstanceData) (w : Host) :
  (∀ l, l ∈ credentials w → is_Some (heap w !! l)) →
  (∀ uid inst, user_instances w !! uid = Some inst →
     (api_credential inst ∉ credentials w) ∧ is_Some (heap w !! api_credential inst)) →
  credentials (load_instance d w) = credentials w ∧
  (∀ l, l ∈ credentials w → heap (load_instance d w) !! l = heap w !! l) ∧
  (∀ l, l ∈ credentials w → is_Some (heap (load_instance d w) !! l)) ∧
  (∀ uid inst, user_instances (load_instance d w) !! uid = Some inst →
     (api_credential inst ∉ credentials w) ∧
     is_Some (heap (load_instance d w) !! api_credential inst)).
Proof.
  intros Hpool Hreg. unfold load_instance. simpl.
  set (l0 := fresh (dom (heap w))).
  assert (Hfresh : heap w !! l0 = None) by (apply not_elem_of_dom, is_fresh).
  assert (Hkept : ∀ l, is_Some (heap w !! l) → <[l0 := data_api_credential d]> (heap w) !! l
                                              = heap w !! l).
  { intros l [c Hc]. rewrite lookup_insert_ne; [done|]. intros <-. congruence. }
  split_and!; [done|..].
  - intros l Hl. by apply Hkept, Hpool.
  - intros l Hl. rewrite Hkept by (by apply Hpool). by apply Hpool.
  - intros uid inst. destruct (decide (data_user_id d = uid)) as [<-|Hne].
    + rewrite lookup_insert_eq. intros [= <-]. simpl. split.
      * intros Hin. destruct (Hpool _ Hin) as [c Hc]. congruence.
      * rewrite lookup_insert_eq. eauto.
    + rewrite lookup_insert_ne by done. intros Hinst.
      destruct (Hreg _ _ Hinst) as [Hout Hin]. split; [done|].
      by rewrite Hkept.
Qed.

Lemma load_instances_keep_apart (data : list InstanceData) (w : Host) :
  (∀ l, l ∈ credentials w → is_Some (heap w !! l)) →
  (∀ uid inst, user_instances w !! uid = Some inst →
     (api_credential inst ∉ credentials w) ∧ is_Some (heap w !! api_credential inst)) →
  let w' := foldl (λ w d, load_instance d w) w data in
  credentials w' = credentials w ∧
  (∀ l, l ∈ credentials w → heap w' !! l = heap w !! l) ∧
  (∀ uid inst, user_instances w' !! uid = Some inst →
     (api_credential inst ∉ credentials w) ∧ is_Some (heap w' !! api_credential inst)).
Proof.
  revert w. induction data as [|d data IH]; intros w Hpool Hreg; simpl.
  { by split_and!. }
  destruct (load_instance_keeps_apart d w Hpool Hreg) as (Hc & Hh & Hp & Hr).
  destruct (IH (load_instance d w)) as (Hc' & Hh' & Hr').
  - intros l Hl. rewrite Hc in Hl. by apply Hp.
  - intros uid inst Hinst. rewrite Hc. by apply (Hr uid).
  - split_and!.
    + by rewrite Hc', Hc.
    + intros l Hl. rewrite Hh' by (by rewrite Hc). by apply Hh.
    + intros uid inst Hinst. rewrite <- Hc. by apply (Hr' uid).
Qed.

(** X10. After a restart no tenant shares its credential with the pool:
    [load_user_instances] gives every tenant it loads a credential object
    of its own, whatever the file holds, and leaves the pool's objects
    alone; so removing such a tenant, which releases the tenant's object,
    never changes a counter of the pool. *)
Theorem reloaded_tenants_never_release_pool (w : Host) (data : list InstanceData) :
  (∀ l, l ∈ credentials w → is_Some (heap w !! l)) →
  user_instances w = ∅ →
  pool_objects (load_user_instances (Some data) w).2 = pool_objects w ∧
  ∀ uid inst,
    user_instances (load_user_instances (Some data) w).2 !! uid = Some inst →
    (api_credential inst ∉ credentials (load_user_instances (Some data) w).2) ∧
    ∀ kill_outcome rmtree_outcome,
      pool_objects (remove_user_instance kill_outcome rmtree_outcome uid
                      (load_user_instances (Some data) w).2).2
      = pool_objects w.
Proof.
  intros Hpool Hempty.
  destruct (load_instances_keep_apart data w Hpool) as (Hc & Hh & Hr).
  { intros uid inst. by rewrite Hempty, lookup_empty. }
  unfold load_user_instances, bind, modify, get, log, emit. simpl.
  set (w' := foldl (λ w d, load_instance d w) w data) in *.
  assert (Hsame : pool_objects w' = pool_objects w) by (by apply pool_objects_agree).
  split; [by rewrite <- Hsame|].
  intros uid inst Hinst. destruct (Hr _ _ Hinst) as [Hout [c Hcred]].
  split; [by rewrite Hc|].
  intros kill_outcome rmtree_outcome.
  set (w1 := mkHost (heap w') (credentials w') (user_instances w') (user_dirs w')
               (trace w' ++ [Log INFO "Loaded {len(self.user_instances)} user instances"
                               [Z.of_nat (size (user_instances w'))]])).
  destruct (remove_user_instance_effect w1 uid inst c kill_outcome rmtree_outcome)
    as (w2 & Hrun & _ & Hheap2 & Hcreds2 & _); [done|done|].
  rewrite Hrun. simpl. rewrite <- Hsame.
  apply pool_objects_agree; [by rewrite Hcreds2|].
  intros l Hl. rewrite Hheap2. simpl.
  destruct (0 <? in_use c)%Z; [|done].
  rewrite lookup_insert_ne; [done|]. intros <-. by rewrite Hc in Hl.
Qed.

Lemma reloaded_tenants_never_release_pool_witness :
  pool_objects
    (load_user_instances
       (Some [mkInstanceData 1 "+1000" (mkAPICredential 12345 "hash" "ASCL_App_1" 1 1 0 10)
                11 "user_instances/user_1/sessions" "user_instances/user_1/.env"])
       pool_of_one).2 = pool_objects pool_of_one ∧
  ∀ uid inst,
    user_instances
      (load_user_instances
         (Some [mkInstanceData 1 "+1000" (mkAPICredential 12345 "hash" "ASCL_App_1" 1 1 0 10)
                  11 "user_instances/user_1/sessions" "user_instances/user_1/.env"])
         pool_of_one).2 !! uid = Some inst →
    (api_credential inst ∉
       credentials
         (load_user_instances
            (Some [mkInstanceData 1 "+1000" (mkAPICredential 12345 "hash" "ASCL_App_1" 1 1 0 10)
                     11 "user_instances/user_1/sessions" "user_instances/user_1/.env"])
            pool_of_one).2) ∧
    ∀ kill_outcome rmtree_outcome,
      pool_objects
        (remove_user_instance kill_outcome rmtree_outcome uid
           (load_user_instances
              (Some [mkInstanceData 1 "+1000"
                       (mkAPICredential 12345 "hash" "ASCL_App_1" 1 1 0 10)
                       11 "user_instances/user_1/sessions" "user_instances/user_1/.env"])
              pool_of_one).2).2
      = pool_objects pool_of_one.
Proof.
  apply reloaded_tenants_never_release_pool.
  - intros l Hl. apply list_elem_of_singleton in Hl as ->. by eexists.
  - reflexivity.
Defined.

(** X11. A missing or unreadable credentials file leaves the pool empty:
    when api_credentials.json does not exist the default file is written
    but not loaded, and when reading it raises the pool is reset; in both
    cases [self.credentials] is empty, so every creation fails on "No
    available API credentials" and mutates nothing. *)
Theorem no_credentials_file_means_no_tenant (w : Host)
    (file : option (Exn + list APICredential)) (write_default : option Exn) :
  (file = None ∨ ∃ e, file = Some (inl e)) →
  credentials (pool_init file write_default w).2 = [] ∧
  heap (pool_init file write_default w).2 = heap w ∧
  user_instances (pool_init file write_default w).2 = user_instances w ∧
  ∀ uid io t1 t2 phone key,
    user_instances w !! uid = None →
    ∃ w2,
      create_user_instance io t1 t2 uid phone key (pool_init file write_default w).2
        = (Val false, w2) ∧
      same_state (pool_init file write_default w).2 w2 ∧
      trace w2 = trace (pool_init file write_default w).2
                 ++ [Log ERROR "No available API credentials" []].
Proof.
  intros Hfile.
  assert (Hinit : credentials (pool_init file write_default w).2 = [] ∧
                  heap (pool_init file write_default w).2 = heap w ∧
                  user_instances (pool_init file write_default w).2 = user_instances w).
  { unfold pool_init, load_credentials, try_except, bind, modify, log, emit, ext, raise,
      ret, modify.
    destruct Hfile as [->|[e ->]]; simpl; [destruct write_default as [e|]|]; by simpl. }
  destruct Hinit as (Hc & Hh & Hr). split_and!; try done.
  intros uid io t1 t2 phone key Hnew.
  apply create_user_instance_exhausted; [by rewrite Hr|].
  unfold get_available_credential, pool_objects. by rewrite Hc.
Qed.

Lemma no_credentials_file_means_no_tenant_witness :
  credentials (pool_init None None pool_of_one).2 = [] ∧
  heap (pool_init None None pool_of_one).2 = heap pool_of_one ∧
  user_instances (pool_init None None pool_of_one).2 = user_instances pool_of_one ∧
  ∀ uid io t1 t2 phone key,
    user_instances pool_of_one !! uid = None →
    ∃ w2,
      create_user_instance io t1 t2 uid phone key (pool_init None None pool_of_one).2
        = (Val false, w2) ∧
      same_state (pool_init None None pool_of_one).2 w2 ∧
      trace w2 = trace (pool_init None None pool_of_one).2
                 ++ [Log ERROR "No available API credentials" []].
Proof. apply no_credentials_file_means_no_tenant. by left. Defined.

Lemma new_credential_appends (c : APICredential) (w : Host) :
  (∀ l, l ∈ credentials w → is_Some (heap w !! l)) →
  pool_objects (new_credential c w) = pool_objects w ++ [(fresh (dom (heap w)), c)] ∧
  (fresh (dom (heap w)) ∉ credentials w) ∧
  heap w !! fresh (dom (heap w)) = None.
Proof.
  intros Hpool.
  set (l0 := fresh (dom (heap w))).
  assert (Hfresh : heap w !! l0 = None) by (apply not_elem_of_dom, is_fresh).
  assert (Hout : l0 ∉ credentials w).
  { intros Hin. destruct (Hpool _ Hin) as [c' Hc']. congruence. }
  split_and!; [|done|done].
  unfold pool_objects, new_credential. fold l0. simpl.
  rewrite omap_app. simpl. rewrite lookup_insert_eq. simpl. f_equal.
  apply omap_agree. intros l Hl. rewrite lookup_insert_ne; [done|].
  intros <-. done.
Qed.

Lemma new_credentials_append (data : list APICredential) (w : Host) :
  (∀ l, l ∈ credentials w → is_Some (heap w !! l)) →
  NoDup (credentials w) →
  let w' := foldl (λ w c, new_credential c w) w data in
  (pool_objects w').*2 = (pool_objects w).*2 ++ data ∧
  NoDup (credentials w') ∧
  (∀ l c, heap w !! l = Some c → heap w' !! l = Some c) ∧
  (∀ l, l ∈ credentials w' → l ∈ credentials w ∨ heap w !! l = None) ∧
  user_instances w' = user_instances w.
Proof.
  revert w. induction data as [|c data IH]; intros w Hpool Hnodup; simpl.
  { rewrite app_nil_r. split_and!; eauto. }
  destruct (new_credential_appends c w Hpool) as (Hobjs & Hout & Hfresh).
  destruct (IH (new_credential c w)) as (Hobjs' & Hnodup' & Hkept & Hnew & Hreg).
  - intros l Hl. simpl in *. apply elem_of_app in Hl as [Hl|Hl].
    + destruct (Hpool _ Hl) as [c' Hc']. rewrite lookup_insert_ne; [eauto|].
      intros <-. congruence.
    + apply list_elem_of_singleton in Hl as ->. rewrite lookup_insert_eq. eauto.
  - simpl. apply NoDup_app. split_and!; [done| |apply NoDup_singleton].
    intros l Hl Hl'. apply list_elem_of_singleton in Hl' as ->. done.
  - split_and!; [|done|..|done].
    + rewrite Hobjs', Hobjs, fmap_app, <- app_assoc. done.
    + intros l c' Hc'. apply Hkept. simpl. rewrite lookup_insert_ne; [done|].
      intros <-. congruence.
    + intros l Hl. destruct (Hnew l Hl) as [Hin|Hnone].
      * simpl in Hin. apply elem_of_app in Hin as [Hin|Hin]; [by left|].
        apply list_elem_of_singleton in Hin as ->. by right.
      * right. simpl in Hnone.
        destruct (decide (fresh (dom (heap w)) = l)) as [<-|Hne]; [done|].
        by rewrite lookup_insert_ne in Hnone.
Qed.

(** X12. Loading the credentials file builds the pool anew: the pool then
    holds one object per stored credential, in file order and with the
    stored counters; these objects are new (none was in the store before),
    and the objects that were there, which tenants' records may refer to,
    are left as they were. *)
Theorem load_credentials_builds_new_pool (w : Host) (data : list APICredential)
    (write_default : option Exn) :
  (pool_objects (pool_init (Some (inr data)) write_default w).2).*2 = data ∧
  NoDup (credentials (pool_init (Some (inr data)) write_default w).2) ∧
  (∀ l, l ∈ credentials (pool_init (Some (inr data)) write_default w).2 →
        heap w !! l = None) ∧
  (∀ l c, heap w !! l = Some c →
          heap (pool_init (Some (inr data)) write_default w).2 !! l = Some c) ∧
  user_instances (pool_init (Some (inr data)) write_default w).2 = user_instances w.
Proof.
  unfold pool_init, load_credentials, try_except, bind, modify, get, log, emit. simpl.
  destruct (new_credentials_append data (set_credentials [] w))
    as (Hobjs & Hnodup & Hkept & Hnew & Hreg).
  { intros l Hl. simpl in Hl. by apply elem_of_nil in Hl. }
  { simpl. apply NoDup_nil_2. }
  split_and!; try done.
  intros l Hl. destruct (Hnew l Hl) as [Hin|Hnone]; [|done].
  simpl in Hin. by apply elem_of_nil in Hin.
Qed.

End host_manager_startup.

(** ** The session manager: further properties *)

Section session_manager_more.
Import session_manager.

Local Ltac exec :=
  unfold start_authentication, verify_code, verify_password, disconnect_user,
    ext_val, log, emit, try_except, bind, ret, raise, get, modify, ext,
    set_active_sessions, set_authenticated_clients; simpl.

Local Ltac outcome o := destruct o as [[[] ?]|]; simpl.
Local Ltac outcome_val o := destruct o as [[[] ?]|?]; simpl.

Lemma sessions_ok_insert_both (m : Manager) (u : Z) (s : AuthSession) (c : TelegramClient)
    (sessions : gmap Z AuthSession) (clients : gmap Z TelegramClient) :
  sessions_ok m →
  user_id s = u → live_status (status s) →
  sessions = <[u := s]> (active_sessions m) →
  clients = <[u := c]> (authenticated_clients m) ∨
  (clients = authenticated_clients m ∧ is_Some (authenticated_clients m !! u)) →
  ∀ tr, sessions_ok (mkManager sessions clients tr).
Proof.
  intros Hm Hid Hst -> Hclients tr uid s0. simpl.
  destruct (decide (u = uid)) as [<-|Hne].
  - rewrite lookup_insert_eq. intros [= <-]. split_and!; [done| |done].
    destruct Hclients as [->|[-> ?]]; [rewrite lookup_insert_eq; eauto|done].
  - rewrite lookup_insert_ne by done. intros Hs0.
    destruct (Hm _ _ Hs0) as (? & ? & ?). split_and!; [done| |done].
    destruct Hclients as [->|[-> ?]]; [by rewrite lookup_insert_ne|done].
Qed.

Lemma sessions_ok_frame (m : Manager) (sessions : gmap Z AuthSession)
    (clients : gmap Z TelegramClient) :
  sessions_ok m →
  (∀ uid s, sessions !! uid = Some s → active_sessions m !! uid = Some s) →
  (∀ uid s, sessions !! uid = Some s → is_Some (authenticated_clients m !! uid) →
            is_Some (clients !! uid)) →
  ∀ tr, sessions_ok (mkManager sessions clients tr).
Proof.
  intros Hm Hsub Hcl tr uid s Hs. simpl in *.
  destruct (Hm _ _ (Hsub _ _ Hs)) as (? & ? & ?). split_and!; eauto.
Qed.

Lemma start_authentication_ok io u ph id h (m : Manager) :
  sessions_ok m → sessions_ok (start_authentication io u ph id h m).2.
Proof.
  intros Hm. exec. destruct io as [mk cn au sc t1 t2]; simpl.
  outcome mk; try (by (assumption || apply (sessions_ok_frame m))).
  outcome cn; try (by (assumption || apply (sessions_ok_frame m))).
  destruct au as [[[] ?]|[|]]; simpl; try (by (assumption || apply (sessions_ok_frame m))).
  { apply (sessions_ok_frame m); [done|done|]. intros uid s _ Hc. simpl.
    destruct (decide (u = uid)) as [<-|?];
      [rewrite lookup_insert_eq; eauto|by rewrite lookup_insert_ne]. }
  outcome_val sc; try (by (assumption || apply (sessions_ok_frame m))).
  eapply (sessions_ok_insert_both m); [done|..|reflexivity|by left]; [done|].
  unfold live_status. simpl. eauto.
Qed.

Lemma verify_code_ok now r u code (m : Manager) :
  sessions_ok m → sessions_ok (verify_code now r u code m).2.
Proof.
  intros Hm. exec.
  destruct (active_sessions m !! u) as [s|] eqn:Hs; simpl;
    [|by (assumption || apply (sessions_ok_frame m))].
  destruct (Hm _ _ Hs) as (Hid & Hcl & Hst).
  destruct (Z.ltb_spec (expires_at s) now); simpl.
  { apply (sessions_ok_frame m); [done| |done]. intros uid s0 Hs0.
    destruct (decide (u = uid)) as [<-|?];
      [by rewrite lookup_delete_eq in Hs0|by rewrite lookup_delete_ne in Hs0]. }
  destruct (authenticated_clients m !! u) as [client|] eqn:Hclient; simpl;
    [|by (assumption || apply (sessions_ok_frame m))].
  outcome r; try (by (assumption || apply (sessions_ok_frame m))).
  - eapply (sessions_ok_insert_both m u _ client); [done|..|reflexivity|right]; simpl;
      [done|unfold live_status; eauto|by rewrite Hclient].
  - eapply (sessions_ok_insert_both m u _ client); [done|..|reflexivity|right]; simpl;
      [done|unfold live_status; eauto|by rewrite Hclient].
Qed.

Lemma verify_password_ok r u pw (m : Manager) :
  sessions_ok m → sessions_ok (verify_password r u pw m).2.
Proof.
  intros Hm. exec.
  destruct (active_sessions m !! u) as [s|] eqn:Hs; simpl;
    [|by (assumption || apply (sessions_ok_frame m))].
  destruct (Hm _ _ Hs) as (Hid & Hcl & Hst).
  destruct (String.eqb (status s) "password_required"); simpl;
    [|by (assumption || apply (sessions_ok_frame m))].
  destruct (authenticated_clients m !! u) as [client|] eqn:Hclient; simpl;
    [|by (assumption || apply (sessions_ok_frame m))].
  outcome r; try (by (assumption || apply (sessions_ok_frame m))).
  eapply (sessions_ok_insert_both m u _ client); [done|..|reflexivity|right]; simpl;
    [done|unfold live_status; eauto|by rewrite Hclient].
Qed.

Lemma disconnect_user_ok r u (m : Manager) :
  sessions_ok m → sessions_ok (disconnect_user r u m).2.
Proof.
  intros Hm. exec.
  assert (Hdel : ∀ clients tr,
            (∀ uid, uid ≠ u → clients !! uid = authenticated_clients m !! uid) →
            sessions_ok (mkManager (delete u (active_sessions m)) clients tr)).
  { intros clients tr Hcl. apply (sessions_ok_frame m); [done|..].
    - intros uid s Hs. destruct (decide (u = uid)) as [<-|?];
        [by rewrite lookup_delete_eq in Hs|by rewrite lookup_delete_ne in Hs].
    - intros uid s Hs Hc. destruct (decide (u = uid)) as [<-|?];
        [by rewrite lookup_delete_eq in Hs|by rewrite Hcl]. }
  destruct (authenticated_clients m !! u) as [client|]; simpl.
  - outcome r; try (by (assumption || apply (sessions_ok_frame m))).
    apply Hdel. intros uid Hne. by rewrite lookup_delete_ne.
  - by apply Hdel.
Qed.

Lemma disconnect_all_ok r (users : list Z) (m : Manager) :
  sessions_ok m → sessions_ok (disconnect_all r users m).2.
Proof.
  revert m. induction users as [|u users IH]; intros m Hm; simpl; [done|].
  unfold bind at 1.
  pose proof (disconnect_user_ok (r u) u m Hm) as Hone.
  destruct (disconnect_user (r u) u m) as [[b|e] m1]; simpl in *; [|done].
  unfold bind, log, emit, modify. simpl. apply IH.
  by (assumption || apply (sessions_ok_frame m)).
Qed.

Lemma run_op_sessions_ok (op : AuthOp) (m : Manager) :
  sessions_ok m → sessions_ok (run_op op m).
Proof.
  destruct op; simpl; intros Hm.
  - by apply start_authentication_ok.
  - by apply verify_code_ok.
  - by apply verify_password_ok.
  - by apply disconnect_user_ok.
  - unfold cleanup_expired_sessions, bind, get. by apply disconnect_all_ok.
Qed.

(** X14. Along any sequence of calls from the empty manager, every stored
    session is filed under its own [user_id], has a client in
    [authenticated_clients], and has status "code_sent",
    "password_required" or "authenticated": the "Client not found" answers
    of the two verifications are never given for a stored session, and no
    stored session is "pending", "error" or "expired". *)
Theorem sessions_always_have_client (ops : list AuthOp) (uid : Z) (s : AuthSession) :
  active_sessions (run_ops ops empty_manager) !! uid = Some s →
  user_id s = uid ∧
  is_Some (authenticated_clients (run_ops ops empty_manager) !! uid) ∧
  (status s = "code_sent" ∨ status s = "password_required" ∨ status s = "authenticated").
Proof.
  assert (Hall : ∀ m, sessions_ok m → sessions_ok (run_ops ops m)).
  { induction ops as [|op ops IH]; intros m Hm; [done|].
    simpl. apply IH. by apply run_op_sessions_ok. }
  apply Hall. intros u s0. simpl. by rewrite lookup_empty.
Qed.

Lemma sessions_always_have_client_witness :
  user_id (sent_session (mkStartIO None None (inr false) (inr "hash") 100 100)
             7 "+1000" 12345 "apihash" "hash") = 7%Z ∧
  is_Some (authenticated_clients
             (run_ops [StartAuthentication
                         (mkStartIO None None (inr false) (inr "hash") 100 100)
                         7 "+1000" 12345 "apihash"] empty_manager) !! 7%Z) ∧
  (status (sent_session (mkStartIO None None (inr false) (inr "hash") 100 100)
             7 "+1000" 12345 "apihash" "hash") = "code_sent" ∨
   status (sent_session (mkStartIO None None (inr false) (inr "hash") 100 100)
             7 "+1000" 12345 "apihash" "hash") = "password_required" ∨
   status (sent_session (mkStartIO None None (inr false) (inr "hash") 100 100)
             7 "+1000" 12345 "apihash" "hash") = "authenticated").
Proof.
  apply (sessions_always_have_client
           [StartAuthentication (mkStartIO None None (inr false) (inr "hash") 100 100)
              7 "+1000" 12345 "apihash"] 7).
  reflexivity.
Defined.

(** X15. [start_authentication] has three outcomes, told apart by what it
    returns. A failure ("error") leaves sessions and clients as they were.
    "already_authenticated" stores a new client and no session. "code_sent"
    stores a new client and a session in status "code_sent" that expires
    300 after the second clock reading, replacing whatever session the
    tenant had: a start is never refused because one is in flight. *)
Theorem start_authentication_by_result (io : StartIO) (uid : Z) (ph : string)
    (id : Z) (h : string) (m : Manager) :
  ∃ res m',
    start_authentication io uid ph id h m = (Val res, m') ∧
    ((res_success res = false ∧ res_status res = "error" ∧
      active_sessions m' = active_sessions m ∧
      authenticated_clients m' = authenticated_clients m) ∨
     (res = mkResult true "already_authenticated" "User is already authenticated" None ∧
      active_sessions m' = active_sessions m ∧
      authenticated_clients m' = <[uid := new_client uid id h]> (authenticated_clients m)) ∨
     (∃ hash,
        io_send_code io = inr hash ∧
        res = mkResult true "code_sent" ("Verification code sent to " +:+ ph) (Some ph) ∧
        active_sessions m' = <[uid := sent_session io uid ph id h hash]> (active_sessions m) ∧
        authenticated_clients m' = <[uid := new_client uid id h]> (authenticated_clients m))).
Proof.
  exec. destruct io as [mk cn au sc t1 t2]; simpl.
  outcome mk; try (eexists _, _; split; [done|]; left; by split_and!).
  outcome cn; try (eexists _, _; split; [done|]; left; by split_and!).
  destruct au as [[[] ?]|[|]]; simpl;
    try (eexists _, _; split; [done|]; left; by split_and!).
  { eexists _, _. split; [done|]. right. left. by split_and!. }
  outcome_val sc; try (eexists _, _; split; [done|]; left; by split_and!).
  eexists _, _. split; [done|]. right. right. eexists. by split_and!.
Qed.

(** X16. A code the provider accepts is accepted up to and including the
    deadline: after a start that sent a code, [verify_code] with a sign-in
    that succeeds returns "authenticated" when the clock is at most 300
    past the start's second reading, and then
    [get_authenticated_client] hands out the client (it hands out nothing
    before); later than that the call fails on expiry, the provider is not
    asked and the session is gone. *)
Theorem accepted_code_within_deadline (io : StartIO) (uid : Z) (ph : string)
    (id : Z) (h hash code : string) (m : Manager) (now : Z) :
  io_mkdir io = None →
  io_connect io = None →
  io_is_authorized io = inr false →
  io_send_code io = inr hash →
  let m1 := (start_authentication io uid ph id h m).2 in
  get_authenticated_client uid m1 = None ∧
  ∃ m2,
    if (now <=? now_expires io + 300)%Z then
      verify_code now None uid code m1 =
        (Val (mkResult true "authenticated" "Authentication successful" None), m2) ∧
      session_status m2 uid = Some "authenticated" ∧
      get_authenticated_client uid m2 = Some (new_client uid id h) ∧
      trace m2 = trace m1 ++ [SignInCode uid ph code (Some hash);
                              Log INFO "User {user_id} authenticated successfully" [uid]]
    else
      verify_code now None uid code m1 =
        (Val (mkResult false "error" "Authentication session expired" None), m2) ∧
      session_status m2 uid = None ∧
      get_authenticated_client uid m2 = None ∧
      trace m2 = trace m1.
Proof.
  intros Hmk Hcn Hau Hsc. destruct io as [mk cn au sc t1 t2]. simpl in *. subst.
  exec. unfold get_authenticated_client, session_status. simpl.
  rewrite !lookup_insert_eq. simpl. split; [done|].
  destruct (Z.leb_spec now (t2 + 300)) as [Hin|Hout].
  - destruct (Z.ltb_spec (t2 + 300) now) as [?|_]; [lia|]. simpl.
    eexists. split; [done|]. simpl. rewrite !lookup_insert_eq. simpl.
    rewrite <- app_assoc. by split_and!.
  - destruct (Z.ltb_spec (t2 + 300) now) as [_|?]; [|lia]. simpl.
    eexists. split; [done|]. simpl. rewrite !lookup_delete_eq. by split_and!.
Qed.

Lemma accepted_code_within_deadline_witness :
  let m1 := (start_authentication (mkStartIO None None (inr false) (inr "hash") 100 100)
               7 "+1000" 12345 "apihash" empty_manager).2 in
  get_authenticated_client 7 m1 = None ∧
  ∃ m2,
    if (400 <=? 100 + 300)%Z then
      verify_code 400 None 7 "12345" m1 =
        (Val (mkResult true "authenticated" "Authentication successful" None), m2) ∧
      session_status m2 7 = Some "authenticated" ∧
      get_authenticated_client 7 m2 = Some (new_client 7 12345 "apihash") ∧
      trace m2 = trace m1 ++ [SignInCode 7 "+1000" "12345" (Some "hash");
                              Log INFO "User {user_id} authenticated successfully" [7%Z]]
    else
      verify_code 400 None 7 "12345" m1 =
        (Val (mkResult false "error" "Authentication session expired" None), m2) ∧
      session_status m2 7 = None ∧
      get_authenticated_client 7 m2 = None ∧
      trace m2 = trace m1.
Proof.
  apply (accepted_code_within_deadline (mkStartIO None None (inr false) (inr "hash") 100 100)
           7 "+1000" 12345 "apihash" "hash" "12345" empty_manager 400);
    reflexivity.
Defined.

(** X17. The second factor can be retried and is guarded by the status.
    On a session in status "password_required" with a client, a password
    the provider accepts makes the session "authenticated"; one on which
    the sign-in raises gives a failure and leaves the session, still
    "password_required", and the clients as they were. On a session in any
    other status the call fails without asking the provider and changes
    nothing at all. *)
Theorem verify_password_retry_and_guard (m : Manager) (uid : Z) (s : AuthSession)
    (client : TelegramClient) (sign_in : option Exn) (password : string) :
  active_sessions m !! uid = Some s →
  authenticated_clients m !! uid = Some client →
  ∃ res m',
    verify_password sign_in uid password m = (Val res, m') ∧
    authenticated_clients m' = authenticated_clients m ∧
    if String.eqb (status s) "password_required" then
      match sign_in with
      | None =>
          res = mkResult true "authenticated" "Two-factor authentication successful" None ∧
          active_sessions m' = <[uid := set_status "authenticated" s]> (active_sessions m) ∧
          get_authenticated_client uid m' = Some client
      | Some e =>
          res = mkResult false "error" ("Password verification error: " +:+ exn_msg e) None ∧
          active_sessions m' = active_sessions m ∧
          session_status m' uid = Some "password_required"
      end
    else
      res = mkResult false "error" "No password verification required" None ∧ m' = m.
Proof.
  intros Hs Hclient. exec. unfold get_authenticated_client, session_status.
  rewrite Hs. simpl.
  destruct (String.eqb_spec (status s) "password_required") as [Hst|Hst]; simpl.
  - rewrite Hclient. simpl. destruct sign_in as [e|]; simpl.
    + eexists _, _. split; [done|]. simpl. rewrite Hs. simpl. rewrite Hst. by split_and!.
    + eexists _, _. split; [done|]. simpl. rewrite lookup_insert_eq. simpl.
      by split_and!.
  - eexists _, _. split; [done|]. by split_and!.
Qed.

Lemma verify_password_retry_and_guard_witness :
  ∃ res m',
    verify_password (Some (mkExn OtherException "PASSWORD_HASH_INVALID")) 7 "guess"
      password_required_7 = (Val res, m') ∧
    authenticated_clients m' = authenticated_clients password_required_7 ∧
    res = mkResult false "error" "Password verification error: PASSWORD_HASH_INVALID" None ∧
    active_sessions m' = active_sessions password_required_7 ∧
    session_status m' 7 = Some "password_required".
Proof.
  apply (verify_password_retry_and_guard password_required_7 7
           (mkAuthSession 7 "+1000" 12345 "apihash"
              "user_instances/user_7/sessions/telegram_session" "password_required"
              (Some "hash") 100 400)
           (new_client 7 12345 "apihash")
           (Some (mkExn OtherException "PASSWORD_HASH_INVALID")) "guess");
    reflexivity.
Defined.

(** X18. [disconnect_user] is all or nothing: it returns [True] with the
    tenant's client and session both gone, or, when disconnecting the
    client raises, [False] with both maps exactly as they were; the other
    tenants' entries are never touched. *)
Theorem disconnect_user_all_or_nothing (m : Manager) (uid : Z) (disconnect : option Exn) :
  ∃ (r : bool) m',
    disconnect_user disconnect uid m = (Val r, m') ∧
    if r then
      active_sessions m' = delete uid (active_sessions m) ∧
      authenticated_clients m' = delete uid (authenticated_clients m)
    else
      active_sessions m' = active_sessions m ∧
      authenticated_clients m' = authenticated_clients m ∧
      is_Some (authenticated_clients m !! uid) ∧ is_Some disconnect.
Proof.
  exec. destruct (authenticated_clients m !! uid) as [client|] eqn:Hclient; simpl.
  - destruct disconnect as [e|]; simpl; eexists _, _; (split; [done|]); simpl;
      split_and!; eauto.
  - eexists _, _. split; [done|]. simpl. split; [done|].
    by rewrite delete_id.
Qed.

Lemma elem_of_expired_users (now : Z) (m : Manager) (u : Z) :
  u ∈ expired_users now m ↔
  ∃ s, active_sessions m !! u = Some s ∧ (expires_at s < now)%Z ∧
       status s ≠ "authenticated".
Proof.
  unfold expired_users. rewrite list_elem_of_fmap. split.
  - intros ([u' s] & -> & Hin). apply list_elem_of_filter in Hin as [Hp Hin].
    apply elem_of_map_to_list in Hin. simpl in *.
    apply andb_true_iff in Hp as [Hexp Hst].
    exists s. split_and!; [done|by apply Z.ltb_lt|].
    apply negb_true_iff in Hst. by apply String.eqb_neq.
  - intros (s & Hs & Hexp & Hst). exists (u, s). split; [done|].
    apply list_elem_of_filter. split; [|by apply elem_of_map_to_list].
    simpl. apply andb_true_iff. split; [by apply Z.ltb_lt|].
    apply negb_true_iff. by apply String.eqb_neq.
Qed.

Lemma disconnect_user_other r u (m : Manager) (uid : Z) :
  u ≠ uid →
  active_sessions (disconnect_user r u m).2 !! uid = active_sessions m !! uid ∧
  authenticated_clients (disconnect_user r u m).2 !! uid = authenticated_clients m !! uid.
Proof.
  intros Hne. exec. destruct (authenticated_clients m !! u) as [client|]; simpl.
  - outcome r; try done; by rewrite !lookup_delete_ne.
  - by rewrite lookup_delete_ne.
Qed.

Lemma disconnect_all_other r (users : list Z) (m : Manager) (uid : Z) :
  uid ∉ users →
  active_sessions (disconnect_all r users m).2 !! uid = active_sessions m !! uid ∧
  authenticated_clients (disconnect_all r users m).2 !! uid
    = authenticated_clients m !! uid.
Proof.
  revert m. induction users as [|u users IH]; intros m Hout; simpl; [done|].
  apply not_elem_of_cons in Hout as [Hne Hout].
  pose proof (disconnect_user_other (r u) u m uid) as Hone.
  destruct (disconnect_user (r u) u m) as [[b|e] m1] eqn:Hd;
    unfold bind; rewrite Hd; simpl in *; [|by apply Hone].
  unfold log, emit, modify. simpl.
  destruct Hone as [<- <-]; [done|].
  match goal with
  | |- context [disconnect_all r users ?M] => by destruct (IH M Hout) as [-> ->]
  end.
Qed.

Lemma disconnect_all_gone r (users : list Z) (m : Manager) (uid : Z) :
  (∀ u, r u = None) →
  uid ∈ users →
  active_sessions (disconnect_all r users m).2 !! uid = None.
Proof.
  intros Hr. revert m. induction users as [|u users IH]; intros m Hin; simpl.
  { by apply elem_of_nil in Hin. }
  unfold bind at 1.
  assert (Hd : ∃ m1, disconnect_user (r u) u m = (Val true, m1) ∧
                     active_sessions m1 !! u = None).
  { rewrite Hr. exec. destruct (authenticated_clients m !! u); simpl;
      eexists; (split; [done|]); simpl; apply lookup_delete_eq. }
  destruct Hd as (m1 & -> & Hgone). unfold bind, log, emit, modify. simpl.
  destruct (decide (uid ∈ users)) as [Hlater|Hnot]; [by apply IH|].
  apply elem_of_cons in Hin as [->|?]; [|done].
  by destruct (disconnect_all_other r users
                 (mkManager (active_sessions m1) (authenticated_clients m1)
                    (trace m1 ++ [Log INFO "Cleaned up expired session for user {user_id}" [u]]))
                 u Hnot) as [-> _].
Qed.

(** X19. The sweep removes only sessions that are past their deadline and
    not authenticated: [cleanup_expired_sessions] never adds or alters a
    session; a session that is authenticated or not yet expired is kept
    with its client, as is the client of a tenant without session; and
    when no disconnect raises, every session left is authenticated or
    unexpired. *)
Theorem cleanup_sweeps_expired_unauthenticated (m : Manager) (now : Z)
    (disconnect : Z → option Exn) :
  (∀ uid s, active_sessions (cleanup_expired_sessions now disconnect m).2 !! uid = Some s →
            active_sessions m !! uid = Some s) ∧
  (∀ uid s, active_sessions m !! uid = Some s →
            status s = "authenticated" ∨ (now ≤ expires_at s)%Z →
            active_sessions (cleanup_expired_sessions now disconnect m).2 !! uid = Some s ∧
            authenticated_clients (cleanup_expired_sessions now disconnect m).2 !! uid
              = authenticated_clients m !! uid) ∧
  (∀ uid, active_sessions m !! uid = None →
          authenticated_clients (cleanup_expired_sessions now disconnect m).2 !! uid
            = authenticated_clients m !! uid) ∧
  ((∀ u, disconnect u = None) →
   ∀ uid s, active_sessions (cleanup_expired_sessions now disconnect m).2 !! uid = Some s →
            status s = "authenticated" ∨ (now ≤ expires_at s)%Z).
Proof.
  unfold cleanup_expired_sessions, bind, get. split_and!.
  - intros uid s. apply disconnect_all_sessions.
  - intros uid s Hs Hkeep.
    destruct (disconnect_all_other disconnect (expired_users now m) m uid) as [-> ->];
      [|done].
    rewrite elem_of_expired_users. intros (s' & Hs' & Hexp & Hst).
    assert (s' = s) as -> by congruence. destruct Hkeep; [done|lia].
  - intros uid Hnone.
    destruct (disconnect_all_other disconnect (expired_users now m) m uid) as [_ ->];
      [|done].
    rewrite elem_of_expired_users. intros (s' & Hs' & _). congruence.
  - intros Hr uid s Hs.
    pose proof (disconnect_all_sessions _ _ _ _ _ Hs) as Hbefore.
    destruct (decide (status s = "authenticated")) as [?|Hst]; [by left|].
    destruct (Z.le_gt_cases now (expires_at s)) as [?|Hexp]; [by right|].
    assert (Hin : uid ∈ expired_users now m).
    { apply elem_of_expired_users. exists s. split_and!; [done|lia|done]. }
    rewrite (disconnect_all_gone disconnect _ m uid Hr Hin) in Hs. done.
Qed.

Lemma cleanup_sweeps_expired_unauthenticated_witness :
  (∀ uid s, active_sessions (cleanup_expired_sessions 1000 (λ _, None) code_sent_7).2 !! uid
              = Some s →
            active_sessions code_sent_7 !! uid = Some s) ∧
  (∀ uid s, active_sessions code_sent_7 !! uid = Some s →
            status s = "authenticated" ∨ (1000 ≤ expires_at s)%Z →
            active_sessions (cleanup_expired_sessions 1000 (λ _, None) code_sent_7).2 !! uid
              = Some s ∧
            authenticated_clients (cleanup_expired_sessions 1000 (λ _, None) code_sent_7).2
              !! uid = authenticated_clients code_sent_7 !! uid) ∧
  (∀ uid, active_sessions code_sent_7 !! uid = None →
          authenticated_clients (cleanup_expired_sessions 1000 (λ _, None) code_sent_7).2
            !! uid = authenticated_clients code_sent_7 !! uid) ∧
  ((∀ u : Z, (λ _ : Z, @None Exn) u = None) →
   ∀ uid s, active_sessions (cleanup_expired_sessions 1000 (λ _, None) code_sent_7).2 !! uid
              = Some s →
            status s = "authenticated" ∨ (1000 ≤ expires_at s)%Z).
Proof. apply cleanup_sweeps_expired_unauthenticated. Defined.

End session_manager_more.

(** ** security_manager.py: further properties *)

Section security_manager_more.
Import security_manager.

Lemma filter_all {A} (P : A → Prop) `{!∀ x, Decision (P x)} (l : list A) :
  Forall P l → filter P l = l.
Proof.
  induction 1 as [|x l Hx Hl IH]; [done|].
  by rewrite filter_cons, decide_True, IH.
Qed.

(** The successive replacements amount to one filter. *)
Lemma replacements_filter (chars : list N) (s : list N) :
  foldl (λ sanitized char, replace_with_empty char sanitized) s chars
  = filter (λ x, x ∉ chars) s.
Proof.
  revert s. induction chars as [|c chars IH]; intros s; simpl.
  - symmetry. apply filter_all, Forall_forall. intros x _. apply not_elem_of_nil.
  - rewrite IH. unfold replace_with_empty. rewrite list_filter_filter.
    apply list_filter_iff. intros x. rewrite not_elem_of_cons. tauto.
Qed.

(** X20. [sanitize_user_input] returns the first 1000 of the characters of
    the input that are not among the eleven shell metacharacters, in their
    order: the result contains none of the eleven, has at most 1000
    characters, and is the input itself when the input was already clean
    and that short. *)
Theorem sanitize_keeps_first_1000_clean (s : list N) :
  sanitize_user_input s = take 1000 (filter (λ x, x ∉ dangerous_chars) s) ∧
  (∀ c, c ∈ sanitize_user_input s → (c ∉ dangerous_chars) ∧ c ∈ s) ∧
  length (sanitize_user_input s) ≤ 1000 ∧
  sanitize_user_input s `sublist_of` s ∧
  (Forall (λ x, x ∉ dangerous_chars) s → length s ≤ 1000 → sanitize_user_input s = s).
Proof.
  assert (Heq : sanitize_user_input s = take 1000 (filter (λ x, x ∉ dangerous_chars) s)).
  { unfold sanitize_user_input. by rewrite replacements_filter. }
  rewrite Heq. split_and!.
  - done.
  - intros c Hc. apply subseteq_take in Hc. by apply list_elem_of_filter in Hc.
  - rewrite length_take. lia.
  - etrans; [apply sublist_take|]. apply sublist_filter.
  - intros Hclean Hshort. rewrite filter_all by done. by apply take_ge.
Qed.

Lemma sanitize_keeps_first_1000_clean_witness :
  sanitize_user_input [114; 109; 32; 45; 114; 102; 32; 42]%N
  = [114; 109; 32; 45; 114; 102; 32; 42]%N.
Proof.
  apply (sanitize_keeps_first_1000_clean [114; 109; 32; 45; 114; 102; 32; 42]%N).
  - by apply (bool_decide_unpack _).
  - simpl. lia.
Defined.

(** X21. Sanitizing is idempotent: sanitizing a sanitized string changes
    nothing. *)
Theorem sanitize_idempotent (s : list N) :
  sanitize_user_input (sanitize_user_input s) = sanitize_user_input s.
Proof.
  unfold sanitize_user_input. rewrite !replacements_filter.
  rewrite filter_all.
  - rewrite take_take. f_equal.
  - apply Forall_take, Forall_forall. intros x Hx.
    by apply list_elem_of_filter in Hx as [? _].
Qed.

(** X22. Nothing to clean, or no secure deletion asked. When the tenant's
    directory does not exist, [cleanup_user_data] returns [True] at once
    and changes nothing: the tenant is not even taken out of
    [user_processes]. With [secure_delete] unset no file is opened and no
    random byte is drawn: the removal is attempted on the tree as it is;
    when it raises, the call returns [False], what is left of the tree is
    unchanged, and the tenant stays in [user_processes]. *)
Theorem cleanup_without_directory_or_flag (d : Disk) (uid : Z) (io : CleanupIO) :
  io_exists io = None →
  match fs d !! uid with
  | None =>
      ∀ secure_delete, cleanup_user_data io uid secure_delete d = (Val true, d)
  | Some entries =>
      ∃ d',
        cleanup_user_data io uid false d = (Val (rmtree_returns io), d') ∧
        drawn d' = drawn d ∧
        trace d' = trace d ++
          [Rmtree uid;
           if rmtree_returns io
           then Log INFO "Cleaned up user data for {user_id}" uid ""
           else Log ERROR "Error cleaning up user data for {user_id}: {e}" uid ""] ∧
        match io_rmtree io with
        | None => fs d' = delete uid (fs d) ∧ user_processes d' = user_processes d ∖ {[uid]}
        | Some (e, kept) =>
            fs d' = <[uid := filter (λ p, Is_true (kept p.1)) entries]> (fs d) ∧
            user_processes d' = user_processes d
        end
  end.
Proof.
  intros Hexists.
  destruct (fs d !! uid) as [entries|] eqn:Hdir.
  - unfold cleanup_user_data, rmtree_returns, try_except, bind, get, ext.
    rewrite Hexists. unfold ret at 1. rewrite Hdir.
    unfold rmtree, bind, ret, emit, modify, raise, set_fs. simpl.
    destruct (io_rmtree io) as [[e kept]|]; simpl; rewrite ?Hdir;
      eexists; (split; [done|]); simpl; rewrite <- ?app_assoc; by split_and!.
  - intros secure_delete. unfold cleanup_user_data, try_except, bind, get, ext.
    rewrite Hexists. unfold ret at 1. by rewrite Hdir.
Qed.

Lemma cleanup_without_directory_or_flag_witness :
  ∃ d',
    cleanup_user_data removal_stops_at_env 7 false tenant_7_tree
    = (Val (rmtree_returns removal_stops_at_env), d') ∧
    drawn d' = drawn tenant_7_tree ∧
    trace d' = trace tenant_7_tree ++
      [Rmtree 7;
       if rmtree_returns removal_stops_at_env
       then Log INFO "Cleaned up user data for {user_id}" 7 ""
       else Log ERROR "Error cleaning up user data for {user_id}: {e}" 7 ""] ∧
    fs d' = <[7%Z := filter (λ p, Is_true (String.eqb p.1 "user_instances/user_7/.env"))
                       [("user_instances/user_7/sessions", Directory);
                        ("user_instances/user_7/sessions/telegram_session.session",
                         RegularFile [x01; x02; x03]);
                        ("user_instances/user_7/.env", RegularFile [x0a; x0b])]]>
              (fs tenant_7_tree) ∧
    user_processes d' = user_processes tenant_7_tree.
Proof.
  exact (cleanup_without_directory_or_flag tenant_7_tree 7 removal_stops_at_env eq_refl).
Defined.

(** What the loop leaves on disk when it completes. [entries] is the part
    of the listing [listing] that starts at index [i]. *)
Lemma secure_overwrite_on_disk (io : CleanupIO) (uid : Z)
    (entries : list (string * Node)) :
  ∀ (i : nat) (d : Disk) (listing : list (string * Node)),
    fs d !! uid = Some listing →
    (∀ k e, entries !! k = Some e → listing !! (i + k) = Some e) →
    (∀ path node, (path, node) ∈ entries → io_is_file io path = None) →
    ∃ d' listing',
      secure_overwrite io uid i entries d = (Val tt, d') ∧
      fs d' !! uid = Some listing' ∧
      length listing' = length listing ∧
      user_processes d' = user_processes d ∧
      entropy d' = entropy d ∧
      (∀ j, j < i → listing' !! j = listing !! j) ∧
      (∀ k path node0,
         entries !! k = Some (path, node0) →
         ∃ node,
           listing' !! (i + k) = Some (path, node) ∧
           match node0 with
           | RegularFile content =>
               io_file io path = WriteOk →
               ∃ n, node = RegularFile (entropy d <$> seq n (length content))
           | _ => node = node0
           end).
Proof.
  induction entries as [|[path node] rest IH]; intros i d listing Hdir Hseg Hfile.
  - exists d, listing. simpl. by split_and!.
  - assert (Hi : i < length listing).
    { apply (lookup_lt_Some _ _ (path, node)). rewrite <- (Nat.add_0_r i).
      by apply Hseg. }
    assert (Hhead : listing !! i = Some (path, node)).
    { rewrite <- (Nat.add_0_r i). by apply Hseg. }
    assert (Hstep : ∃ d1 listing1 node1,
              (match node with
               | RegularFile content =>
                   try_except (overwrite_file (io_file io path) uid i path content)
                     (λ e, emit (Log WARNING "Could not securely overwrite {file_path}: {e}"
                                   uid path))
               | _ => ret tt
               end) d = (Val tt, d1) ∧
              fs d1 !! uid = Some listing1 ∧
              length listing1 = length listing ∧
              user_processes d1 = user_processes d ∧
              entropy d1 = entropy d ∧
              (∀ j, j ≠ i → listing1 !! j = listing !! j) ∧
              listing1 !! i = Some (path, node1) ∧
              match node with
              | RegularFile content =>
                  io_file io path = WriteOk →
                  node1 = RegularFile (entropy d <$> seq (drawn d) (length content))
              | _ => node1 = node
              end).
    { destruct node as [content| |];
        [destruct (io_file io path) eqn:Hio|..];
        unfold overwrite_file, set_content, token_bytes, emit, set_fs, try_except, bind,
          ret, raise, modify; simpl; rewrite ?Hdir; simpl;
        rewrite ?lookup_insert_eq; simpl; rewrite ?lookup_insert_eq.
      - eexists _, _, (RegularFile (entropy d <$> seq (drawn d) (length content))).
        split; [done|]. simpl. rewrite lookup_insert_eq.
        split; [done|]. rewrite !length_insert.
        split_and!; try done.
        + intros j Hj. by rewrite !list_lookup_insert_ne.
        + rewrite list_lookup_insert_eq; [done|]. by rewrite length_insert.
      - eexists _, listing, (RegularFile content). split; [done|]. simpl. by split_and!.
      - eexists _, listing, (RegularFile content). split; [done|]. simpl. by split_and!.
      - eexists _, _, (RegularFile []). split; [done|]. simpl. rewrite lookup_insert_eq.
        split; [done|]. rewrite length_insert.
        split_and!; try done.
        + intros j Hj. by rewrite list_lookup_insert_ne.
        + by rewrite list_lookup_insert_eq.
      - exists d, listing, Directory. by split_and!.
      - exists d, listing, OtherNode. by split_and!. }
    destruct Hstep
      as (d1 & listing1 & node1 & Hrun1 & Hdir1 & Hlen1 & Hup1 & Hent1 & Hother1 & Hhere & Hnode1).
    destruct (IH (S i) d1 listing1 Hdir1) as
      (d' & listing' & Hrun & Hdir' & Hlen & Hup & Hent & Hbefore & Hfiles).
    { intros k e Hk. rewrite Hother1 by lia.
      replace (S i + k) with (i + S k) by lia. by apply Hseg. }
    { intros p n Hin. apply (Hfile p n). by right. }
    exists d', listing'. split.
    { simpl. unfold bind at 1. rewrite (Hfile path node) by left. simpl.
      unfold bind at 1. destruct node; rewrite Hrun1; exact Hrun. }
    split_and!; try congruence.
    + intros j Hj. rewrite Hbefore by lia. apply Hother1. lia.
    + intros [|k] p n0 Hk; simpl in Hk.
      * injection Hk as -> ->. exists node1.
        rewrite Nat.add_0_r, Hbefore by lia. split; [done|].
        destruct n0; [|done..]. intros Hok. exists (drawn d). by apply Hnode1.
      * destruct (Hfiles k p n0 Hk) as (n & Hn & Hprop). exists n.
        replace (i + S k) with (S i + k) by lia. split; [done|].
        destruct n0; [|done..]. by rewrite <- Hent1.
Qed.

(** X23. A removal that fails comes after the overwriting. When the walk
    completes and [shutil.rmtree] then raises, [cleanup_user_data] with
    [secure_delete] set returns [False] and the directory and the
    monitoring entry are still there; whatever part of the tree the removal
    left, every entry in it was in the tree before, and a regular file
    among them whose overwrite went through holds random bytes of its
    former length: those data are gone although the call failed. *)
Theorem failed_removal_after_overwrite (d : Disk) (uid : Z)
    (entries : list (string * Node)) (io : CleanupIO) (e : Exn) (kept : string → bool) :
  fs d !! uid = Some entries →
  io_exists io = None →
  walk_completes io entries →
  io_rmtree io = Some (e, kept) →
  ∃ d' left,
    cleanup_user_data io uid true d = (Val false, d') ∧
    fs d' !! uid = Some left ∧
    user_processes d' = user_processes d ∧
    ∀ path node,
      (path, node) ∈ left →
      kept path = true ∧
      ∃ k node0,
        entries !! k = Some (path, node0) ∧
        match node0 with
        | RegularFile content =>
            io_file io path = WriteOk →
            ∃ n, node = RegularFile (entropy d <$> seq n (length content))
        | _ => node = node0
        end.
Proof.
  intros Hdir Hexists [Hwalk Hfile] Hrm.
  destruct (secure_overwrite_on_disk io uid entries 0 d entries Hdir)
    as (d1 & left1 & Hrun & Hdir1 & Hlen & Hup & _ & _ & Hfiles); [done..|].
  unfold cleanup_user_data, walk_and_overwrite, try_except, bind, get, ext.
  rewrite Hexists, Hwalk. unfold ret at 1. rewrite Hdir.
  unfold bind. rewrite Hrun.
  unfold rmtree, bind, emit, modify, raise, ret, set_fs. rewrite Hrm. simpl.
  rewrite Hdir1.
  eexists _, _. split; [done|]. simpl. rewrite lookup_insert_eq.
  split_and!; [done..|].
  intros path node [Hkept Hin]%list_elem_of_filter.
  split; [by apply Is_true_eq_true|].
  apply list_elem_of_lookup_1 in Hin as [k Hk].
  assert (Hlt : k < length entries).
  { rewrite <- Hlen. by apply (lookup_lt_Some _ _ (path, node)). }
  destruct (lookup_lt_is_Some_2 entries k Hlt) as [[p0 n0] Hk0].
  destruct (Hfiles k p0 n0 Hk0) as (n1 & Hk1 & Hprop).
  simpl in Hk1. rewrite Hk in Hk1. injection Hk1 as -> ->.
  by exists k, n0.
Qed.

Lemma failed_removal_after_overwrite_witness :
  ∃ d' left,
    cleanup_user_data removal_stops_at_env 7 true tenant_7_tree = (Val false, d') ∧
    fs d' !! 7%Z = Some left ∧
    user_processes d' = user_processes tenant_7_tree ∧
    ∀ path node,
      (path, node) ∈ left →
      String.eqb path "user_instances/user_7/.env" = true ∧
      ∃ k node0,
        [("user_instances/user_7/sessions", Directory);
         ("user_instances/user_7/sessions/telegram_session.session",
          RegularFile [x01; x02; x03]);
         ("user_instances/user_7/.env", RegularFile [x0a; x0b])] !! k
        = Some (path, node0) ∧
        match node0 with
        | RegularFile content =>
            io_file removal_stops_at_env path = WriteOk →
            ∃ n, node = RegularFile (entropy tenant_7_tree <$> seq n (length content))
        | _ => node = node0
        end.
Proof.
  apply (failed_removal_after_overwrite tenant_7_tree 7
           [("user_instances/user_7/sessions", Directory);
            ("user_instances/user_7/sessions/telegram_session.session",
             RegularFile [x01; x02; x03]);
            ("user_instances/user_7/.env", RegularFile [x0a; x0b])]
           removal_stops_at_env (mkExn OtherException "Permission denied")
           (λ path, String.eqb path "user_instances/user_7/.env")).
  - reflexivity.
  - reflexivity.
  - split; [reflexivity|]. intros path node _. reflexivity.
  - reflexivity.
Defined.

(** That run, computed: the call fails, and the configuration file that
    the removal left holds two random bytes. *)
Example failed_removal_run :
  (cleanup_user_data removal_stops_at_env 7 true tenant_7_tree).1 = Val false ∧
  fs (cleanup_user_data removal_stops_at_env 7 true tenant_7_tree).2 !! 7%Z
  = Some [("user_instances/user_7/.env", RegularFile [x55; xaa])].
Proof. by vm_compute. Qed.

Example sanitize_example :
  (* "echo $(id) > x; `ls`" *)
  sanitize_user_input
    [101; 99; 104; 111; 32; 36; 40; 105; 100; 41; 32; 62; 32; 120; 59; 32;
     96; 108; 115; 96]%N
  = [101; 99; 104; 111; 32; 105; 100; 32; 32; 120; 32; 108; 115]%N.
Proof. reflexivity. Qed.

End security_manager_more.

(** ** Exceptions never escape the managers *)

Section managers_never_raise.

Lemma try_except_returns {St A} (body : M St A) (handler : Exn → M St A) (s : St) :
  (∀ e s1, ∃ a s2, handler e s1 = (Val a, s2)) →
  ∃ a s', try_except body handler s = (Val a, s').
Proof.
  intros Hh. unfold try_except. destruct (body s) as [[a|e] s1]; [by eexists _, _|apply Hh].
Qed.

Lemma create_user_instance_returns io t1 t2 uid phone key (w : host_manager.Host) :
  ∃ r w', host_manager.create_user_instance io t1 t2 uid phone key w = (Val r, w').
Proof. apply try_except_returns. intros e s1. by eexists _, _. Qed.

Lemma start_user_bot_returns io now uid (w : host_manager.Host) :
  ∃ r w', host_manager.start_user_bot io now uid w = (Val r, w').
Proof. apply try_except_returns. intros e s1. by eexists _, _. Qed.

Lemma stop_user_bot_returns kill_outcome uid (w : host_manager.Host) :
  ∃ r w', host_manager.stop_user_bot kill_outcome uid w = (Val r, w').
Proof. apply try_except_returns. intros e s1. by eexists _, _. Qed.

Lemma remove_user_instance_returns kill_outcome rmtree_outcome uid (w : host_manager.Host) :
  ∃ r w', host_manager.remove_user_instance kill_outcome rmtree_outcome uid w = (Val r, w').
Proof. apply try_except_returns. intros e s1. by eexists _, _. Qed.

Lemma start_authentication_returns io uid phone api_id api_hash (m : session_manager.Manager) :
  ∃ r m', session_manager.start_authentication io uid phone api_id api_hash m = (Val r, m').
Proof. apply try_except_returns. intros [[] msg] s1; by eexists _, _. Qed.

Lemma verify_code_returns now sign_in uid code (m : session_manager.Manager) :
  ∃ r m', session_manager.verify_code now sign_in uid code m = (Val r, m').
Proof. apply try_except_returns. intros e s1. by eexists _, _. Qed.

Lemma verify_password_returns sign_in uid password (m : session_manager.Manager) :
  ∃ r m', session_manager.verify_password sign_in uid password m = (Val r, m').
Proof. apply try_except_returns. intros e s1. by eexists _, _. Qed.

Lemma disconnect_user_returns disconnect uid (m : session_manager.Manager) :
  ∃ r m', session_manager.disconnect_user disconnect uid m = (Val r, m').
Proof. apply try_except_returns. intros e s1. by eexists _, _. Qed.

Lemma disconnect_all_returns disconnect users (m : session_manager.Manager) :
  ∃ m', session_manager.disconnect_all disconnect users m = (Val tt, m').
Proof.
  revert m. induction users as [|u users IH]; intros m; [by eexists|].
  simpl. unfold bind.
  destruct (disconnect_user_returns (disconnect u) u m) as (r & m1 & ->).
  unfold session_manager.log, session_manager.emit, modify. apply IH.
Qed.

(** X25. No exception escapes a manager: whatever the file system, the
    processes and the provider answer, every operation of the host manager
    and of the session manager returns a value; a failure of the
    environment ends as a [False] or as an error result, never as an
    exception in the caller. *)
Theorem managers_never_raise :
  (∀ io t1 t2 uid phone key w,
     ∃ r w', host_manager.create_user_instance io t1 t2 uid phone key w = (Val r, w')) ∧
  (∀ io now uid w, ∃ r w', host_manager.start_user_bot io now uid w = (Val r, w')) ∧
  (∀ kill_outcome uid w, ∃ r w', host_manager.stop_user_bot kill_outcome uid w = (Val r, w')) ∧
  (∀ kill_outcome rmtree_outcome uid w,
     ∃ r w', host_manager.remove_user_instance kill_outcome rmtree_outcome uid w
             = (Val r, w')) ∧
  (∀ io uid phone api_id api_hash m,
     ∃ r m', session_manager.start_authentication io uid phone api_id api_hash m
             = (Val r, m')) ∧
  (∀ now sign_in uid code m,
     ∃ r m', session_manager.verify_code now sign_in uid code m = (Val r, m')) ∧
  (∀ sign_in uid password m,
     ∃ r m', session_manager.verify_password sign_in uid password m = (Val r, m')) ∧
  (∀ disconnect uid m,
     ∃ r m', session_manager.disconnect_user disconnect uid m = (Val r, m')) ∧
  (∀ now disconnect m,
     ∃ m', session_manager.cleanup_expired_sessions now disconnect m = (Val tt, m')).
Proof.
  split_and!.
  - apply create_user_instance_returns.
  - apply start_user_bot_returns.
  - apply stop_user_bot_returns.
  - apply remove_user_instance_returns.
  - apply start_authentication_returns.
  - apply verify_code_returns.
  - apply verify_password_returns.
  - apply disconnect_user_returns.
  - intros now disconnect m. apply disconnect_all_returns.
Qed.

End managers_never_raise.

(** ** The authentication proxy *)

Section auth_proxy_properties.
Import auth_proxy.

Local Ltac outcome o := destruct o as [[[] ?]|]; simpl.
Local Ltac outcome_val o := destruct o as [[[] ?]|?]; simpl.

(** What the three operations of the session manager can have done to the
    sessions, by the result they return. *)
Lemma start_authentication_sessions io uid ph id h (m : session_manager.Manager) :
  ∃ res m',
    session_manager.start_authentication io uid ph id h m = (Val res, m') ∧
    ((session_manager.res_success res = false ∧
      session_manager.active_sessions m' = session_manager.active_sessions m) ∨
     (session_manager.res_success res = true ∧
      session_manager.res_status res = "already_authenticated" ∧
      session_manager.active_sessions m' = session_manager.active_sessions m) ∨
     (session_manager.res_success res = true ∧
      session_manager.res_status res = "code_sent" ∧
      ∃ a, session_manager.status a = "code_sent" ∧
           session_manager.active_sessions m'
           = <[uid := a]> (session_manager.active_sessions m))).
Proof.
  unfold session_manager.start_authentication, session_manager.ext_val,
    session_manager.log, session_manager.emit, try_except, bind, ret, raise, get, modify, ext.
  simpl. destruct io as [mk cn au sc t1 t2]; simpl.
  outcome mk; try (eexists _, _; split; [done|]; left; by split_and!).
  outcome cn; try (eexists _, _; split; [done|]; left; by split_and!).
  destruct au as [[[] ?]|[|]]; simpl;
    try (eexists _, _; split; [done|]; left; by split_and!).
  { eexists _, _. split; [done|]. right. left. by split_and!. }
  outcome_val sc; try (eexists _, _; split; [done|]; left; by split_and!).
  eexists _, _. split; [done|]. right. right. split_and!; [done..|].
  eexists. split; [|reflexivity]. done.
Qed.

Lemma verify_code_sessions now sign_in uid code (m : session_manager.Manager) :
  ∃ res m',
    session_manager.verify_code now sign_in uid code m = (Val res, m') ∧
    ((session_manager.res_success res = true ∧
      session_manager.res_status res = "authenticated" ∧
      ∃ a, session_manager.active_sessions m !! uid = Some a ∧
           session_manager.active_sessions m'
           = <[uid := session_manager.set_status "authenticated" a]>
               (session_manager.active_sessions m)) ∨
     (session_manager.res_success res = false ∧
      session_manager.res_status res = "password_required" ∧
      ∃ a, session_manager.active_sessions m !! uid = Some a ∧
           session_manager.active_sessions m'
           = <[uid := session_manager.set_status "password_required" a]>
               (session_manager.active_sessions m)) ∨
     (session_manager.res_success res = false ∧
      session_manager.res_status res = "error" ∧
      (session_manager.active_sessions m' = session_manager.active_sessions m ∨
       session_manager.active_sessions m' = delete uid (session_manager.active_sessions m)))).
Proof.
  unfold session_manager.verify_code, session_manager.log, session_manager.emit,
    try_except, bind, ret, raise, get, modify, ext. simpl.
  destruct (session_manager.active_sessions m !! uid) as [a|] eqn:Ha; simpl.
  2: { eexists _, _. split; [done|]. right. right. split_and!; [done..|]. by left. }
  destruct (session_manager.expires_at a <? now)%Z; simpl.
  { eexists _, _. split; [done|]. right. right. split_and!; [done..|]. by right. }
  destruct (session_manager.authenticated_clients m !! uid) as [c|]; simpl.
  2: { eexists _, _. split; [done|]. right. right. split_and!; [done..|]. by left. }
  outcome sign_in;
    try (eexists _, _; split; [done|]; right; right; split_and!; [done..|]; by left).
  - eexists _, _. split; [done|]. right. left. split_and!; [done..|]. by exists a.
  - eexists _, _. split; [done|]. left. split_and!; [done..|]. by exists a.
Qed.

Lemma verify_password_sessions sign_in uid pw (m : session_manager.Manager) :
  ∃ res m',
    session_manager.verify_password sign_in uid pw m = (Val res, m') ∧
    ((session_manager.res_success res = true ∧
      ∃ a, session_manager.active_sessions m !! uid = Some a ∧
           session_manager.active_sessions m'
           = <[uid := session_manager.set_status "authenticated" a]>
               (session_manager.active_sessions m)) ∨
     (session_manager.res_success res = false ∧
      session_manager.active_sessions m' = session_manager.active_sessions m)).
Proof.
  unfold session_manager.verify_password, session_manager.log, session_manager.emit,
    try_except, bind, ret, raise, get, modify, ext. simpl.
  destruct (session_manager.active_sessions m !! uid) as [a|] eqn:Ha; simpl.
  2: { eexists _, _. split; [done|]. by right. }
  destruct (String.eqb (session_manager.status a) "password_required"); simpl.
  2: { eexists _, _. split; [done|]. by right. }
  destruct (session_manager.authenticated_clients m !! uid) as [c|]; simpl.
  2: { eexists _, _. split; [done|]. by right. }
  outcome sign_in; try (eexists _, _; split; [done|]; by right).
  eexists _, _. split; [done|]. left. split; [done|]. by exists a.
Qed.

Local Ltac px :=
  unfold reply_text, log, emit, on_sessions, on_host, set_pending_auth, clear_pending_auth,
    try_except, bind, ret, raise, get, modify, ext.

Local Ltac red_sys := px; cbn [host sessions pending_auth trace].

(** Replies and log lines touch nothing but the proxy's trace. *)
Lemma reply_text_effect chat r (s : System) :
  ∃ o, reply_text chat r s
       = (o, mkSystem (sessions s) (host s) (pending_auth s) (trace s ++ [ReplyText r])).
Proof. px. destruct (chat (length (trace s))); by eexists. Qed.

(** [_complete_authentication] drops the pending entry and drives the host
    manager through a creation and, if it succeeded, a start. *)
Lemma complete_authentication_summary cio chat u (s : System) :
  ∃ o s',
    _complete_authentication cio chat u s = (o, s') ∧
    sessions s' = sessions s ∧
    pending_auth s' = delete u (pending_auth s) ∧
    ∃ hops, host s' = host_manager.run_host_ops hops (host s).
Proof.
  set (phone := match pending_auth s !! u with
                | Some pending => pending_phone pending
                | None =>
                    match session_manager.get_session_status (io_status_now cio) u (sessions s)
                    with
                    | Some st => session_manager.reported_phone st
                    | None => "unknown"
                    end
                end).
  destruct (create_user_instance_returns (io_config cio) (io_now_alloc cio)
              (io_now_created cio) u phone "SERVICE_PROVIDED" (host s)) as (r1 & w1 & H1).
  destruct (start_user_bot_returns (io_start cio) (io_now_started cio) u w1)
    as (r2 & w2 & H2).
  assert (Hdel : pending_auth s !! u = None → pending_auth s = delete u (pending_auth s)).
  { intros Hnone. by rewrite delete_id. }
  unfold _complete_authentication. px.
  destruct (pending_auth s !! u) as [p|] eqn:Hp; red_sys;
    subst phone; rewrite H1; red_sys;
    (destruct r1; red_sys; [rewrite H2; red_sys; destruct r2; red_sys|]);
    repeat match goal with
           | |- context [chat ?n] => destruct (chat n); red_sys
           end;
    eexists _, _; (split; [reflexivity|]); red_sys;
    (split; [done|]); (split; [by auto|]).
  all: first
    [ eexists [host_manager.CreateUserInstance (io_config cio) (io_now_alloc cio)
                (io_now_created cio) u _ "SERVICE_PROVIDED";
              host_manager.StartUserBot (io_start cio) (io_now_started cio) u];
      unfold host_manager.run_host_ops, host_manager.run_host_op; cbn [foldl];
      rewrite H1; cbn [snd]; by rewrite H2
    | eexists [host_manager.CreateUserInstance (io_config cio) (io_now_alloc cio)
                (io_now_created cio) u _ "SERVICE_PROVIDED"];
      unfold host_manager.run_host_ops, host_manager.run_host_op; cbn [foldl];
      by rewrite H1 ].
Qed.

Lemma try_except_core {A} (body : M System A) (handler : Exn → M System A) (s : System) :
  (∀ e s1, same_core s1 (handler e s1).2) →
  same_core (body s).2 (try_except body handler s).2.
Proof.
  intros Hh. unfold try_except. destruct (body s) as [[a|e] s1]; [done|apply Hh].
Qed.

Lemma reply_text_core chat r (s : System) : same_core s (reply_text chat r s).2.
Proof. by destruct (reply_text_effect chat r s) as [o ->]. Qed.

Lemma log_reply_core {A} chat lvl text args r (x : A) (s : System) :
  same_core s ((log lvl text args ;;; reply_text chat r ;;; ret x)%py s).2.
Proof. px. by destruct (chat _). Qed.

Lemma summary_core (s s1 s' : System) :
  same_core s1 s' → summary s s1 → summary s s'.
Proof.
  intros (Hs & Hh & Hp) (Ha & Hb & Hc). unfold summary. rewrite Hs, Hh. split_and!; [done..|].
  destruct Hc as [H1 H2|u H1 H2|u p a H1 H2 H3|u p H1 H2 H3 H4].
  - apply change_none; by rewrite ?Hs, ?Hp.
  - apply (change_cleared _ _ u); by rewrite ?Hs, ?Hp.
  - apply (change_step _ _ u p a); by rewrite ?Hs, ?Hp.
  - apply (change_expired _ _ u p); by rewrite ?Hs, ?Hp.
Qed.

Lemma same_core_trans (s s1 s' : System) :
  same_core s1 s' → same_core s s1 → same_core s s'.
Proof. intros (? & ? & ?) (? & ? & ?). unfold same_core. split_and!; congruence. Qed.

Lemma summary_untouched (s s' : System) : same_core s s' → summary s s'.
Proof.
  intros (Hs & Hh & Hp). split_and!.
  - by exists [].
  - by exists [].
  - apply change_none; by rewrite ?Hs, ?Hp.
Qed.

Lemma start_phone_auth_summary io cio chat u ph id h (s : System) :
  summary s (start_phone_auth io cio chat u ph id h s).2.
Proof.
  unfold start_phone_auth.
  eapply summary_core.
  { apply try_except_core. intros e s1. apply log_reply_core. }
  destruct (start_authentication_sessions io u ph id h (sessions s))
    as (res & m' & Hstart & Hcases).
  assert (Hops : m' = session_manager.run_ops
                        [session_manager.StartAuthentication io u ph id h] (sessions s)).
  { unfold session_manager.run_ops, session_manager.run_op. cbn [foldl]. by rewrite Hstart. }
  unfold bind at 1. unfold on_sessions. rewrite Hstart.
  destruct res as [success status message phone]. cbn in Hcases.
  destruct Hcases as [[-> Hsess]|[(-> & -> & Hsess)|(-> & -> & a & Ha & Hsess)]];
    cbn [session_manager.res_success session_manager.res_status session_manager.res_message].
  - (* the authentication did not start *)
    px. destruct (chat _); cbn [snd]; (split_and!; [by eexists|by exists []|]);
      by apply change_none.
  - (* already authenticated *)
    cbn [String.eqb Ascii.eqb Bool.eqb andb].
    set (s1 := mkSystem m' (host s) (pending_auth s) (trace s)).
    destruct (complete_authentication_summary cio chat u s1)
      as (o & s2 & Hcomplete & Hs2 & Hp2 & hops & Hh2).
    unfold bind. rewrite Hcomplete.
    assert (Hsum : summary s s2).
    { split_and!; [exists [session_manager.StartAuthentication io u ph id h];
                   by rewrite Hs2|by exists hops|].
      apply (change_cleared _ _ u); [done|]. left. by rewrite Hs2. }
    by destruct o as [[]|e].
  - (* a code was sent *)
    cbn [String.eqb Ascii.eqb Bool.eqb andb].
    px. destruct (chat _); cbn [snd]; (split_and!; [by eexists|by exists []|]);
      by apply (change_step _ _ u (mkPending ph id h "code") a); [..|left].
Qed.

Lemma handle_verification_code_summary now sign_in cio chat u code (s : System) :
  summary s (handle_verification_code now sign_in cio chat u code s).2.
Proof.
  unfold handle_verification_code.
  eapply summary_core.
  { apply try_except_core. intros e s1. apply log_reply_core. }
  unfold bind at 1. unfold get at 1.
  destruct (pending_auth s !! u) as [p|] eqn:Hp.
  2: { apply summary_untouched. px. by destruct (chat _). }
  destruct (String.eqb (step p) "code") eqn:Hstep; cbn [negb].
  2: { apply summary_untouched. px. by destruct (chat _). }
  apply String.eqb_eq in Hstep.
  destruct (verify_code_sessions now sign_in u code (sessions s))
    as (res & m' & Hverify & Hcases).
  assert (Hops : m' = session_manager.run_ops
                        [session_manager.VerifyCode now sign_in u code] (sessions s)).
  { unfold session_manager.run_ops, session_manager.run_op. cbn [foldl]. by rewrite Hverify. }
  unfold bind at 1. unfold on_sessions. rewrite Hverify.
  destruct res as [success status message phone]. cbn in Hcases.
  destruct Hcases as [(-> & -> & a & Ha & Hsess)|[(-> & -> & a & Ha & Hsess)
                     |(-> & -> & Hsess)]];
    cbn [session_manager.res_success session_manager.res_status session_manager.res_message
         String.eqb Ascii.eqb Bool.eqb andb].
  - (* the code was accepted *)
    set (s1 := mkSystem m' (host s) (pending_auth s) (trace s)).
    destruct (complete_authentication_summary cio chat u s1)
      as (o & s2 & Hcomplete & Hs2 & Hp2 & hops & Hh2).
    unfold bind. rewrite Hcomplete.
    assert (Hsum : summary s s2).
    { split_and!; [exists [session_manager.VerifyCode now sign_in u code];
                   by rewrite Hs2|by exists hops|].
      apply (change_cleared _ _ u); [done|]. right. rewrite Hs2. by eexists. }
    by destruct o as [[]|e].
  - (* the second factor is asked for *)
    px. destruct (chat _); cbn [snd]; (split_and!; [by eexists|by exists []|]);
      by eapply (change_step _ _ u _ _); [..|right].
  - (* the code was refused *)
    px. destruct (chat _); cbn [snd]; (split_and!; [by eexists|by exists []|]);
      (destruct Hsess as [Hsess|Hsess];
       [by apply change_none|by apply (change_expired _ _ u p)]).
Qed.

Lemma handle_2fa_password_summary sign_in cio chat u pw (s : System) :
  summary s (handle_2fa_password sign_in cio chat u pw s).2.
Proof.
  unfold handle_2fa_password.
  eapply summary_core.
  { apply try_except_core. intros e s1. apply log_reply_core. }
  unfold bind at 1. unfold get at 1.
  destruct (pending_auth s !! u) as [p|] eqn:Hp.
  2: { apply summary_untouched. px. by destruct (chat _). }
  destruct (String.eqb (step p) "password") eqn:Hstep; cbn [negb].
  2: { apply summary_untouched. px. by destruct (chat _). }
  destruct (verify_password_sessions sign_in u pw (sessions s))
    as (res & m' & Hverify & Hcases).
  assert (Hops : m' = session_manager.run_ops
                        [session_manager.VerifyPassword sign_in u pw] (sessions s)).
  { unfold session_manager.run_ops, session_manager.run_op. cbn [foldl]. by rewrite Hverify. }
  unfold bind at 1. unfold on_sessions. rewrite Hverify.
  destruct res as [success status message phone]. cbn in Hcases.
  destruct Hcases as [(-> & a & Ha & Hsess)|(-> & Hsess)];
    cbn [session_manager.res_success session_manager.res_status session_manager.res_message].
  - set (s1 := mkSystem m' (host s) (pending_auth s) (trace s)).
    destruct (complete_authentication_summary cio chat u s1)
      as (o & s2 & Hcomplete & Hs2 & Hp2 & hops & Hh2).
    unfold bind. rewrite Hcomplete.
    assert (Hsum : summary s s2).
    { split_and!; [exists [session_manager.VerifyPassword sign_in u pw];
                   by rewrite Hs2|by exists hops|].
      apply (change_cleared _ _ u); [done|]. right. rewrite Hs2. by eexists. }
    by destruct o as [[]|e].
  - px. destruct (chat _); cbn [snd]; (split_and!; [by eexists|by exists []|]);
      by apply change_none.
Qed.

Lemma handle_bot_action_summary io chat action u (s : System) :
  summary s (handle_bot_action io chat action u s).2.
Proof.
  unfold handle_bot_action.
  eapply summary_core.
  { apply try_except_core. intros e s1. px. by destruct (chat _). }
  destruct (stop_user_bot_returns (io_kill io) u (host s)) as (r1 & w1 & H1).
  destruct (start_user_bot_returns (io_restart io) (io_now_restarted io) u w1)
    as (r2 & w2 & H2).
  destruct (remove_user_instance_returns (io_kill io) (io_rmtree io) u (host s))
    as (r3 & w3 & H3).
  destruct (String.eqb action "restart");
    [|destruct (String.eqb action "stop"); [|destruct (String.eqb action "delete")]].
  - red_sys. rewrite H1. red_sys. rewrite H2. red_sys.
    destruct (chat _); cbn [snd]; (split_and!; [by exists []| |by apply change_none]);
      exists [host_manager.StopUserBot (io_kill io) u;
              host_manager.StartUserBot (io_restart io) (io_now_restarted io) u];
      unfold host_manager.run_host_ops, host_manager.run_host_op; cbn [foldl];
      rewrite H1; cbn [snd]; by rewrite H2.
  - red_sys. rewrite H1. red_sys.
    destruct (chat _); cbn [snd]; (split_and!; [by exists []| |by apply change_none]);
      exists [host_manager.StopUserBot (io_kill io) u];
      unfold host_manager.run_host_ops, host_manager.run_host_op; cbn [foldl];
      by rewrite H1.
  - red_sys. rewrite H3. red_sys.
    destruct (chat _); cbn [snd]; (split_and!; [by exists []| |by apply change_none]);
      exists [host_manager.RemoveUserInstance (io_kill io) (io_rmtree io) u];
      unfold host_manager.run_host_ops, host_manager.run_host_op; cbn [foldl];
      by rewrite H3.
  - apply summary_untouched. px. by destruct (chat _).
Qed.

Lemma run_proxy_op_summary chat (op : ProxyOp) (s : System) :
  summary s (run_proxy_op chat op s).
Proof.
  destruct op as [io cio u ph id h|now r cio u code|r cio u pw|io action u|u];
    cbn [run_proxy_op].
  - apply start_phone_auth_summary.
  - apply handle_verification_code_summary.
  - apply handle_2fa_password_summary.
  - apply handle_bot_action_summary.
  - split_and!; [by exists []|by exists []|]. apply (change_cleared _ _ u); [done|by left].
Qed.

Lemma change_steps_agree (s s' : System) :
  Change s s' → steps_agree s → steps_agree s'.
Proof.
  unfold steps_agree.
  intros [Hp Hs|u Hp Hs|u p a Hp Hs Hpa|u p Hold Hstep Hp Hs] Hinv u0 p0; rewrite Hp.
  - rewrite Hs. apply Hinv.
  - destruct (decide (u = u0)) as [<-|Hne]; [by rewrite lookup_delete_eq|].
    rewrite lookup_delete_ne by done.
    destruct Hs as [->|[a ->]]; [apply Hinv|].
    rewrite lookup_insert_ne by done. apply Hinv.
  - rewrite Hs. destruct (decide (u = u0)) as [<-|Hne].
    + rewrite !lookup_insert_eq. intros [= <-].
      destruct Hpa as [[? ?]|[? ?]]; [left|right]; (split; [done|]).
      * by intros ? [= <-].
      * by exists a.
    + rewrite !lookup_insert_ne by done. apply Hinv.
  - rewrite Hs. destruct (decide (u = u0)) as [<-|Hne].
    + rewrite lookup_delete_eq. intros Hp0. left. by assert (p0 = p) as -> by congruence.
    + rewrite lookup_delete_ne by done. apply Hinv.
Qed.

Lemma run_ops_sessions_ok (aops : list session_manager.AuthOp)
    (m : session_manager.Manager) :
  session_manager.sessions_ok m → session_manager.sessions_ok (session_manager.run_ops aops m).
Proof.
  revert m. induction aops as [|op aops IH]; intros m Hm; [done|].
  apply IH. by apply run_op_sessions_ok.
Qed.

Lemma run_proxy_ops_steps_agree chat (ops : list ProxyOp) (s : System) :
  steps_agree s → steps_agree (run_proxy_ops chat ops s).
Proof.
  revert s. induction ops as [|op ops IH]; intros s Hs; [done|].
  apply IH. eapply change_steps_agree; [|done].
  by destruct (run_proxy_op_summary chat op s) as (_ & _ & ?).
Qed.

(** X26. The proxy and the session manager never disagree on the step a
    tenant is at: along any sequence of calls on the proxy, whatever the
    provider, the host and the chat answer, a tenant whose pending step is
    "password" has a session in status "password_required", and a tenant
    whose pending step is "code" has a session in status "code_sent" or
    none (it is deleted when the code arrives after the deadline, and the
    pending entry stays). *)
Theorem proxy_steps_agree (chat : ChatIO) (ops : list ProxyOp) (s : System) :
  steps_agree s → steps_agree (run_proxy_ops chat ops s).
Proof.
  revert s. induction ops as [|op ops IH]; intros s Hs; [done|].
  cbn [run_proxy_ops foldl]. apply IH.
  destruct (run_proxy_op_summary chat op s) as (_ & _ & Hchange).
  by apply (change_steps_agree s).
Qed.

Lemma proxy_steps_agree_witness :
  steps_agree
    (run_proxy_ops quiet_chat
       [Handle2FAPassword (Some (mkExn OtherException "wrong password")) all_goes_well
          7 "secret";
        StartPhoneAuth (session_manager.mkStartIO None None (inr false) (inr "hash") 300 300)
          all_goes_well 7 "+1000" 12345 "apihash"]
       awaiting_password_7).
Proof.
  apply proxy_steps_agree.
  intros u p Hp. vm_compute in Hp.
  destruct (decide (u = 7%Z)) as [->|Hne].
  - vm_compute in Hp. injection Hp as <-. right. split; [done|]. eexists. by vm_compute.
  - exfalso. revert Hp. change (pending_auth awaiting_password_7 !! u = Some p → False).
    replace (pending_auth awaiting_password_7)
      with (<[7%Z := mkPending "+1000" 12345 "apihash" "password"]> (∅ : gmap Z Pending))
      by (by vm_compute).
    rewrite lookup_insert_ne by done. by rewrite lookup_empty.
Defined.

Lemma get_pending_auth_step_Some (u : Z) (s : System) (st : string) :
  get_pending_auth_step u s = Some st ↔ ∃ p, pending_auth s !! u = Some p ∧ step p = st.
Proof.
  unfold get_pending_auth_step. destruct (pending_auth s !! u) as [p|]; simpl; split.
  - intros [= <-]. by exists p.
  - by intros (p' & [= <-] & <-).
  - done.
  - by intros (p' & ? & _).
Qed.

(** What each handler does to the session manager: nothing, or the one
    call it makes once its guard on the pending step has let it through. *)
Lemma start_phone_auth_sessions io cio chat u ph id h (s : System) :
  sessions (start_phone_auth io cio chat u ph id h s).2
  = (session_manager.start_authentication io u ph id h (sessions s)).2.
Proof.
  unfold start_phone_auth.
  match goal with
  | |- context [try_except ?body ?handler s] =>
      destruct (try_except_core body handler s
                  (λ e s1, log_reply_core chat _ _ _ _ _ s1)) as (-> & _ & _)
  end.
  unfold bind at 1. unfold on_sessions.
  destruct (session_manager.start_authentication io u ph id h (sessions s))
    as [[res|e] m'] eqn:Hstart; [|done].
  cbn [snd]. destruct (session_manager.res_success res).
  2: { px. by destruct (chat _). }
  destruct (String.eqb (session_manager.res_status res) "already_authenticated").
  { unfold bind.
    match goal with
    | |- context [_complete_authentication cio chat u ?s1] =>
        destruct (complete_authentication_summary cio chat u s1)
          as (o & s2 & -> & Hs2 & _)
    end.
    by destruct o as [[]|e]. }
  destruct (String.eqb (session_manager.res_status res) "code_sent"); [|done].
  px. by destruct (chat _).
Qed.

Lemma handle_verification_code_sessions now sign_in cio chat u code (s : System) :
  sessions (handle_verification_code now sign_in cio chat u code s).2 = sessions s ∨
  (get_pending_auth_step u s = Some "code" ∧
   sessions (handle_verification_code now sign_in cio chat u code s).2
   = (session_manager.verify_code now sign_in u code (sessions s)).2).
Proof.
  unfold handle_verification_code.
  match goal with
  | |- context [try_except ?body ?handler s] =>
      destruct (try_except_core body handler s
                  (λ e s1, log_reply_core chat _ _ _ _ _ s1)) as (-> & _ & _)
  end.
  destruct (pending_auth s !! u) as [p|] eqn:Hp.
  2: { left. unfold bind at 1. unfold get at 1. rewrite Hp. px. by destruct (chat _). }
  destruct (String.eqb (step p) "code") eqn:Hstep.
  2: { left. unfold bind at 1. unfold get at 1. rewrite Hp, Hstep. cbn [negb].
       px. by destruct (chat _). }
  right. split.
  { apply get_pending_auth_step_Some. exists p. split; [done|]. by apply String.eqb_eq. }
  unfold bind at 1. unfold get at 1. rewrite Hp, Hstep. cbn [negb].
  unfold bind at 1. unfold on_sessions.
  destruct (session_manager.verify_code now sign_in u code (sessions s))
    as [[res|e] m'] eqn:Hverify; [|done].
  cbn [snd]. destruct (session_manager.res_success res).
  - destruct (String.eqb (session_manager.res_status res) "authenticated"); [|done].
    unfold bind.
    match goal with
    | |- context [_complete_authentication cio chat u ?s1] =>
        destruct (complete_authentication_summary cio chat u s1)
          as (o & s2 & -> & Hs2 & _)
    end.
    by destruct o as [[]|e].
  - destruct (String.eqb (session_manager.res_status res) "password_required");
      px; by destruct (chat _).
Qed.

Lemma handle_2fa_password_sessions sign_in cio chat u pw (s : System) :
  sessions (handle_2fa_password sign_in cio chat u pw s).2 = sessions s ∨
  sessions (handle_2fa_password sign_in cio chat u pw s).2
  = (session_manager.verify_password sign_in u pw (sessions s)).2.
Proof.
  unfold handle_2fa_password.
  match goal with
  | |- context [try_except ?body ?handler s] =>
      destruct (try_except_core body handler s
                  (λ e s1, log_reply_core chat _ _ _ _ _ s1)) as (-> & _ & _)
  end.
  destruct (pending_auth s !! u) as [p|] eqn:Hp.
  2: { left. unfold bind at 1. unfold get at 1. rewrite Hp. px. by destruct (chat _). }
  destruct (String.eqb (step p) "password") eqn:Hstep.
  2: { left. unfold bind at 1. unfold get at 1. rewrite Hp, Hstep. cbn [negb].
       px. by destruct (chat _). }
  right. unfold bind at 1. unfold get at 1. rewrite Hp, Hstep. cbn [negb].
  unfold bind at 1. unfold on_sessions.
  destruct (session_manager.verify_password sign_in u pw (sessions s))
    as [[res|e] m'] eqn:Hverify; [|done].
  cbn [snd]. destruct (session_manager.res_success res).
  - unfold bind.
    match goal with
    | |- context [_complete_authentication cio chat u ?s1] =>
        destruct (complete_authentication_summary cio chat u s1)
          as (o & s2 & -> & Hs2 & _)
    end.
    by destruct o as [[]|e].
  - px. by destruct (chat _).
Qed.

Lemma handle_bot_action_sessions io chat action u (s : System) :
  sessions (handle_bot_action io chat action u s).2 = sessions s.
Proof.
  destruct (handle_bot_action_summary io chat action u s) as (_ & _ & Hchange).
  unfold handle_bot_action in *.
  match goal with
  | |- context [try_except ?body ?handler s] =>
      destruct (try_except_core body handler s) as (-> & _ & _)
  end.
  { intros e s1. px. by destruct (chat _). }
  destruct (stop_user_bot_returns (io_kill io) u (host s)) as (r1 & w1 & H1).
  destruct (start_user_bot_returns (io_restart io) (io_now_restarted io) u w1)
    as (r2 & w2 & H2).
  destruct (remove_user_instance_returns (io_kill io) (io_rmtree io) u (host s))
    as (r3 & w3 & H3).
  destruct (String.eqb action "restart");
    [|destruct (String.eqb action "stop"); [|destruct (String.eqb action "delete")]].
  - red_sys. rewrite H1. red_sys. rewrite H2. red_sys. by destruct (chat _).
  - red_sys. rewrite H1. red_sys. by destruct (chat _).
  - red_sys. rewrite H3. red_sys. by destruct (chat _).
  - px. by destruct (chat _).
Qed.

(** C7. Along any run of the proxy from the start, whatever the provider,
    the host and the chat answer, a tenant's session comes to status
    "password_required" from another status (or from no session) only in
    [handle_verification_code], through its call of [verify_code] on that
    tenant's stored session, which is then in status "code_sent" and has
    not expired, the provider having answered the sign-in by demanding the
    password. No other status precedes it, and neither
    [start_authentication] nor [verify_password] leads to it. *)
Theorem C7_password_required_entered_by_verify_code (chat : ChatIO)
    (w : host_manager.Host) (ops : list ProxyOp) (op : ProxyOp) (u : Z)
    (a' : session_manager.AuthSession) :
  session_manager.active_sessions
    (sessions (run_proxy_op chat op (run_proxy_ops chat ops (empty_system w)))) !! u
  = Some a' →
  session_manager.status a' = "password_required" →
  session_manager.session_status (sessions (run_proxy_ops chat ops (empty_system w))) u
  ≠ Some "password_required" →
  ∃ now e cio code a,
    op = HandleVerificationCode now (Some e) cio u code ∧
    exn_class e = SessionPasswordNeededError ∧
    session_manager.active_sessions (sessions (run_proxy_ops chat ops (empty_system w))) !! u
    = Some a ∧
    session_manager.status a = "code_sent" ∧
    (now ≤ session_manager.expires_at a)%Z ∧
    a' = session_manager.set_status "password_required" a ∧
    sessions (run_proxy_op chat op (run_proxy_ops chat ops (empty_system w)))
    = (session_manager.verify_code now (Some e) u code
         (sessions (run_proxy_ops chat ops (empty_system w)))).2.
Proof.
  assert (Hagree : steps_agree (run_proxy_ops chat ops (empty_system w))).
  { apply run_proxy_ops_steps_agree. intros u0 p Hp. cbn in Hp.
    by rewrite lookup_empty in Hp. }
  set (s := run_proxy_ops chat ops (empty_system w)) in *. clearbody s.
  unfold session_manager.session_status.
  intros Hafter Hstatus Hbefore.
  assert (Hsame : sessions (run_proxy_op chat op s) = sessions s → False).
  { intros Heq. rewrite Heq in Hafter. rewrite Hafter in Hbefore. cbn in Hbefore.
    by rewrite Hstatus in Hbefore. }
  destruct op as [io cio u0 ph id h|now r cio u0 code|r cio u0 pw|io action u0|u0];
    cbn [run_proxy_op] in *.
  - rewrite start_phone_auth_sessions in Hafter.
    destruct (start_origin _ _ _ _ _ _ _ _ Hafter)
      as [Hk|? ? ? ? _ Hcs|? ? ? [=]|? ? ? ? [=]|? ? [=]].
    + rewrite Hk in Hbefore. cbn in Hbefore. by rewrite Hstatus in Hbefore.
    + congruence.
  - destruct (handle_verification_code_sessions now r cio chat u0 code s)
      as [Heq|[Hstep Heq]]; [by destruct (Hsame Heq)|].
    rewrite Heq in Hafter.
    destruct (verify_code_origin _ _ _ _ _ _ _ Hafter)
      as [Hk|? ? ? ? [=]|a now' code' [= -> -> -> ->] Ha ->
         |a now' e code' [= -> -> -> ->] He Ha Hlive Hclient ->|? ? [=]].
    + rewrite Hk in Hbefore. cbn in Hbefore. by rewrite Hstatus in Hbefore.
    + discriminate.
    + exists now', e, cio, code', a. split_and!; try done.
      apply get_pending_auth_step_Some in Hstep as (p & Hp & Hcode).
      destruct (Hagree u p Hp) as [[_ Hsent]|[Hpw _]]; [by apply Hsent|congruence].
  - destruct (handle_2fa_password_sessions r cio chat u0 pw s) as [Heq|Heq];
      [by destruct (Hsame Heq)|].
    rewrite Heq in Hafter.
    destruct (verify_password_origin _ _ _ _ _ _ Hafter)
      as [Hk|? ? ? ? [=]|? ? ? [=]|? ? ? ? [=]|a pw' [= -> -> ->] Ha Hst ->].
    + rewrite Hk in Hbefore. cbn in Hbefore. by rewrite Hstatus in Hbefore.
    + discriminate.
  - destruct Hsame. apply handle_bot_action_sessions.
  - by destruct Hsame.
Qed.

Lemma C7_password_required_entered_by_verify_code_witness :
  ∃ now e cio code a,
    HandleVerificationCode 150 (Some (mkExn SessionPasswordNeededError "2FA"))
      all_goes_well 7 "12345"
    = HandleVerificationCode now (Some e) cio 7 code ∧
    exn_class e = SessionPasswordNeededError ∧
    session_manager.active_sessions
      (sessions (run_proxy_ops quiet_chat
                   [StartPhoneAuth
                      (session_manager.mkStartIO None None (inr false) (inr "hash") 100 100)
                      all_goes_well 7 "+1000" 12345 "apihash"]
                   (empty_system host_manager.pool_of_one))) !! 7%Z
    = Some a ∧
    session_manager.status a = "code_sent" ∧
    (now ≤ session_manager.expires_at a)%Z ∧
    session_manager.mkAuthSession 7 "+1000" 12345 "apihash"
      "user_instances/user_7/sessions/telegram_session" "password_required"
      (Some "hash") 100 400
    = session_manager.set_status "password_required" a ∧
    sessions
      (run_proxy_op quiet_chat
         (HandleVerificationCode 150 (Some (mkExn SessionPasswordNeededError "2FA"))
            all_goes_well 7 "12345")
         (run_proxy_ops quiet_chat
            [StartPhoneAuth
               (session_manager.mkStartIO None None (inr false) (inr "hash") 100 100)
               all_goes_well 7 "+1000" 12345 "apihash"]
            (empty_system host_manager.pool_of_one)))
    = (session_manager.verify_code now (Some e) 7 code
         (sessions (run_proxy_ops quiet_chat
                      [StartPhoneAuth
                         (session_manager.mkStartIO None None (inr false) (inr "hash")
                            100 100)
                         all_goes_well 7 "+1000" 12345 "apihash"]
                      (empty_system host_manager.pool_of_one)))).2.
Proof.
  apply (C7_password_required_entered_by_verify_code quiet_chat host_manager.pool_of_one
           [StartPhoneAuth
              (session_manager.mkStartIO None None (inr false) (inr "hash") 100 100)
              all_goes_well 7 "+1000" 12345 "apihash"]
           (HandleVerificationCode 150 (Some (mkExn SessionPasswordNeededError "2FA"))
              all_goes_well 7 "12345")
           7
           (session_manager.mkAuthSession 7 "+1000" 12345 "apihash"
              "user_instances/user_7/sessions/telegram_session" "password_required"
              (Some "hash") 100 400)).
  - by vm_compute.
  - reflexivity.
  - vm_compute. discriminate.
Defined.

(** The proxy reaches the two managers only through their operations. *)
Lemma run_proxy_ops_managers chat (ops : list ProxyOp) (s : System) :
  (∃ aops, sessions (run_proxy_ops chat ops s) = session_manager.run_ops aops (sessions s)) ∧
  (∃ hops, host (run_proxy_ops chat ops s) = host_manager.run_host_ops hops (host s)).
Proof.
  revert s. induction ops as [|op ops IH]; intros s.
  { split; by exists []. }
  destruct (run_proxy_op_summary chat op s) as ((a1 & Ha1) & (h1 & Hh1) & _).
  destruct (IH (run_proxy_op chat op s)) as ((a2 & Ha2) & (h2 & Hh2)).
  cbn [run_proxy_ops foldl]. unfold run_proxy_ops in Ha2, Hh2. split.
  - exists (a1 ++ a2). unfold session_manager.run_ops in *.
    by rewrite Ha2, Ha1, foldl_app.
  - exists (h1 ++ h2). unfold host_manager.run_host_ops in *.
    by rewrite Hh2, Hh1, foldl_app.
Qed.

(** X27. What holds of the managers along their own operations holds
    along the proxy's: after any sequence of calls on the proxy no
    credential is over-subscribed, the registry is well formed, and every
    stored session has its client and one of the three statuses. *)
Theorem proxy_keeps_manager_invariants (chat : ChatIO) (ops : list ProxyOp) (s : System) :
  host_manager.within_capacity (host s) →
  host_manager.registry_ok (host s) →
  session_manager.sessions_ok (sessions s) →
  host_manager.within_capacity (host (run_proxy_ops chat ops s)) ∧
  host_manager.registry_ok (host (run_proxy_ops chat ops s)) ∧
  session_manager.sessions_ok (sessions (run_proxy_ops chat ops s)).
Proof.
  intros Hcap Hreg Hsess.
  destruct (run_proxy_ops_managers chat ops s) as ((aops & ->) & (hops & ->)).
  split_and!.
  - apply run_host_ops_invariant; [apply effect_within_capacity|done].
  - apply run_host_ops_invariant; [apply effect_registry_ok|done].
  - by apply run_ops_sessions_ok.
Qed.

Lemma proxy_keeps_manager_invariants_witness :
  host_manager.within_capacity
    (host (run_proxy_ops quiet_chat
             [Handle2FAPassword None all_goes_well 7 "secret";
              HandleBotAction (mkActionIO None (host_manager.mkSpawnIO None (inr 4343%Z)) 300 None)
                "restart" 7]
             awaiting_password_7)) ∧
  host_manager.registry_ok
    (host (run_proxy_ops quiet_chat
             [Handle2FAPassword None all_goes_well 7 "secret";
              HandleBotAction (mkActionIO None (host_manager.mkSpawnIO None (inr 4343%Z)) 300 None)
                "restart" 7]
             awaiting_password_7)) ∧
  session_manager.sessions_ok
    (sessions (run_proxy_ops quiet_chat
                 [Handle2FAPassword None all_goes_well 7 "secret";
                  HandleBotAction
                    (mkActionIO None (host_manager.mkSpawnIO None (inr 4343%Z)) 300 None)
                    "restart" 7]
                 awaiting_password_7)).
Proof.
  apply proxy_keeps_manager_invariants.
  - intros l c Hl.
    change (host awaiting_password_7) with host_manager.pool_of_one in *.
    cbn in Hl. apply lookup_singleton_Some in Hl as [<- <-].
    vm_compute. split; discriminate.
  - intros uid inst Hreg.
    change (host awaiting_password_7) with host_manager.pool_of_one in Hreg.
    cbn in Hreg. by rewrite lookup_empty in Hreg.
  - apply (run_ops_sessions_ok
             [session_manager.StartAuthentication
                (session_manager.mkStartIO None None (inr false) (inr "hash") 100 100)
                7 "+1000" 12345 "apihash";
              session_manager.VerifyCode 150 (Some (mkExn SessionPasswordNeededError "2FA"))
                7 "12345"]
             session_manager.empty_manager).
    intros uid a Ha. cbn in Ha. by rewrite lookup_empty in Ha.
Defined.

(** X28. A password is passed on exactly at the step "password", and then
    it always reaches the provider. In any state the proxy can be in after
    a sequence of calls, [handle_2fa_password] for a tenant whose pending
    step is "password" makes the session manager call the provider's
    sign-in with that password: the session manager refuses neither for a
    missing session, nor for its status, nor for a missing client. At any
    other step, or without pending entry, the sessions, the host and the
    pending entries are left as they are. *)
Theorem password_step_reaches_provider (chat : ChatIO) (ops : list ProxyOp) (s0 : System)
    (sign_in : option Exn) (cio : CompleteIO) (u : Z) (pw : string) :
  steps_agree s0 →
  session_manager.sessions_ok (sessions s0) →
  (get_pending_auth_step u (run_proxy_ops chat ops s0) = Some "password" →
   ∃ rest,
     session_manager.trace
       (sessions (handle_2fa_password sign_in cio chat u pw (run_proxy_ops chat ops s0)).2)
     = session_manager.trace (sessions (run_proxy_ops chat ops s0))
       ++ session_manager.SignInPassword u pw :: rest) ∧
  (get_pending_auth_step u (run_proxy_ops chat ops s0) ≠ Some "password" →
   same_core (run_proxy_ops chat ops s0)
     (handle_2fa_password sign_in cio chat u pw (run_proxy_ops chat ops s0)).2).
Proof.
  intros Hagree0 Hok0.
  pose proof (run_proxy_ops_steps_agree chat ops s0 Hagree0) as Hagree.
  assert (Hok : session_manager.sessions_ok (sessions (run_proxy_ops chat ops s0))).
  { destruct (run_proxy_ops_managers chat ops s0) as ((aops & ->) & _).
    by apply run_ops_sessions_ok. }
  set (s := run_proxy_ops chat ops s0) in *. clearbody s. clear Hagree0 Hok0.
  split.
  - intros (p & Hp & Hstep)%get_pending_auth_step_Some.
    destruct (Hagree u p Hp) as [[Hcode _]|(_ & a & Ha & Hstatus)]; [congruence|].
    destruct (Hok u a Ha) as (_ & [c Hc] & _).
    unfold handle_2fa_password.
    pose proof (try_except_core
      (s1 <- get ;;
       match pending_auth s1 !! u with
       | Some pending =>
           if negb (String.eqb (step pending) "password")
           then reply_text chat NoPending2FA ;;; ret (Some false)
           else
             result <- on_sessions (session_manager.verify_password sign_in u pw) ;;
             if session_manager.res_success result
             then _complete_authentication cio chat u ;;; ret (Some true)
             else reply_text chat (PasswordTryAgain (session_manager.res_message result)) ;;;
                  ret (Some false)
       | None => reply_text chat NoPending2FA ;;; ret (Some false)
       end)%py
      (λ e, log ERROR "Error handling 2FA password for user {user_id}: {e}" [u] ;;;
            reply_text chat TwoFactorError ;;; ret (Some false))%py
      s (λ e s1, log_reply_core chat _ _ _ _ _ s1)) as (-> & _ & _).
    unfold bind at 1. unfold get at 1. rewrite Hp, Hstep. cbn [String.eqb Ascii.eqb Bool.eqb andb negb].
    unfold bind at 1. unfold on_sessions.
    unfold session_manager.verify_password, session_manager.log, session_manager.emit.
    unfold try_except at 1. unfold bind at 1. unfold get at 1. rewrite Ha, Hstatus, Hc.
    cbn [String.eqb Ascii.eqb Bool.eqb andb negb].
    destruct sign_in as [e|].
    + px. cbn. destruct (chat _); cbn; rewrite <- app_assoc; by eexists.
    + px. cbn -[_complete_authentication].
      match goal with
      | |- context [_complete_authentication cio chat u ?s1] =>
          destruct (complete_authentication_summary cio chat u s1)
            as (o & s2 & Hcomplete & Hs2 & _); rewrite Hcomplete
      end.
      assert (Htrace : ∃ rest, session_manager.trace (sessions s2)
                = session_manager.trace (sessions s)
                  ++ session_manager.SignInPassword u pw :: rest).
      { rewrite Hs2. cbn. rewrite <- app_assoc. by eexists. }
      by destruct o as [[]|e].
  - intros Hstep. unfold handle_2fa_password.
    eapply same_core_trans.
    { apply try_except_core. intros e s1. apply log_reply_core. }
    unfold bind at 1. unfold get at 1.
    destruct (pending_auth s !! u) as [p|] eqn:Hp.
    2: { px. by destruct (chat _). }
    destruct (String.eqb (step p) "password") eqn:Heq; cbn [negb].
    2: { px. by destruct (chat _). }
    apply String.eqb_eq in Heq. destruct Hstep.
    apply get_pending_auth_step_Some. by exists p.
Qed.

Local Ltac agree_7 :=
  let u := fresh "u" in let p := fresh "p" in let Hp := fresh "Hp" in
  intros u p Hp;
  destruct (decide (u = 7%Z)) as [->|?];
  [vm_compute in Hp; injection Hp as <-; right; split; [done|]; eexists; by vm_compute
  |exfalso; revert Hp;
   replace (pending_auth awaiting_password_7)
     with (<[7%Z := mkPending "+1000" 12345 "apihash" "password"]> (∅ : gmap Z Pending))
     by (by vm_compute);
   rewrite lookup_insert_ne by done; by rewrite lookup_empty].

Local Ltac sessions_ok_7 :=
  apply (run_ops_sessions_ok
           [session_manager.StartAuthentication
              (session_manager.mkStartIO None None (inr false) (inr "hash") 100 100)
              7 "+1000" 12345 "apihash";
            session_manager.VerifyCode 150 (Some (mkExn SessionPasswordNeededError "2FA"))
              7 "12345"]
           session_manager.empty_manager);
  let uid := fresh "uid" in let a := fresh "a" in let Ha := fresh "Ha" in
  intros uid a Ha; cbn in Ha; by rewrite lookup_empty in Ha.

Lemma password_step_reaches_provider_witness :
  ∃ rest,
    session_manager.trace
      (sessions (handle_2fa_password None all_goes_well quiet_chat 7 "secret"
                   (run_proxy_ops quiet_chat [] awaiting_password_7)).2)
    = session_manager.trace (sessions (run_proxy_ops quiet_chat [] awaiting_password_7))
      ++ session_manager.SignInPassword 7 "secret" :: rest.
Proof.
  apply (password_step_reaches_provider quiet_chat [] awaiting_password_7 None
           all_goes_well 7 "secret").
  - agree_7.
  - sessions_ok_7.
  - by vm_compute.
Defined.

(** X29. A restart reports the start alone. When the bot is active and
    the signal to its process raises something other than
    [ProcessLookupError], the "restart" action of [handle_bot_action]
    answers that the bot was restarted although nothing was stopped or
    started: the failed stop is not looked at, the start finds the bot
    active, no file is copied and no process spawned, and the registry,
    the pool, the sessions and the pending entries are as before. *)
Theorem restart_reports_start_alone (io : ActionIO) (chat : ChatIO) (u : Z) (s : System)
    (inst : host_manager.UserInstance) :
  host_manager.user_instances (host s) !! u = Some inst →
  host_manager.status inst = "active" →
  host_manager.kill_fails inst (io_kill io) = true →
  ∃ o s' pid rest,
    handle_bot_action io chat "restart" u s = (o, s') ∧
    host_manager.truthy_pid (host_manager.process_id inst) = Some pid ∧
    trace s' = trace s ++ ReplyText (ActionMessage "✅ Bot restarted successfully") :: rest ∧
    host_manager.same_state (host s) (host s') ∧
    host_manager.trace (host s')
    = host_manager.trace (host s)
      ++ [host_manager.Kill pid;
          host_manager.Log ERROR "Error stopping bot for user {user_id}: {e}" [u];
          host_manager.Log INFO "Bot already active for user {user_id}" [u]] ∧
    sessions s' = sessions s ∧
    pending_auth s' = pending_auth s.
Proof.
  intros Hinst Hactive Hkill. unfold host_manager.kill_fails in Hkill.
  destruct (host_manager.truthy_pid (host_manager.process_id inst)) as [pid|] eqn:Hpid;
    [|done].
  destruct (io_kill io) as [e|] eqn:Hk; [|done].
  assert (Hstop : host_manager.stop_user_bot (Some e) u (host s)
                  = (Val false,
                     host_manager.mkHost (host_manager.heap (host s))
                       (host_manager.credentials (host s))
                       (host_manager.user_instances (host s))
                       (host_manager.user_dirs (host s))
                       (host_manager.trace (host s)
                        ++ [host_manager.Kill pid;
                            host_manager.Log ERROR
                              "Error stopping bot for user {user_id}: {e}" [u]]))).
  { unfold host_manager.stop_user_bot, host_manager.save_user_instances,
      host_manager.log, host_manager.emit, try_except, bind, ret, raise, get, modify, ext.
    rewrite Hinst, Hactive, Hpid. cbn.
    destruct e as [[] msg]; cbn in *; try done; by rewrite <- app_assoc. }
  unfold handle_bot_action.
  cbn [String.eqb Ascii.eqb Bool.eqb andb].
  unfold try_except, bind at 1. unfold bind at 1. unfold bind at 1.
  unfold on_host at 1. rewrite Hk, Hstop. cbn [host sessions pending_auth trace].
  unfold bind at 1. unfold on_host at 1. cbn [host sessions pending_auth trace].
  unfold host_manager.start_user_bot, host_manager.log, host_manager.emit,
    try_except, bind, ret, raise, get, modify, ext.
  cbn [host_manager.user_instances]. rewrite Hinst, Hactive.
  cbn [String.eqb Ascii.eqb Bool.eqb andb].
  red_sys. cbn.
  destruct (chat _); cbn; [destruct (chat _); cbn|];
    eexists _, _, pid, _; (split; [reflexivity|]); cbn; rewrite <- ?app_assoc;
    by split_and!.
Qed.

Lemma restart_reports_start_alone_witness :
  ∃ o s' pid rest,
    handle_bot_action
      (mkActionIO (Some (mkExn OtherException "Operation not permitted"))
         (host_manager.mkSpawnIO None (inr 4343%Z)) 300 None)
      quiet_chat "restart" 7 active_7 = (o, s') ∧
    host_manager.truthy_pid
      (host_manager.process_id
         (host_manager.mkUserInstance 7 "+1000" 0 (Some 4242%Z) "active" 200 200
            "user_instances/user_7/sessions" "user_instances/user_7/.env")) = Some pid ∧
    trace s' = trace active_7
               ++ ReplyText (ActionMessage "✅ Bot restarted successfully") :: rest ∧
    host_manager.same_state (host active_7) (host s') ∧
    host_manager.trace (host s')
    = host_manager.trace (host active_7)
      ++ [host_manager.Kill pid;
          host_manager.Log ERROR "Error stopping bot for user {user_id}: {e}" [7%Z];
          host_manager.Log INFO "Bot already active for user {user_id}" [7%Z]] ∧
    sessions s' = sessions active_7 ∧
    pending_auth s' = pending_auth active_7.
Proof.
  apply restart_reports_start_alone.
  - by vm_compute.
  - reflexivity.
  - reflexivity.
Defined.

Lemma start_authentication_authorized io u ph id h (m : session_manager.Manager) :
  session_manager.io_mkdir io = None →
  session_manager.io_connect io = None →
  session_manager.io_is_authorized io = inr true →
  session_manager.start_authentication io u ph id h m
  = (Val (session_manager.mkResult true "already_authenticated"
            "User is already authenticated" None),
     session_manager.mkManager (session_manager.active_sessions m)
       (<[u := session_manager.new_client u id h]> (session_manager.authenticated_clients m))
       (session_manager.trace m
        ++ [session_manager.MkdirSessions u; session_manager.Connect u;
            session_manager.IsUserAuthorized u;
            session_manager.Log INFO "User {user_id} already authenticated" [u]])).
Proof.
  intros Hmk Hcn Hau.
  unfold session_manager.start_authentication, session_manager.ext_val,
    session_manager.log, session_manager.emit, session_manager.set_authenticated_clients,
    try_except, bind, ret, raise, get, modify, ext.
  rewrite Hmk, Hcn, Hau. cbn. by rewrite <- !app_assoc.
Qed.

Lemma start_user_bot_phone io now u (w : host_manager.Host) (inst : host_manager.UserInstance) :
  host_manager.user_instances w !! u = Some inst →
  ∃ r w' inst',
    host_manager.start_user_bot io now u w = (Val r, w') ∧
    host_manager.user_instances w' !! u = Some inst' ∧
    host_manager.phone inst' = host_manager.phone inst.
Proof.
  intros Hinst.
  unfold host_manager.start_user_bot, host_manager.save_user_instances,
    host_manager.log, host_manager.emit, host_manager.set_user_instances,
    try_except, bind, ret, raise, get, modify, ext.
  rewrite Hinst.
  destruct (String.eqb (host_manager.status inst) "active"); cbn.
  { by eexists _, _, inst. }
  destruct (host_manager.io_copy io) as [e|]; cbn.
  { by eexists _, _, inst. }
  destruct (host_manager.io_spawn io) as [e|pid]; cbn.
  { by eexists _, _, inst. }
  eexists _, _, _. split; [done|]. cbn. by rewrite lookup_insert_eq.
Qed.

(** X30. The phone number typed is not used when the provider already
    knows the tenant. If [client.is_user_authorized()] answers true,
    [start_phone_auth] does the same whatever number it is given; and for
    a tenant with neither pending entry nor stored session, with room in
    the pool and a directory that can be written, the instance is
    registered under the phone "unknown". *)
Theorem already_authorized_ignores_phone (io : session_manager.StartIO) (cio : CompleteIO)
    (chat : ChatIO) (u id : Z) (h : string) (s : System) :
  session_manager.io_mkdir io = None →
  session_manager.io_connect io = None →
  session_manager.io_is_authorized io = inr true →
  (∀ ph ph', start_phone_auth io cio chat u ph id h s
             = start_phone_auth io cio chat u ph' id h s) ∧
  (∀ l c,
     pending_auth s !! u = None →
     session_manager.active_sessions (sessions s) !! u = None →
     io_config cio = host_manager.io_ok →
     host_manager.user_instances (host s) !! u = None →
     host_manager.get_available_credential (host s) = Some l →
     host_manager.heap (host s) !! l = Some c →
     (host_manager.in_use c < host_manager.max_users c)%Z →
     ∀ ph, ∃ inst,
       host_manager.user_instances (host (start_phone_auth io cio chat u ph id h s).2) !! u
       = Some inst ∧
       host_manager.phone inst = "unknown").
Proof.
  intros Hmk Hcn Hau. split.
  - intros ph ph'. unfold start_phone_auth, try_except, bind, on_sessions.
    rewrite (start_authentication_authorized io u ph id h (sessions s) Hmk Hcn Hau).
    rewrite (start_authentication_authorized io u ph' id h (sessions s) Hmk Hcn Hau).
    reflexivity.
  - intros l c Hpending Hsession Hcfg Hnew Hget Hl Hfree ph.
    destruct (create_user_instance_success (host s) u l c (io_now_alloc cio)
                (io_now_created cio) "unknown" "SERVICE_PROVIDED" Hnew Hget Hl Hfree)
      as (w1 & Hcreate & _ & _ & Hreg1 & _).
    assert (Hinst1 : host_manager.user_instances w1 !! u
                     = Some (host_manager.mkUserInstance u "unknown" l None "inactive"
                               (io_now_created cio) 0
                               (host_manager.user_path u +:+ "/sessions")
                               (host_manager.user_path u +:+ "/.env"))).
    { by rewrite Hreg1, lookup_insert_eq. }
    destruct (start_user_bot_phone (io_start cio) (io_now_started cio) u w1 _ Hinst1)
      as (r2 & w2 & inst2 & Hstart & Hinst2 & Hphone).
    unfold start_phone_auth.
    match goal with
    | |- context [try_except ?body ?handler s] =>
        destruct (try_except_core body handler s
                    (λ e s1, log_reply_core chat _ _ _ _ _ s1)) as (_ & -> & _)
    end.
    unfold bind at 1. unfold on_sessions.
    rewrite (start_authentication_authorized io u ph id h (sessions s) Hmk Hcn Hau).
    cbn [session_manager.res_success session_manager.res_status
         String.eqb Ascii.eqb Bool.eqb andb].
    unfold bind, ret.
    match goal with
    | |- context [_complete_authentication cio chat u ?s1] =>
        assert (Hcomplete : ∃ o s2, _complete_authentication cio chat u s1 = (o, s2)
                                    ∧ host s2 = w2); [|destruct Hcomplete as (o & s2 & -> & Hw2)]
    end.
    { unfold _complete_authentication. red_sys. rewrite Hpending.
      unfold session_manager.get_session_status. cbn [session_manager.active_sessions].
      rewrite Hsession. red_sys. rewrite Hcfg, Hcreate. red_sys. rewrite Hstart. red_sys.
      destruct r2; red_sys;
        repeat match goal with
               | |- context [chat ?n] => destruct (chat n); red_sys
               end;
        by eexists _, _. }
    exists inst2. split; [|done].
    destruct o as [[]|e]; cbn [snd]; by rewrite Hw2.
Qed.

Lemma already_authorized_ignores_phone_witness :
  (∀ ph ph',
     start_phone_auth (session_manager.mkStartIO None None (inr true) (inr "hash") 100 100)
       all_goes_well quiet_chat 7 ph 12345 "apihash" (empty_system host_manager.pool_of_one)
     = start_phone_auth (session_manager.mkStartIO None None (inr true) (inr "hash") 100 100)
         all_goes_well quiet_chat 7 ph' 12345 "apihash"
         (empty_system host_manager.pool_of_one)) ∧
  (∀ ph, ∃ inst,
     host_manager.user_instances
       (host (start_phone_auth
                (session_manager.mkStartIO None None (inr true) (inr "hash") 100 100)
                all_goes_well quiet_chat 7 ph 12345 "apihash"
                (empty_system host_manager.pool_of_one)).2) !! 7%Z
     = Some inst ∧
     host_manager.phone inst = "unknown").
Proof.
  destruct (already_authorized_ignores_phone
              (session_manager.mkStartIO None None (inr true) (inr "hash") 100 100)
              all_goes_well quiet_chat 7 12345 "apihash"
              (empty_system host_manager.pool_of_one)
              eq_refl eq_refl eq_refl) as [Hsame Hunknown].
  split; [exact Hsame|].
  apply (Hunknown 0 (host_manager.mkAPICredential 12345 "hash" "ASCL_App_1" 0 1 0 0));
    by vm_compute.
Defined.

End auth_proxy_properties.
